(** * SuperCSV: the typed encode/decode layer, the validating parser and the row store

    A shallow embedding of [modules/datatype.py], [modules/errors.py],
    [modules/parser.py] and [supercsv.py].  Python values are an inductive type, [str] is
    [string] (one [ascii] per character, so the model speaks about ASCII
    text), a [dict] is an association list in insertion order with unique
    keys, exceptions are the [Raise] case of [result], and the mutable
    [SCSVObject] together with the files it writes is threaded explicitly.

    What the repository merely calls (floating point conversions, [json],
    [datetime], [csv.DictReader]) is not Python code of the repository: it is
    the interface [Runtime], and every theorem holds for each runtime.  The
    conversions between integers and text are written out, with the limit
    the interpreter puts on the number of digits. *)

From Stdlib Require Import String Ascii List ZArith Lia Bool Arith.
From Stdlib Require Import DecimalString DecimalPos DecimalZ.
Import ListNotations.
Open Scope string_scope.
Open Scope list_scope.

Set Implicit Arguments.
Set Warnings "-register-all".

(** ** Exceptions and results *)

(** The three classes of [modules/errors.py] carry the message they are raised
    with; the built-in exception classes are kept by kind. *)
Inductive exn : Type :=
| ParseError (msg : string)
| AnnotationCoverageError (msg : string)
| UpdateError (msg : string)
| IndexError
| ValueError
| TypeError
| AttributeError
| OverflowError
| OtherError (name : string).

Inductive result (A : Type) : Type :=
| Ok (a : A)
| Raise (e : exn).

Arguments Ok {A} a.
Arguments Raise {A} e.

Definition bind {A B : Type} (r : result A) (k : A -> result B) : result B :=
  match r with
  | Ok a => k a
  | Raise e => Raise e
  end.

Declare Scope py_scope.
Delimit Scope py_scope with py.
Notation "x <- r ;; k" := (bind r (fun x => k))
  (at level 61, r at next level, right associativity) : py_scope.
Open Scope py_scope.

(** ** Text *)

(** The double quote, for the messages that quote a name. *)
Definition dquote : string := String "034" "".

(** The record terminator of [Array] ([_items_sep], the NUL character). *)
Definition nul : string := String "000" "".

Definition newline : string := String "010" "".

(** [str.isspace] on ASCII: tab, line feed, vertical tab, form feed, carriage
    return, the four separators 28..31 and the blank. *)
Definition is_space (c : ascii) : bool :=
  let n := nat_of_ascii c in
  (((9 <=? n) && (n <=? 13)) || ((28 <=? n) && (n <=? 32)))%nat.

(** The whitespace [int] skips around an ASCII numeral: the C locale's. *)
Definition is_c_space (c : ascii) : bool :=
  let n := nat_of_ascii c in
  (((9 <=? n) && (n <=? 13)) || (n =? 32))%nat.

Fixpoint lstrip_by (sp : ascii -> bool) (s : string) : string :=
  match s with
  | String c s' => if sp c then lstrip_by sp s' else s
  | EmptyString => EmptyString
  end.

Fixpoint rstrip_by (sp : ascii -> bool) (s : string) : string :=
  match s with
  | EmptyString => EmptyString
  | String c s' =>
      let r := rstrip_by sp s' in
      if sp c && (r =? "")%string then EmptyString else String c r
  end.

(** [s.strip()] *)
Definition strip (s : string) : string :=
  rstrip_by is_space (lstrip_by is_space s).

Definition lower_char (c : ascii) : ascii :=
  let n := nat_of_ascii c in
  if ((65 <=? n) && (n <=? 90))%nat then ascii_of_nat (n + 32) else c.

(** [s.lower()] *)
Fixpoint lower (s : string) : string :=
  match s with
  | EmptyString => EmptyString
  | String c s' => String (lower_char c) (lower s')
  end.

Fixpoint drop (n : nat) (s : string) : string :=
  match n, s with
  | S n', String _ s' => drop n' s'
  | _, _ => s
  end.

(** [sub in s] *)
Fixpoint contains (sub s : string) : bool :=
  prefix sub s ||
  match s with
  | EmptyString => false
  | String _ s' => contains sub s'
  end.

(** [s.partition(sep)]: the text before and after the leftmost occurrence of
    [sep], when there is one. *)
Fixpoint partition (sep s : string) : option (string * string) :=
  if prefix sep s then Some (EmptyString, drop (String.length sep) s)
  else
    match s with
    | EmptyString => None
    | String c s' =>
        match partition sep s' with
        | Some (a, b) => Some (String c a, b)
        | None => None
        end
    end.

(** [s.split(sep)] for a non-empty [sep]: cut at the leftmost occurrence and go
    on behind it.  Every cut consumes a character, so [n = length s] rounds
    are enough. *)
Fixpoint split_rounds (n : nat) (sep s : string) : list string :=
  match n with
  | O => [s]
  | S n' =>
      match partition sep s with
      | None => [s]
      | Some (a, b) => a :: split_rounds n' sep b
      end
  end.

Definition split (sep s : string) : list string :=
  split_rounds (String.length s) sep s.

(** [s.split(sep, 1)] *)
Definition split1 (sep s : string) : list string :=
  match partition sep s with
  | None => [s]
  | Some (a, b) => [a; b]
  end.

(** [sep.join(parts)] *)
Definition join (sep : string) (parts : list string) : string :=
  String.concat sep parts.

(** ** Dictionaries *)

(** A [dict] with [str] keys: the items in insertion order. *)
Definition dict (V : Type) : Type := list (string * V).

Fixpoint dict_get {V : Type} (k : string) (d : dict V) : option V :=
  match d with
  | [] => None
  | (k', v) :: d' => if (k' =? k)%string then Some v else dict_get k d'
  end.

(** [k in d] *)
Definition dict_mem {V : Type} (k : string) (d : dict V) : bool :=
  match dict_get k d with
  | Some _ => true
  | None => false
  end.

(** [d[k] = v]: an existing key keeps its place, a new one goes last. *)
Fixpoint dict_set {V : Type} (k : string) (v : V) (d : dict V) : dict V :=
  match d with
  | [] => [(k, v)]
  | (k', v') :: d' =>
      if (k' =? k)%string then (k', v) :: d' else (k', v') :: dict_set k v d'
  end.

Definition keys {V : Type} (d : dict V) : list string := map fst d.

Definition values {V : Type} (d : dict V) : list V := map snd d.

(** [x in xs] for a list of strings *)
Definition mem (x : string) (xs : list string) : bool :=
  existsb (String.eqb x) xs.

(** ** Python values *)

(** The two kinds of value the repository never looks inside: floating point
    numbers and [datetime] objects. *)
Class PyTypes : Type := {
  pyfloat : Type;
  datetime : Type
}.

(** The values of [LowType] and of the high-level kinds: [None], [bool],
    [int], [float], [str], [list], [dict] with [str] keys, [datetime].  Objects
    of other classes are outside the model. *)
Inductive value `{PyTypes} : Type :=
| VNone
| VBool (b : bool)
| VInt (z : Z)
| VFloat (f : pyfloat)
| VStr (s : string)
| VList (items : list value)
| VDict (items : list (string * value))
| VDateTime (d : datetime).

(** [type(x)] *)
Inductive pytype : Type :=
| t_NoneType | t_bool | t_int | t_float | t_str | t_list | t_dict | t_datetime.

Definition pytype_eqb (a b : pytype) : bool :=
  match a, b with
  | t_NoneType, t_NoneType | t_bool, t_bool | t_int, t_int | t_float, t_float
  | t_str, t_str | t_list, t_list | t_dict, t_dict | t_datetime, t_datetime => true
  | _, _ => false
  end.

Definition type_of `{PyTypes} (x : value) : pytype :=
  match x with
  | VNone => t_NoneType
  | VBool _ => t_bool
  | VInt _ => t_int
  | VFloat _ => t_float
  | VStr _ => t_str
  | VList _ => t_list
  | VDict _ => t_dict
  | VDateTime _ => t_datetime
  end.

(** [T_Row]: a row, column name to value. *)
Definition T_Row `{PyTypes} : Type := dict value.

(** What the repository calls and does not define. *)
Class Runtime `{PyTypes} : Type := {
  (** [str(f)] *)
  float_str : pyfloat -> string;
  (** [float(s)] for a string *)
  float_of_str : string -> result pyfloat;
  (** [float(n)] for an integer *)
  float_of_int : Z -> result pyfloat;
  (** [int(f)] *)
  int_of_float : pyfloat -> result Z;
  (** [bool(f)] *)
  float_truth : pyfloat -> bool;
  (** [str(x)] for a [list] or a [dict]; it raises when an element has no
      text (an integer over the digit limit) or the nesting is too deep *)
  container_str : value -> result string;
  (** [str(d)] *)
  datetime_str : datetime -> string;
  (** [d.timestamp()] *)
  timestamp : datetime -> result pyfloat;
  (** [datetime.fromtimestamp(f)] *)
  fromtimestamp : pyfloat -> result datetime;
  (** [json.dumps(x)] *)
  json_dumps : value -> result string;
  (** [json.loads(s)] *)
  json_loads : string -> result value;
  (** [csv.DictReader(StringIO(text))]: what reading its [fieldnames] comes
      to ([None] when the text has no line) and what iterating over it comes
      to (the rows, each keyed by field names); either is absent when the
      reader raises [csv.Error] there.  What a row has beyond the fields,
      stored under the key [None], is not represented. *)
  csv_DictReader : string -> option (option (list string)) * option (list T_Row)
}.

(** ** Built-in conversions *)

Definition Z_of_bool (b : bool) : Z := if b then 1%Z else 0%Z.

Definition digit_of (c : ascii) : option Z :=
  let n := nat_of_ascii c in
  if ((48 <=? n) && (n <=? 57))%nat then Some (Z.of_nat (n - 48)) else None.

(** The limit of the interpreter on the digits of an integer it writes as
    text or reads from a text ([sys.get_int_max_str_digits()]: 4300 unless it
    is changed, which the repository does not do). *)
Definition int_max_str_digits : N := 4300.

(** The number of decimal digits in a text. *)
Fixpoint digit_count (s : string) : N :=
  match s with
  | EmptyString => 0
  | String c s' =>
      match digit_of c with
      | Some _ => N.succ (digit_count s')
      | None => digit_count s'
      end
  end.

(** The decimal numeral of an integer. *)
Definition numeral (z : Z) : string := NilZero.string_of_int (Z.to_int z).

Definition in_digit_limit (z : Z) : bool :=
  (digit_count (numeral z) <=? int_max_str_digits)%N.

(** [str(n)] for an integer, and [n] in an f-string: the numeral, and
    [ValueError] when it has more digits than the limit. *)
Definition int_str (z : Z) : result string :=
  if in_digit_limit z then Ok (numeral z) else Raise ValueError.

(** Decimal digits, single underscores allowed between two digits. *)
Fixpoint digits_value (acc : Z) (after_digit : bool) (s : string) : option Z :=
  match s with
  | EmptyString => if after_digit then Some acc else None
  | String c s' =>
      match digit_of c with
      | Some d => digits_value (10 * acc + d)%Z true s'
      | None =>
          if (c =? "_")%char && after_digit then digits_value acc false s' else None
      end
  end.

(** [int(s)] for a string: surrounding whitespace, an optional sign, digits;
    [ValueError] for a text with more digits than the limit, as for a text
    that is no numeral. *)
Definition int_of_str (s : string) : result Z :=
  let t := rstrip_by is_c_space (lstrip_by is_c_space s) in
  let parsed :=
    match t with
    | String "-" r => option_map Z.opp (digits_value 0 false r)
    | String "+" r => digits_value 0 false r
    | _ => digits_value 0 false t
    end in
  if (int_max_str_digits <? digit_count t)%N then Raise ValueError
  else
    match parsed with
    | Some z => Ok z
    | None => Raise ValueError
    end.

(** [str(x)], and [x] in an f-string *)
Definition py_str `{Runtime} (x : value) : result string :=
  match x with
  | VNone => Ok "None"
  | VBool true => Ok "True"
  | VBool false => Ok "False"
  | VInt z => int_str z
  | VFloat f => Ok (float_str f)
  | VStr s => Ok s
  | VList _ | VDict _ => container_str x
  | VDateTime d => Ok (datetime_str d)
  end.

(** [int(x)] *)
Definition py_int `{Runtime} (x : value) : result Z :=
  match x with
  | VBool b => Ok (Z_of_bool b)
  | VInt z => Ok z
  | VFloat f => int_of_float f
  | VStr s => int_of_str s
  | _ => Raise TypeError
  end.

(** [float(x)] *)
Definition py_float `{Runtime} (x : value) : result pyfloat :=
  match x with
  | VBool b => float_of_int (Z_of_bool b)
  | VInt z => float_of_int z
  | VFloat f => Ok f
  | VStr s => float_of_str s
  | _ => Raise TypeError
  end.

(** The truth value of [x] in a condition. *)
Definition py_truth `{Runtime} (x : value) : bool :=
  match x with
  | VNone => false
  | VBool b => b
  | VInt z => negb (z =? 0)%Z
  | VFloat f => float_truth f
  | VStr s => negb (s =? "")%string
  | VList l => match l with [] => false | _ => true end
  | VDict d => match d with [] => false | _ => true end
  | VDateTime _ => true
  end.

(** The characters of a string, each a string. *)
Fixpoint chars (s : string) : list string :=
  match s with
  | EmptyString => []
  | String c s' => String c EmptyString :: chars s'
  end.

(** [for item in x]: the items a [for] loop over [x] sees. *)
Definition py_iter `{PyTypes} (x : value) : result (list value) :=
  match x with
  | VList l => Ok l
  | VStr s => Ok (map VStr (chars s))
  | VDict d => Ok (map (fun kv => VStr (fst kv)) d)
  | _ => Raise TypeError
  end.

(** ** The type variants ([modules/datatype.py]) *)

Module datatype.

(** The subclasses of [_HighType]. *)
Inductive _HighType : Type :=
| Integer | Float | String | Boolean | Array | DateTime | Object.

Module Integer.
Definition encode `{Runtime} (data : value) : result value :=
  z <- py_int data ;; Ok (VInt z).
Definition decode `{Runtime} (data : value) : result value :=
  z <- py_int data ;; Ok (VInt z).
End Integer.

Module Float.
Definition encode `{Runtime} (data : value) : result value :=
  f <- py_float data ;; Ok (VFloat f).
Definition decode `{Runtime} (data : value) : result value :=
  f <- py_float data ;; Ok (VFloat f).
End Float.

Module String.
Definition encode `{Runtime} (data : value) : result value :=
  s <- py_str data ;; Ok (VStr s).
Definition decode `{Runtime} (data : value) : result value :=
  s <- py_str data ;; Ok (VStr s).
End String.

Module Boolean.
Definition encode `{Runtime} (data : value) : result value :=
  Ok (VStr (if py_truth data then "1" else "0")).
(** [data == "1"] *)
Definition decode `{Runtime} (data : value) : result value :=
  Ok (VBool match data with VStr s => (s =? "1")%string | _ => false end).
End Boolean.

Module Array.

Definition _base_types_translation : list (pytype * string) :=
  [(t_bool, "B"); (t_str, "S"); (t_int, "I"); (t_float, "F")].

Definition _items_sep : string := nul.

(** [_base_types_translation.get(item_t)] *)
Fixpoint prefix_of (item_t : pytype) (table : list (pytype * string)) : option string :=
  match table with
  | [] => None
  | (t, p) :: rest => if pytype_eqb t item_t then Some p else prefix_of item_t rest
  end.

(** The loop of [decode] over [_base_types_translation.items()]. *)
Fixpoint basetype_of (type_repr : string) (table : list (pytype * string)) : option pytype :=
  match table with
  | [] => None
  | (t, p) :: rest => if (p =? type_repr)%string then Some t else basetype_of type_repr rest
  end.

(** [basetype(value)] for a string [value]: a call of [bool], [str], [int] or
    [float]. *)
Definition construct `{Runtime} (basetype : pytype) (text : string) : result value :=
  match basetype with
  | t_bool => Ok (VBool (negb (text =? "")%string))
  | t_str => Ok (VStr text)
  | t_int => z <- int_of_str text ;; Ok (VInt z)
  | t_float => f <- float_of_str text ;; Ok (VFloat f)
  | _ => Raise TypeError
  end.

(** The loop of [encode]; the message of its [ValueError] has the item in it,
    and so has the record: both take the text of the item. *)
Fixpoint encode_items `{Runtime} (chain : string) (data : list value) : result string :=
  match data with
  | [] => Ok chain
  | item :: rest =>
      match prefix_of (type_of item) _base_types_translation with
      | None => _ <- py_str item ;; Raise ValueError
      | Some dt_prefix =>
          text <- py_str item ;;
          encode_items (chain ++ dt_prefix ++ "::" ++ text ++ _items_sep) rest
      end
  end.

Definition encode `{Runtime} (data : value) : result value :=
  items <- py_iter data ;;
  chain <- encode_items "" items ;;
  Ok (VStr chain).

Fixpoint decode_items `{Runtime} (seq : list value) (items : list string) : result (list value) :=
  match items with
  | [] => Ok seq
  | item :: rest =>
      if (item =? "")%string then decode_items seq rest
      else
        match split1 "::" item with
        | [type_repr; text] =>
            match basetype_of type_repr _base_types_translation with
            | None => Raise ValueError
            | Some basetype =>
                v <- construct basetype text ;;
                decode_items (seq ++ [v]) rest
            end
        | _ => Raise ValueError
        end
  end.

Definition decode `{Runtime} (data : value) : result value :=
  match data with
  | VStr s =>
      seq <- decode_items [] (split _items_sep s) ;;
      Ok (VList seq)
  | _ => Raise AttributeError
  end.

End Array.

Module DateTime.
Definition encode `{Runtime} (data : value) : result value :=
  match data with
  | VDateTime d => f <- timestamp d ;; Ok (VStr (float_str f))
  | _ => Raise AttributeError
  end.
Definition decode `{Runtime} (data : value) : result value :=
  f <- py_float data ;;
  d <- fromtimestamp f ;;
  Ok (VDateTime d).
End DateTime.

Module Object.
Definition encode `{Runtime} (data : value) : result value :=
  s <- json_dumps data ;; Ok (VStr s).
Definition decode `{Runtime} (data : value) : result value :=
  match data with
  | VStr s => json_loads s
  | _ => Raise TypeError
  end.
End Object.

(** [t.encode(data)] for the class [t]. *)
Definition encode `{Runtime} (t : _HighType) (data : value) : result value :=
  match t with
  | Integer => Integer.encode data
  | Float => Float.encode data
  | String => String.encode data
  | Boolean => Boolean.encode data
  | Array => Array.encode data
  | DateTime => DateTime.encode data
  | Object => Object.encode data
  end.

(** [t.decode(data)] for the class [t]. *)
Definition decode `{Runtime} (t : _HighType) (data : value) : result value :=
  match t with
  | Integer => Integer.decode data
  | Float => Float.decode data
  | String => String.decode data
  | Boolean => Boolean.decode data
  | Array => Array.decode data
  | DateTime => DateTime.decode data
  | Object => Object.decode data
  end.

Definition ANNOTATIONS_TABLE : dict _HighType :=
  [ ("interger", Integer); ("int", Integer); ("i", Integer);
    ("float", Float); ("f", Float);
    ("string", String); ("str", String); ("s", String);
    ("boolean", Boolean); ("bool", Boolean); ("b", Boolean);
    ("array", Array); ("arr", Array); ("a", Array);
    ("object", Object); ("obj", Object); ("o", Object) ].

End datatype.

(** ** Lists indexed the Python way *)

(** The position a list index denotes: a negative index counts from the end. *)
Definition position {A : Type} (l : list A) (i : Z) : option nat :=
  let j := if (i <? 0)%Z then (i + Z.of_nat (List.length l))%Z else i in
  if ((0 <=? j) && (j <? Z.of_nat (List.length l)))%Z then Some (Z.to_nat j) else None.

Fixpoint replace_nth {A : Type} (n : nat) (a : A) (l : list A) : list A :=
  match l, n with
  | [], _ => []
  | _ :: l', O => a :: l'
  | x :: l', S n' => x :: replace_nth n' a l'
  end.

Fixpoint remove_nth {A : Type} (n : nat) (l : list A) : list A :=
  match l, n with
  | [], _ => []
  | _ :: l', O => l'
  | x :: l', S n' => x :: remove_nth n' l'
  end.

(** [l[i]] *)
Definition getitem {A : Type} (l : list A) (i : Z) : result A :=
  match position l i with
  | Some n => match nth_error l n with Some a => Ok a | None => Raise IndexError end
  | None => Raise IndexError
  end.

(** [l[i] = a] *)
Definition setitem {A : Type} (l : list A) (i : Z) (a : A) : result (list A) :=
  match position l i with
  | Some n => Ok (replace_nth n a l)
  | None => Raise IndexError
  end.

(** [l.pop(i)], the list that is left. *)
Definition pop {A : Type} (l : list A) (i : Z) : result (list A) :=
  match position l i with
  | Some n => Ok (remove_nth n l)
  | None => Raise IndexError
  end.

(** The integer an index stands for ([bool] is a subclass of [int]); anything
    else cannot index a list. *)
Definition index_value `{PyTypes} (index : value) : result Z :=
  match index with
  | VInt z => Ok z
  | VBool b => Ok (Z_of_bool b)
  | _ => Raise TypeError
  end.

(** ** The parser and the row store ([modules/parser.py]) *)

Module parser.

Import datatype.

Record SCSVObject `{PyTypes} : Type := {
  annotations : dict _HighType;
  fields : list string;
  enc_rows : list T_Row;
  file_path : option string;
  raw_header : option string
}.

(** The object after [self.enc_rows] was changed in place. *)
Definition with_rows `{PyTypes} (o : SCSVObject) (rows : list T_Row) : SCSVObject :=
  {| annotations := annotations o;
     fields := fields o;
     enc_rows := rows;
     file_path := file_path o;
     raw_header := raw_header o |}.

(** *** Parsing *)

Definition invalid_data_type (column type_name : string) : exn :=
  ParseError ("Invalid data type found for: " ++ column
              ++ " (" ++ dquote ++ type_name ++ dquote ++ ")").

(** The body of the loop of [_parse_header], from the annotations found so far. *)
Fixpoint parse_annotations (annotations : dict _HighType) (lines : list string)
  : result (dict _HighType) :=
  match lines with
  | [] => Ok annotations
  | annotation :: rest =>
      if (annotation =? "")%string then parse_annotations annotations rest
      else
        match split ":" annotation with
        | [column; type_name] =>
            let column := strip column in
            let type_name := strip (lower type_name) in
            match dict_get type_name ANNOTATIONS_TABLE with
            | None => Raise (invalid_data_type column type_name)
            | Some t => parse_annotations (dict_set column t annotations) rest
            end
        | _ => Raise ValueError
        end
  end.

Definition _parse_header (header : string) : result (dict _HighType) :=
  parse_annotations [] (split newline header).

Definition not_annotated (field : string) : exn :=
  AnnotationCoverageError ("Not annotated field: " ++ dquote ++ field ++ dquote).

Definition annotated_invalid (annotated_field : string) : exn :=
  AnnotationCoverageError
    ("Annotated invalid field: " ++ dquote ++ annotated_field ++ dquote).

Definition _ensure_types_coverage (fields : list string)
  (annotations : dict _HighType) : result unit :=
  match find (fun field => negb (dict_mem field annotations)) fields with
  | Some field => Raise (not_annotated field)
  | None =>
      match find (fun annotated_field => negb (mem annotated_field fields))
                 (keys annotations) with
      | Some annotated_field => Raise (annotated_invalid annotated_field)
      | None => Ok tt
      end
  end.

Definition separator_not_found : exn :=
  ParseError ("Header separator not found " ++ dquote ++ "@@" ++ dquote).

(** [csv.Error], the one exception the reader raises. *)
Definition csv_Error : exn := OtherError "csv.Error".

Definition read_or_raise {A : Type} (r : option A) : result A :=
  match r with
  | Some a => Ok a
  | None => Raise csv_Error
  end.

(** [reader.fieldnames] *)
Definition fieldnames `{PyTypes}
  (reader : option (option (list string)) * option (list T_Row))
  : result (option (list string)) :=
  read_or_raise (fst reader).

(** [[row for row in reader]] *)
Definition _dictreader_to_rows `{PyTypes}
  (reader : option (option (list string)) * option (list T_Row))
  : result (list T_Row) :=
  read_or_raise (snd reader).

(** [header, raw_data = raw_content.split("@@")] raises [ValueError] unless the
    split has two parts; looping over [fieldnames] when it is [None] raises
    [TypeError]. *)
Definition _parse `{Runtime} (raw_content : string) (fp : option string)
  : result SCSVObject :=
  if negb (contains "@@" raw_content) then Raise separator_not_found
  else
    match split "@@" raw_content with
    | [header; raw_data] =>
        annotations <- _parse_header (strip header) ;;
        let reader := csv_DictReader (strip raw_data) in
        fields <- fieldnames reader ;;
        match fields with
        | None => Raise TypeError
        | Some fields =>
            _ <- _ensure_types_coverage fields annotations ;;
            rows <- _dictreader_to_rows reader ;;
            Ok {| annotations := annotations;
                  fields := fields;
                  enc_rows := rows;
                  file_path := fp;
                  raw_header := Some header |}
        end
    | _ => Raise ValueError
    end.

(** *** Rows through the annotations *)

Definition invalid_column (col : string) : exn :=
  UpdateError ("Invalid column: " ++ col).

Definition invalid_column_quoted (col : string) : exn :=
  UpdateError ("Invalid column: " ++ dquote ++ col ++ dquote).

(** The loop of [_encode_row], from the dictionary [casted] built so far. *)
Fixpoint encode_columns `{Runtime} (annotations : dict _HighType) (casted : T_Row)
  (items : list (string * value)) : result T_Row :=
  match items with
  | [] => Ok casted
  | (col, val) :: rest =>
      match dict_get col annotations with
      | None => Raise (invalid_column col)
      | Some t =>
          v <- encode t val ;;
          encode_columns annotations (dict_set col v casted) rest
      end
  end.

Definition _encode_row `{Runtime} (annotations : dict _HighType) (data : T_Row)
  : result T_Row :=
  encode_columns annotations [] data.

(** The loop of [_decode_row]. *)
Fixpoint decode_columns `{Runtime} (annotations : dict _HighType) (decoded : T_Row)
  (items : list (string * value)) : result T_Row :=
  match items with
  | [] => Ok decoded
  | (col, val) :: rest =>
      match dict_get col annotations with
      | None => Raise (invalid_column col)
      | Some t =>
          v <- decode t val ;;
          decode_columns annotations (dict_set col v decoded) rest
      end
  end.

Definition _decode_row `{Runtime} (annotations : dict _HighType) (data : T_Row)
  : result T_Row :=
  decode_columns annotations [] data.

(** *** The mutable store *)

(** The files written so far: path to content. *)
Definition filesystem : Type := dict string.

(** What a method can change: the object and the files. *)
Record world `{PyTypes} : Type := {
  self : SCSVObject;
  files : filesystem
}.

(** A method: it returns or raises, and leaves a world behind either way. *)
Definition method `{PyTypes} (A : Type) : Type := world -> result A * world.

Definition ret `{PyTypes} {A : Type} (a : A) : method A :=
  fun w => (Ok a, w).

Definition lift `{PyTypes} {A : Type} (r : result A) : method A :=
  fun w => (r, w).

Definition raise `{PyTypes} {A : Type} (e : exn) : method A :=
  lift (Raise e).

Definition then_ `{PyTypes} {A B : Type} (c : method A) (k : A -> method B) : method B :=
  fun w =>
    match c w with
    | (Ok a, w') => k a w'
    | (Raise e, w') => (Raise e, w')
    end.

Definition get_self `{PyTypes} : method SCSVObject :=
  fun w => (Ok (self w), w).

Definition put_rows `{PyTypes} (rows : list T_Row) : method unit :=
  fun w => (Ok tt, {| self := with_rows (self w) rows; files := files w |}).

(** [file.write(content)] on a file opened for writing; opening it already
    empties it.  Writing succeeds in the model; the lock file and the mutual
    exclusion of [filelock] are not modelled. *)
Definition write_file `{PyTypes} (path content : string) : method unit :=
  fun w => (Ok tt, {| self := self w; files := dict_set path content (files w) |}).

Declare Scope method_scope.
Delimit Scope method_scope with method.
Notation "x <- c ;; k" := (then_ c (fun x => k))
  (at level 61, c at next level, right associativity) : method_scope.
Notation "c ;; k" := (then_ c (fun _ => k))
  (at level 61, right associativity) : method_scope.

(** [map(str, values)] as [join] consumes it: the texts in order, up to the
    first value whose text raises. *)
Fixpoint texts `{Runtime} (vs : list value) : result (list string) :=
  match vs with
  | [] => Ok []
  | v :: rest =>
      s <- py_str v ;;
      ss <- texts rest ;;
      Ok (s :: ss)
  end.

(** [",".join(map(str, row.values()))] *)
Definition row_line `{Runtime} (row : T_Row) : result string :=
  cells <- texts (values row) ;; Ok (join "," cells).

(** The lines of the rows, up to the first row with a value whose text
    raises. *)
Fixpoint row_lines `{Runtime} (rows : list T_Row) : result (list string) :=
  match rows with
  | [] => Ok []
  | row :: rest =>
      line <- row_line row ;;
      lines <- row_lines rest ;;
      Ok (line :: lines)
  end.

(** The text [_save] builds, from a header text. *)
Definition document `{Runtime} (header : string) (fields : list string)
  (rows : list T_Row) : result string :=
  lines <- row_lines rows ;;
  Ok (header ++ "@@" ++ newline
      ++ join "," fields ++ newline
      ++ join newline lines ++ newline)%string.

(** [_save]: opening the file empties it; the text is built after that, so
    an exception of the building ([TypeError] without a header text,
    [ValueError] for an integer over the digit limit) leaves it empty. *)
Definition _save `{Runtime} : method unit :=
  (o <- get_self ;;
   match file_path o with
   | None | Some EmptyString => ret tt
   | Some fp =>
       write_file fp "" ;;
       match raw_header o with
       | None => raise TypeError
       | Some header =>
           content <- lift (document header (fields o) (enc_rows o)) ;;
           write_file fp content
       end
   end)%method.

(** [isinstance(x, int)]; [bool] is a subclass of [int]. *)
Definition isinstance_int `{PyTypes} (x : value) : bool :=
  match x with
  | VInt _ | VBool _ => true
  | _ => false
  end.

(** [index in range(0, stop)] for an integer [index] (the test is reached by
    integers only). *)
Definition in_range `{PyTypes} (index : value) (stop : nat) : bool :=
  match index_value index with
  | Ok i => ((0 <=? i) && (i <? Z.of_nat stop))%Z
  | Raise _ => false
  end.

(** The message of the second [IndexError] has the index in it: the text of
    the index is taken before the exception is raised. *)
Definition _validate_index `{Runtime} (index : value) : method unit :=
  (o <- get_self ;;
   if negb (isinstance_int index) then raise IndexError
   else if negb (in_range index (List.length (enc_rows o))) then
     _ <- lift (py_str index) ;; raise IndexError
   else ret tt)%method.

(** [self.enc_rows[index]] *)
Definition row_at `{PyTypes} (index : value) : method T_Row :=
  (o <- get_self ;;
   i <- lift (index_value index) ;;
   lift (getitem (enc_rows o) i))%method.

(** [read]: an [IndexError] of the body is caught and [None] returned. *)
Definition read `{Runtime} (index : value) : method (option T_Row) :=
  fun w =>
    match (_validate_index index ;;
           enc_row <- row_at index ;;
           o <- get_self ;;
           lift (_decode_row (annotations o) enc_row))%method w with
    | (Ok dec_row, w') => (Ok (Some dec_row), w')
    | (Raise IndexError, w') => (Ok None, w')
    | (Raise e, w') => (Raise e, w')
    end.

Definition update_row `{Runtime} (index : value) (row_data : T_Row) : method unit :=
  (_validate_index index ;;
   o <- get_self ;;
   encoded_row <- lift (_encode_row (annotations o) row_data) ;;
   i <- lift (index_value index) ;;
   rows <- lift (setitem (enc_rows o) i encoded_row) ;;
   put_rows rows ;;
   _save)%method.

Definition update_field `{Runtime} (index : value) (col : string) (val : value)
  : method unit :=
  (_validate_index index ;;
   o <- get_self ;;
   match dict_get col (annotations o) with
   | None => raise (invalid_column_quoted col)
   | Some t =>
       v <- lift (encode t val) ;;
       i <- lift (index_value index) ;;
       row <- lift (getitem (enc_rows o) i) ;;
       rows <- lift (setitem (enc_rows o) i (dict_set col v row)) ;;
       put_rows rows ;;
       _save
   end)%method.

Definition remove_row `{Runtime} (index : value) : method unit :=
  (_validate_index index ;;
   o <- get_self ;;
   i <- lift (index_value index) ;;
   rows <- lift (pop (enc_rows o) i) ;;
   put_rows rows ;;
   _save)%method.

Definition insert_row `{Runtime} (row_data : T_Row) : method unit :=
  (o <- get_self ;;
   encoded_row <- lift (_encode_row (annotations o) row_data) ;;
   put_rows (enc_rows o ++ [encoded_row]) ;;
   _save)%method.

(** [__getitem__] and [__setitem__] *)
Definition __getitem__ `{Runtime} (index : value) : method (option T_Row) :=
  read index.

Definition __setitem__ `{Runtime} (index : value) (row_data : T_Row) : method unit :=
  update_row index row_data.

(** *** [read_all]

    The generator object: where its [for] loop stands in [self.enc_rows], or
    that it has ended.  The loop walks the list object the store mutates in
    place, so [next] looks the position up in the rows as they are then. *)
Inductive generator : Type :=
| At (pos : nat)
| Ended.

Inductive step `{PyTypes} : Type :=
| Yield (dec_row : T_Row)
| StopIteration
| Failed (e : exn).

(** [read_all()]: nothing runs before the first [next]. *)
Definition read_all : generator := At 0.

(** [next(g)] *)
Definition next `{Runtime} (g : generator) (w : world) : step * generator :=
  match g with
  | Ended => (StopIteration, Ended)
  | At pos =>
      match nth_error (enc_rows (self w)) pos with
      | None => (StopIteration, Ended)
      | Some enc_row =>
          match _decode_row (annotations (self w)) enc_row with
          | Ok dec_row => (Yield dec_row, At (S pos))
          | Raise e => (Failed e, Ended)
          end
      end
  end.

End parser.

(** ** The entry points ([supercsv.py]) *)

Module supercsv.

Definition parse_string `{Runtime} (content : string) : result parser.SCSVObject :=
  parser._parse content None.

(** [open(fp)] on a path that holds no file raises. *)
Definition use_file `{Runtime} (fp : string) (files : parser.filesystem)
  : result parser.SCSVObject :=
  match dict_get fp files with
  | Some raw_content => parser._parse raw_content (Some fp)
  | None => Raise (OtherError "FileNotFoundError")
  end.

End supercsv.

(** ** A runtime to run examples in

    The theorems are proved for every runtime; the examples need one to run
    in.  This one has no floating point numbers and no [datetime] objects (the
    two types are empty, so a conversion to one of them raises), serialises
    nothing to JSON and reads none, and spells out as text no list and no
    dictionary but the empty ones.  Its reader takes comma-separated text that
    uses no quoting and no carriage return, and never raises: a line is split
    at the commas, empty lines are skipped, a short row is filled up with
    [None], what a long row has too much is dropped.
    The examples hold booleans, integers and strings only, and none of them
    reaches an operation this runtime leaves out. *)

Definition plain_types : PyTypes :=
  {| pyfloat := Empty_set; datetime := Empty_set |}.

(** [dict(zip(fieldnames, row))], missing values [None]. *)
Fixpoint zip_row `{PyTypes} (fieldnames cells : list string) (row : T_Row) : T_Row :=
  match fieldnames with
  | [] => row
  | f :: fs =>
      match cells with
      | [] => zip_row fs [] (dict_set f VNone row)
      | c :: cs => zip_row fs cs (dict_set f (VStr c) row)
      end
  end.

Definition plain_reader `{PyTypes} (text : string)
  : option (option (list string)) * option (list T_Row) :=
  match text with
  | EmptyString => (Some None, Some [])
  | _ =>
      match split newline text with
      | [] => (Some None, Some [])
      | first :: lines =>
          let fieldnames := split "," first in
          (Some (Some fieldnames),
           Some (map (fun line => zip_row fieldnames (split "," line) [])
                     (filter (fun line => negb (line =? "")%string) lines)))
      end
  end.

Definition plain_runtime : @Runtime plain_types :=
  {| float_str := fun f : @pyfloat plain_types => match f with end;
     float_of_str := fun _ => Raise ValueError;
     float_of_int := fun _ => Raise OverflowError;
     int_of_float := fun f : @pyfloat plain_types => match f with end;
     float_truth := fun f : @pyfloat plain_types => match f with end;
     container_str := fun x : @value plain_types =>
                        match x with
                        | VList [] => Ok "[]"
                        | VDict [] => Ok "{}"
                        | _ => Raise (OtherError "left out")
                        end;
     datetime_str := fun d : @datetime plain_types => match d with end;
     timestamp := fun d : @datetime plain_types => match d with end;
     fromtimestamp := fun f : @pyfloat plain_types => match f with end;
     json_dumps := fun _ => Raise TypeError;
     json_loads := fun _ => Raise ValueError;
     csv_DictReader := @plain_reader plain_types |}.

(** ** The vocabulary of the properties *)

Import parser.

Definition _HighType_eqb (a b : datatype._HighType) : bool :=
  match a, b with
  | datatype.Integer, datatype.Integer | datatype.Float, datatype.Float
  | datatype.String, datatype.String | datatype.Boolean, datatype.Boolean
  | datatype.Array, datatype.Array | datatype.DateTime, datatype.DateTime
  | datatype.Object, datatype.Object => true
  | _, _ => false
  end.

(** The aliases under which the table holds the class [t]. *)
Definition aliases_of (t : datatype._HighType) : list string :=
  keys (filter (fun kv => _HighType_eqb (snd kv) t) datatype.ANNOTATIONS_TABLE).

(** The class a header line's alias text stands for. *)
Definition resolve (type_name : string) : option datatype._HighType :=
  dict_get (strip (lower type_name)) datatype.ANNOTATIONS_TABLE.

(** An index the store accepts: an integer (a [bool] counts as 0 or 1) within
    [0, rowCount). *)
Definition index_at `{PyTypes} (rows : list T_Row) (index : value) (n : nat) : Prop :=
  index_value index = Ok (Z.of_nat n) /\ n < List.length rows.

Definition valid_index `{PyTypes} (rows : list T_Row) (index : value) : Prop :=
  exists n, index_at rows index n.

(** The world after the row list became [rows]. *)
Definition set_rows `{PyTypes} (w : world) (rows : list T_Row) : world :=
  {| self := with_rows (self w) rows; files := files w |}.

(** Every column of [items] is annotated and its value encodes. *)
Definition encodable `{Runtime} (annotations : dict datatype._HighType)
  (items : list (string * value)) : Prop :=
  forall col val, In (col, val) items ->
  exists t v, dict_get col annotations = Some t /\ datatype.encode t val = Ok v.

(** The values of the annotated columns of [items] encode. *)
Definition annotated_encode `{Runtime} (annotations : dict datatype._HighType)
  (items : list (string * value)) : Prop :=
  forall col val t, In (col, val) items -> dict_get col annotations = Some t ->
  exists v, datatype.encode t val = Ok v.

(** An object with the header text [_save] needs: one bound to a file has its
    header text.  The parser builds such objects only. *)
Definition persistable `{PyTypes} (o : SCSVObject) : Prop :=
  match file_path o with
  | Some (String _ _) => exists header, raw_header o = Some header
  | _ => True
  end.

(** [encoded_row] holds the columns of [items], in their order, each with its
    value encoded by the column's class. *)
Definition encodes `{Runtime} (annotations : dict datatype._HighType)
  (items : list (string * value)) (encoded_row : T_Row) : Prop :=
  Forall2 (fun cv ce =>
             fst ce = fst cv
             /\ exists t, dict_get (fst cv) annotations = Some t
                          /\ datatype.encode t (snd cv) = Ok (snd ce))
          items encoded_row.

(** A column or field name the two sets disagree on. *)
Definition offending (fields : list string) (annotations : dict datatype._HighType)
  (name : string) : Prop :=
  (In name fields /\ ~ In name (keys annotations))
  \/ (In name (keys annotations) /\ ~ In name fields).

(** What the caller of [read_all] does between two [next]: nothing, or a call
    of a method of the store. *)
Inductive action `{PyTypes} : Type :=
| Next
| Do (m : method unit).

(** The steps the caller sees when it runs [script] on the generator [g]. *)
Fixpoint traverse `{Runtime} (script : list action) (g : generator) (w : world)
  : list step :=
  match script with
  | [] => []
  | Next :: rest => let (s, g') := next g w in s :: traverse rest g' w
  | Do m :: rest => traverse rest g (snd (m w))
  end.

(** The store after the method calls of [script]. *)
Fixpoint after `{PyTypes} (script : list action) (w : world) : world :=
  match script with
  | [] => w
  | Next :: rest => after rest w
  | Do m :: rest => after rest (snd (m w))
  end.

(** The number of [next] in [script]. *)
Fixpoint nexts `{PyTypes} (script : list action) : nat :=
  match script with
  | [] => 0
  | Next :: rest => S (nexts rest)
  | Do _ :: rest => nexts rest
  end.

Definition yielded `{PyTypes} (s : step) : bool :=
  match s with
  | Yield _ => true
  | _ => false
  end.

(** What the store [w] has at the position [pos]: no row, a row that decodes,
    or a row that does not. *)
Definition row_step `{Runtime} (w : world) (pos : nat) : step :=
  match nth_error (enc_rows (self w)) pos with
  | None => StopIteration
  | Some enc_row =>
      match _decode_row (annotations (self w)) enc_row with
      | Ok dec_row => Yield dec_row
      | Raise e => Failed e
      end
  end.

(** All rows decoded, as a traversal that meets no failure yields them. *)
Fixpoint decode_rows `{Runtime} (annotations : dict datatype._HighType)
  (rows : list T_Row) : result (list T_Row) :=
  match rows with
  | [] => Ok []
  | row :: rest =>
      d <- _decode_row annotations row ;;
      ds <- decode_rows annotations rest ;;
      Ok (d :: ds)
  end.

(** The first [j] steps of a traversal that yields [ds] and then has ended. *)
Fixpoint steps `{PyTypes} (j : nat) (ds : list T_Row) : list step :=
  match j with
  | O => []
  | S j' =>
      match ds with
      | [] => StopIteration :: steps j' []
      | d :: ds' => Yield d :: steps j' ds'
      end
  end.

Definition bool_text (b : bool) : string := if b then "True" else "False".

(** What [Array.encode] writes for a list of booleans. *)
Fixpoint bool_records (bs : list bool) : string :=
  match bs with
  | [] => EmptyString
  | b :: rest => "B::" ++ bool_text b ++ nul ++ bool_records rest
  end.

(** A method changes the rows and the files, nothing else of the object. *)
Definition keeps_frame `{PyTypes} {A : Type} (m : method A) : Prop :=
  forall w, exists rows, self (snd (m w)) = with_rows (self w) rows.

(** The number a decimal numeral stands for, read from the left. *)
Fixpoint uint_fold (d : Decimal.uint) (acc : Z) : Z :=
  match d with
  | Decimal.Nil => acc
  | Decimal.D0 l => uint_fold l (10 * acc)
  | Decimal.D1 l => uint_fold l (10 * acc + 1)
  | Decimal.D2 l => uint_fold l (10 * acc + 2)
  | Decimal.D3 l => uint_fold l (10 * acc + 3)
  | Decimal.D4 l => uint_fold l (10 * acc + 4)
  | Decimal.D5 l => uint_fold l (10 * acc + 5)
  | Decimal.D6 l => uint_fold l (10 * acc + 6)
  | Decimal.D7 l => uint_fold l (10 * acc + 7)
  | Decimal.D8 l => uint_fold l (10 * acc + 8)
  | Decimal.D9 l => uint_fold l (10 * acc + 9)
  end%Z.

(** Every character of [s] passes [p]. *)
Fixpoint string_forall (p : ascii -> bool) (s : string) : bool :=
  match s with
  | EmptyString => true
  | String c s' => p c && string_forall p s'
  end.

Definition is_digit (c : ascii) : bool :=
  match digit_of c with Some _ => true | None => false end.

(** An array element that survives the round trip: an integer within the
    digit limit, or a string without the record terminator. *)
Definition plain_item `{PyTypes} (item : value) : Prop :=
  match item with
  | VInt z => in_digit_limit z = true
  | VStr s => contains nul s = false
  | _ => False
  end.

(** The record of such an element, without its terminator. *)
Definition item_body `{PyTypes} (item : value) : string :=
  match item with
  | VInt z => "I::" ++ numeral z
  | VStr s => "S::" ++ s
  | _ => EmptyString
  end.

Fixpoint item_records `{PyTypes} (items : list value) : string :=
  match items with
  | [] => EmptyString
  | item :: rest => item_body item ++ nul ++ item_records rest
  end.

(** The store of the document [a: int / b: str / @@ / a,b / 1,x / 2,y], bound
    to the file [t.scsv]. *)
Definition example_header : string := "a: int" ++ newline ++ "b: str" ++ newline.

Definition example_document : string :=
  example_header ++ "@@" ++ newline
  ++ "a,b" ++ newline ++ "1,x" ++ newline ++ "2,y" ++ newline.

Definition example_object `{PyTypes} : SCSVObject :=
  {| annotations := [("a", datatype.Integer); ("b", datatype.String)];
     fields := ["a"; "b"];
     enc_rows := [ [("a", VStr "1"); ("b", VStr "x")];
                   [("a", VStr "2"); ("b", VStr "y")] ];
     file_path := Some "t.scsv";
     raw_header := Some example_header |}.

Definition example_world `{PyTypes} : world :=
  {| self := example_object; files := [] |}.

(** A store with an [Array] column. *)
Definition tagged_object `{PyTypes} : SCSVObject :=
  {| annotations := [("tags", datatype.Array); ("n", datatype.Integer)];
     fields := ["tags"; "n"];
     enc_rows := [ [("tags", VStr ("S::x" ++ nul)%string); ("n", VStr "1")] ];
     file_path := None;
     raw_header := Some ("tags: array" ++ newline ++ "n: int" ++ newline)%string |}.

Definition tagged_world `{PyTypes} : world :=
  {| self := tagged_object; files := [] |}.

(** A value of the base type of the column class [t] that can be written as
    text: an integer within the digit limit for [Integer], a float for
    [Float], a string for [String], a boolean for [Boolean], a list of
    integers within the digit limit and terminator-free strings for [Array]. *)
Definition native `{PyTypes} (t : datatype._HighType) (v : value) : Prop :=
  match t, v with
  | datatype.Integer, VInt z => in_digit_limit z = true
  | datatype.Float, VFloat _ => True
  | datatype.String, VStr _ => True
  | datatype.Boolean, VBool _ => True
  | datatype.Array, VList items => Forall plain_item items
  | _, _ => False
  end.

(** Every column of [items] is annotated and holds a value of its class's
    base type. *)
Definition native_row `{PyTypes} (annotations : dict datatype._HighType)
  (items : list (string * value)) : Prop :=
  forall col val, In (col, val) items ->
  exists t, dict_get col annotations = Some t /\ native t val.

(** The row as a file holds it and a reader hands it back: every value as the
    text [str] gives for it, when [str] gives one for each. *)
Fixpoint as_text `{Runtime} (row : T_Row) : result T_Row :=
  match row with
  | [] => Ok []
  | (col, val) :: rest =>
      s <- py_str val ;;
      cells <- as_text rest ;;
      Ok ((col, VStr s) :: cells)
  end.

Fixpoint rows_as_text `{Runtime} (rows : list T_Row) : result (list T_Row) :=
  match rows with
  | [] => Ok []
  | row :: rest =>
      cells <- as_text row ;;
      others <- rows_as_text rest ;;
      Ok (cells :: others)
  end.

(** A value [str] gives a text for. *)
Definition has_text `{Runtime} (v : value) : Prop := exists s, py_str v = Ok s.

(** Rows whose values all have a text: [_save] can build their lines. *)
Definition writable `{Runtime} (rows : list T_Row) : Prop :=
  Forall (fun row => Forall has_text (values row)) rows.

(** A store [_save] returns on, holding [rows]: it is bound to no file, or it
    has its header text and [rows] are writable. *)
Definition savable `{Runtime} (o : SCSVObject) (rows : list T_Row) : Prop :=
  match file_path o with
  | Some (String _ _) => (exists header, raw_header o = Some header) /\ writable rows
  | _ => True
  end.

(** An index whose text the message of [IndexError] can hold: any but an
    integer over the digit limit. *)
Definition printable_index `{PyTypes} (index : value) : Prop :=
  match index with
  | VInt z => in_digit_limit z = true
  | _ => True
  end.

(** Every column of [items] is annotated and its value encodes to a value
    that has a text. *)
Definition storable `{Runtime} (annotations : dict datatype._HighType)
  (items : list (string * value)) : Prop :=
  forall col val, In (col, val) items ->
  exists t v, dict_get col annotations = Some t /\ datatype.encode t val = Ok v
              /\ has_text v.

(** A method that either raises and leaves the world as it found it, or
    installs a row list and saves. *)
Definition settles `{Runtime} (m : method unit) : Prop :=
  forall w, (exists e, m w = (Raise e, w))
            \/ (exists rows, m w = _save (set_rows w rows)).


(** When [m] returns on [w], the file [fp] holds the document of the rows then
    stored, under the header text [header], and no file but [fp] and its lock
    file was touched. *)
Definition saved_to `{Runtime} (fp header : string) (m : method unit) (w : world) : Prop :=
  fst (m w) = Ok tt ->
  (exists text,
     document header (fields (self w)) (enc_rows (self (snd (m w)))) = Ok text
     /\ dict_get fp (files (snd (m w))) = Some text)
  /\ (forall p, p <> fp -> p <> (fp ++ ".lock")%string ->
      dict_get p (files (snd (m w))) = dict_get p (files w)).

(** [_base_type] of the class [t]. *)
Definition _base_type (t : datatype._HighType) : pytype :=
  match t with
  | datatype.Integer => t_int
  | datatype.Float => t_float
  | datatype.String => t_str
  | datatype.Boolean => t_bool
  | datatype.Array => t_list
  | datatype.DateTime => t_datetime
  | datatype.Object => t_dict
  end.

(** The classes whose [encode] and [decode] both call the base type. *)
Definition coercing (t : datatype._HighType) : bool :=
  match t with
  | datatype.Integer | datatype.Float | datatype.String => true
  | _ => false
  end.

(** An element [Array.encode] writes a record for: a [bool], a [str], a
    [float], or an [int] within the digit limit. *)
Definition array_item `{PyTypes} (item : value) : bool :=
  match item with
  | VBool _ | VStr _ | VFloat _ => true
  | VInt z => in_digit_limit z
  | _ => false
  end.

(** The text of such an element. *)
Definition item_text `{Runtime} (item : value) : string :=
  match item with
  | VBool b => if b then "True" else "False"
  | VInt z => numeral z
  | VFloat f => float_str f
  | VStr s => s
  | _ => EmptyString
  end.

Definition tag_of `{PyTypes} (item : value) : string :=
  match item with
  | VBool _ => "B"
  | VStr _ => "S"
  | VInt _ => "I"
  | VFloat _ => "F"
  | _ => EmptyString
  end.

(** The records [Array.encode] chains: prefix, [::], the element as text, the
    terminator. *)
Fixpoint records `{Runtime} (items : list value) : string :=
  match items with
  | [] => EmptyString
  | item :: rest => tag_of item ++ "::" ++ item_text item ++ nul ++ records rest
  end.

(** An element [Array.decode] can hand back. *)
Definition decoded_item `{PyTypes} (item : value) : Prop :=
  match item with
  | VBool _ | VInt _ | VFloat _ => True
  | VStr s => contains nul s = false
  | _ => False
  end.

(** The example store as [parse_string] builds it: bound to no file. *)
Definition unbound_object `{PyTypes} : SCSVObject :=
  {| annotations := [("a", datatype.Integer); ("b", datatype.String)];
     fields := ["a"; "b"];
     enc_rows := [ [("a", VStr "1"); ("b", VStr "x")];
                   [("a", VStr "2"); ("b", VStr "y")] ];
     file_path := None;
     raw_header := Some example_header |}.

(** A store bound to a file, made without a header text. *)
Definition headless_world `{PyTypes} : world :=
  {| self := {| annotations := [("a", datatype.Integer)];
                fields := ["a"];
                enc_rows := [ [("a", VStr "1")]; [("a", VStr "2")] ];
                file_path := Some "t.scsv";
                raw_header := None |};
     files := [("t.scsv", "kept so far")] |}.

(** A store whose second row has a cell that is no numeral. *)
Definition broken_world `{PyTypes} : world :=
  {| self := {| annotations := [("a", datatype.Integer)];
                fields := ["a"];
                enc_rows := [ [("a", VStr "1")]; [("a", VStr "two")]; [("a", VStr "3")] ];
                file_path := None;
                raw_header := Some ("a: int" ++ newline)%string |};
     files := [] |}.

(** A header line: the column, a colon, the alias. *)
Definition header_line (decl : string * string) : string :=
  (fst decl ++ ":" ++ snd decl)%string.

(** A declaration whose column and alias hold neither a colon nor a line
    break. *)
Definition well_formed (decl : string * string) : Prop :=
  contains ":" (fst decl) = false /\ contains newline (fst decl) = false
  /\ contains ":" (snd decl) = false /\ contains newline (snd decl) = false.

(** The annotations a list of declarations stands for: each column, stripped,
    bound to the class of its alias, a later declaration of a column replacing
    the class of an earlier one; the first alias that resolves to no class
    ends it. *)
Fixpoint declare (annotations : dict datatype._HighType)
  (decls : list (string * string)) : result (dict datatype._HighType) :=
  match decls with
  | [] => Ok annotations
  | (column, alias) :: rest =>
      match resolve alias with
      | Some t => declare (dict_set (strip column) t annotations) rest
      | None => Raise (invalid_data_type (strip column) (strip (lower alias)))
      end
  end.

(** The grid [_save] writes behind the separator. *)
Definition grid_text `{Runtime} (fields : list string) (rows : list T_Row)
  : result string :=
  lines <- row_lines rows ;;
  Ok (newline ++ join "," fields ++ newline ++ join newline lines ++ newline)%string.

(** Every column of every stored row is annotated. *)
Definition annotated_rows `{PyTypes} (o : SCSVObject) : Prop :=
  forall row col, In row (enc_rows o) -> In col (keys row) ->
  dict_mem col (annotations o) = true.

(** * Properties *)

(** ** Dictionaries and lists *)

Lemma dict_get_None {V : Type} (k : string) (d : dict V) :
  dict_get k d = None <-> ~ In k (keys d).
Proof.
  induction d as [|[k' v] d IH]; simpl.
  - tauto.
  - destruct (String.eqb_spec k' k).
    + split; [discriminate | intros Hn; exfalso; apply Hn; auto].
    + rewrite IH. tauto.
Qed.

Lemma dict_set_fresh {V : Type} (k : string) (v : V) (d : dict V) :
  ~ In k (keys d) -> dict_set k v d = d ++ [(k, v)].
Proof.
  induction d as [|[k' v'] d IH]; simpl; intros Hn; [reflexivity|].
  destruct (String.eqb_spec k' k); [exfalso; apply Hn; auto|].
  rewrite IH by tauto. reflexivity.
Qed.

Lemma dict_get_set_same {V : Type} (k : string) (v : V) (d : dict V) :
  dict_get k (dict_set k v d) = Some v.
Proof.
  induction d as [|[k' v'] d IH]; simpl.
  - rewrite String.eqb_refl. reflexivity.
  - destruct (String.eqb_spec k' k) as [->|Hk]; simpl.
    + rewrite String.eqb_refl. reflexivity.
    + destruct (String.eqb_spec k' k); [contradiction | exact IH].
Qed.

Lemma dict_mem_In {V : Type} (k : string) (d : dict V) :
  dict_mem k d = true <-> In k (keys d).
Proof.
  unfold dict_mem. pose proof (dict_get_None k d) as Hn.
  destruct (dict_get k d).
  - split; [intros _ | reflexivity].
    destruct (in_dec string_dec k (keys d)) as [Hi | Hi]; [exact Hi|].
    apply Hn in Hi. discriminate.
  - split; [discriminate|]. intros Hi. exfalso. apply (proj1 Hn); auto.
Qed.

Lemma mem_In (x : string) (xs : list string) : mem x xs = true <-> In x xs.
Proof.
  unfold mem. rewrite existsb_exists. split.
  - intros (y & Hy & He). apply String.eqb_eq in He. subst. exact Hy.
  - intros Hin. exists x. split; [exact Hin | apply String.eqb_refl].
Qed.

Lemma find_some_first {A : Type} (p : A -> bool) (l : list A) :
  (exists x, In x l /\ p x = true) ->
  exists x, find p l = Some x /\ In x l /\ p x = true.
Proof.
  induction l as [|a l IH]; intros (x & Hin & Hp); [destruct Hin|].
  simpl. destruct (p a) eqn:Ha.
  - exists a. auto.
  - destruct IH as (y & Hy & Hiny & Hpy).
    + destruct Hin as [<- | Hin]; [congruence | eauto].
    + exists y. auto.
Qed.

Lemma find_none_all {A : Type} (p : A -> bool) (l : list A) :
  (forall x, In x l -> p x = false) -> find p l = None.
Proof.
  induction l as [|a l IH]; intros Hall; [reflexivity|].
  simpl. rewrite (Hall a (or_introl eq_refl)). apply IH.
  intros x Hx. apply Hall. right; exact Hx.
Qed.

Lemma all_or_missing (xs ys : list string) :
  (forall x, In x xs -> In x ys) \/ (exists x, In x xs /\ ~ In x ys).
Proof.
  induction xs as [|a xs [IH | (x & Hx & Hn)]].
  - left. intros x [].
  - destruct (in_dec string_dec a ys) as [Ha | Ha].
    + left. intros x [<- | Hx]; auto.
    + right. exists a. split; [left; reflexivity | exact Ha].
  - right. exists x. split; [right; exact Hx | exact Hn].
Qed.

Lemma position_valid {A : Type} (l : list A) (n : nat) :
  n < List.length l -> position l (Z.of_nat n) = Some n.
Proof.
  intros Hn. unfold position.
  destruct (Z.ltb_spec (Z.of_nat n) 0); [lia|].
  destruct (Z.leb_spec 0 (Z.of_nat n)); [|lia].
  destruct (Z.ltb_spec (Z.of_nat n) (Z.of_nat (List.length l))); [|lia].
  simpl. rewrite Nat2Z.id. reflexivity.
Qed.

Lemma nth_error_replace_nth {A : Type} (n : nat) (a : A) (l : list A) :
  n < List.length l -> nth_error (replace_nth n a l) n = Some a.
Proof.
  revert n; induction l as [|x l IH]; intros [|n] Hn; simpl in *; try lia.
  - reflexivity.
  - apply IH; lia.
Qed.

Lemma nth_error_replace_nth_other {A : Type} (n m : nat) (a : A) (l : list A) :
  m <> n -> nth_error (replace_nth n a l) m = nth_error l m.
Proof.
  revert n m; induction l as [|x l IH]; intros [|n] [|m] Hm; simpl; try reflexivity.
  - congruence.
  - apply IH; congruence.
Qed.

Lemma length_replace_nth {A : Type} (n : nat) (a : A) (l : list A) :
  List.length (replace_nth n a l) = List.length l.
Proof.
  revert n; induction l as [|x l IH]; intros [|n]; simpl; try reflexivity.
  rewrite IH. reflexivity.
Qed.

(** ** Cutting text at a separator *)

Lemma prefix_app (sep rest : string) : prefix sep (sep ++ rest) = true.
Proof.
  induction sep as [|c sep IH]; simpl.
  - destruct rest; reflexivity.
  - rewrite IH. destruct (ascii_dec c c); [reflexivity | congruence].
Qed.

Lemma drop_app_length (u v : string) : drop (String.length u) (u ++ v) = v.
Proof.
  induction u as [|c u IH]; simpl.
  - destruct v; reflexivity.
  - exact IH.
Qed.

Lemma drop_app (n : nat) (u v : string) :
  n <= String.length u -> drop n (u ++ v)%string = (drop n u ++ v)%string.
Proof.
  revert u; induction n as [|n IH]; intros u Hn.
  - destruct u; simpl; [destruct v|]; reflexivity.
  - destruct u as [|c u]; simpl in *; [lia|]. apply IH; lia.
Qed.

Lemma length_app (u v : string) :
  String.length (u ++ v) = String.length u + String.length v.
Proof. induction u; simpl; congruence. Qed.

Lemma partition_at_prefix (sep s : string) :
  prefix sep s = true ->
  partition sep s = Some (EmptyString, drop (String.length sep) s).
Proof. intros Hp. destruct s; cbn [partition]; rewrite Hp; reflexivity. Qed.

Lemma partition_step (sep : string) (c : ascii) (s : string) :
  prefix sep (String c s) = false ->
  partition sep (String c s) =
  match partition sep s with
  | Some (a, b) => Some (String c a, b)
  | None => None
  end.
Proof. intros Hp. cbn [partition]. rewrite Hp. reflexivity. Qed.

Lemma app_assoc_string (u v w : string) : ((u ++ v) ++ w = u ++ v ++ w)%string.
Proof. induction u; simpl; congruence. Qed.

(** The leftmost occurrence of [sep] in [x ++ sep ++ rest] is at or before the
    one written out, so what is left behind it ends in [rest]. *)
Lemma partition_app (sep x rest : string) :
  exists a t, partition sep (x ++ sep ++ rest) = Some (a, (t ++ rest)%string).
Proof.
  induction x as [|c x IH].
  - exists EmptyString, EmptyString.
    change (("" ++ sep ++ rest)%string) with ((sep ++ rest)%string).
    rewrite partition_at_prefix by apply prefix_app.
    rewrite drop_app_length. reflexivity.
  - change ((String c x ++ sep ++ rest)%string) with (String c (x ++ sep ++ rest)).
    destruct (prefix sep (String c (x ++ sep ++ rest))) eqn:Hp.
    + exists EmptyString, (drop (String.length sep) (String c x ++ sep)).
      rewrite partition_at_prefix by exact Hp.
      change (String c (x ++ sep ++ rest)) with ((String c x ++ sep ++ rest)%string).
      rewrite <- app_assoc_string.
      rewrite drop_app; [reflexivity|]. rewrite length_app. lia.
    + rewrite partition_step by exact Hp.
      destruct IH as (a & t & ->). exists (String c a), t. reflexivity.
Qed.

Lemma partition_contains (sep s : string) (ab : string * string) :
  partition sep s = Some ab -> contains sep s = true.
Proof.
  revert ab; induction s as [|c s IH]; intros ab; cbn [partition contains].
  - destruct (prefix sep ""); [reflexivity | discriminate].
  - destruct (prefix sep (String c s)); [reflexivity|].
    destruct (partition sep s) as [[a b]|]; [|discriminate].
    intros _. simpl. eapply IH; reflexivity.
Qed.

Lemma contains_partition (sep s : string) :
  contains sep s = true -> exists ab, partition sep s = Some ab.
Proof.
  induction s as [|c s IH]; cbn [partition contains].
  - destruct (prefix sep ""); [eauto | discriminate].
  - destruct (prefix sep (String c s)); [eauto|]. simpl.
    intros H; destruct (IH H) as ([a b] & ->). eauto.
Qed.

Lemma prefix_drop (sep s : string) :
  prefix sep s = true -> s = (sep ++ drop (String.length sep) s)%string.
Proof.
  revert s; induction sep as [|c sep IH]; intros s Hp.
  - destruct s; reflexivity.
  - destruct s as [|d s]; simpl in Hp; [discriminate|].
    destruct (ascii_dec c d) as [->|]; [|discriminate].
    simpl. f_equal. apply IH, Hp.
Qed.

(** [partition] cuts the text at an occurrence of the separator. *)
Lemma partition_eq (sep s a b : string) :
  partition sep s = Some (a, b) -> s = (a ++ sep ++ b)%string.
Proof.
  revert a b; induction s as [|c s IH]; intros a b; cbn [partition].
  - destruct (prefix sep "") eqn:Hp; [|discriminate].
    intros [= <- <-]. apply (prefix_drop _ _ Hp).
  - destruct (prefix sep (String c s)) eqn:Hp.
    + intros [= <- <-]. apply (prefix_drop _ _ Hp).
    + destruct (partition sep s) as [[a' b']|] eqn:Hs; [|discriminate].
      intros [= <- <-]. simpl. f_equal. apply IH. reflexivity.
Qed.

(** ... and at the leftmost one: the separator does not start anywhere inside [a]. *)
Lemma partition_leftmost (sep s a b : string) :
  partition sep s = Some (a, b) ->
  forall u v, a = (u ++ v)%string -> v <> EmptyString ->
  prefix sep (v ++ sep ++ b) = false.
Proof.
  revert a b; induction s as [|c s IH]; intros a b; cbn [partition].
  - destruct (prefix sep ""); [|discriminate].
    intros [= <- <-] u v Huv Hv. destruct u, v; simpl in Huv; congruence.
  - destruct (prefix sep (String c s)) eqn:Hp.
    + intros [= <- <-] u v Huv Hv. destruct u, v; simpl in Huv; congruence.
    + destruct (partition sep s) as [[a' b']|] eqn:Hs; [|discriminate].
      intros [= <- <-] u v Huv Hv.
      pose proof (partition_eq _ _ Hs) as Es.
      destruct u as [|d u]; simpl in Huv.
      * subst v. simpl. rewrite <- Es. exact Hp.
      * injection Huv as -> ->. eapply IH; eauto.
Qed.

Lemma contains_false_partition (sep s : string) :
  contains sep s = false -> partition sep s = None.
Proof.
  intros Hc. destruct (partition sep s) as [ab|] eqn:Hp; [|reflexivity].
  rewrite (partition_contains _ _ Hp) in Hc. discriminate.
Qed.

Lemma split_rounds_no_separator (n : nat) (sep s : string) :
  contains sep s = false -> split_rounds n sep s = [s].
Proof.
  intros Hc. destruct n; simpl; [reflexivity|].
  rewrite (contains_false_partition _ _ Hc). reflexivity.
Qed.

Lemma partition_shorter (sep s a b : string) :
  sep <> EmptyString -> partition sep s = Some (a, b) ->
  String.length b < String.length s.
Proof.
  intros Hsep Hp. rewrite (partition_eq _ _ Hp), !length_app.
  destruct sep; [contradiction | simpl; lia].
Qed.

(** More rounds than the text has characters change nothing. *)
Lemma split_rounds_enough (sep : string) (n : nat) :
  sep <> EmptyString ->
  forall m s, String.length s <= m -> m <= n ->
  split_rounds m sep s = split_rounds (String.length s) sep s.
Proof.
  intros Hsep. induction n as [|n IH]; intros m s Hs Hm.
  - assert (m = 0) by lia. assert (String.length s = 0) by lia. subst m.
    rewrite H0. reflexivity.
  - destruct m as [|m]; [assert (Hz : String.length s = 0) by lia; rewrite Hz; reflexivity|].
    cbn [split_rounds]. destruct (partition sep s) as [[a b]|] eqn:Hp.
    + pose proof (partition_shorter _ Hsep Hp) as Hlt.
      destruct (String.length s) as [|k] eqn:Hk; [lia|].
      cbn [split_rounds]. rewrite Hp. f_equal.
      rewrite (IH m b) by lia. rewrite (IH k b) by lia. reflexivity.
    + destruct (String.length s); cbn [split_rounds]; [|rewrite Hp]; reflexivity.
Qed.

(** [split] goes on behind the leftmost occurrence. *)
Lemma split_cut (sep s a b : string) :
  sep <> EmptyString -> partition sep s = Some (a, b) ->
  split sep s = a :: split sep b.
Proof.
  intros Hsep Hp. unfold split.
  pose proof (partition_shorter _ Hsep Hp) as Hlt.
  destruct (String.length s) as [|k] eqn:Hk; [lia|].
  cbn [split_rounds]. rewrite Hp. f_equal.
  apply (split_rounds_enough Hsep (n := k)); lia.
Qed.

Lemma prefix_empty (s : string) : prefix EmptyString s = true.
Proof. destruct s; reflexivity. Qed.

Lemma prefix_char (c d : ascii) (s : string) :
  prefix (String c EmptyString) (String d s) = if ascii_dec c d then true else false.
Proof. simpl. destruct (ascii_dec c d); [apply prefix_empty | reflexivity]. Qed.

(** A text without the character [c], then [c]: the cut is there. *)
Lemma partition_char (c : ascii) (body rest : string) :
  contains (String c EmptyString) body = false ->
  partition (String c EmptyString) (body ++ String c rest) = Some (body, rest).
Proof.
  induction body as [|d body IH]; intros Hfree.
  - change (("" ++ String c rest)%string) with (String c rest).
    rewrite partition_at_prefix.
    + reflexivity.
    + rewrite prefix_char. destruct (ascii_dec c c); [reflexivity | congruence].
  - cbn [contains] in Hfree. apply orb_false_elim in Hfree as [Hp Hc].
    rewrite prefix_char in Hp.
    change ((String d body ++ String c rest)%string)
      with (String d (body ++ String c rest)).
    rewrite partition_step.
    + rewrite (IH Hc). reflexivity.
    + rewrite prefix_char. exact Hp.
Qed.

Lemma app_empty_r (s : string) : (s ++ "")%string = s.
Proof. induction s; simpl; congruence. Qed.

(** ** Decimal numerals *)

Lemma of_uint_acc_fold (d : Decimal.uint) (p : positive) :
  Z.pos (Pos.of_uint_acc d p) = uint_fold d (Z.pos p).
Proof.
  revert p; induction d; intros p; cbn [Pos.of_uint_acc uint_fold];
    try reflexivity; rewrite IHd; f_equal; lia.
Qed.

Lemma of_uint_fold (d : Decimal.uint) : Z.of_N (Pos.of_uint d) = uint_fold d 0.
Proof.
  induction d; cbn [Pos.of_uint uint_fold Z.of_N]; try reflexivity; try exact IHd;
    rewrite of_uint_acc_fold; reflexivity.
Qed.

Lemma digits_value_uint (d : Decimal.uint) (acc : Z) (after_digit : bool) :
  (d = Decimal.Nil -> after_digit = true) ->
  digits_value acc after_digit (NilEmpty.string_of_uint d) = Some (uint_fold d acc).
Proof.
  revert acc after_digit; induction d; intros acc after_digit Hnil.
  1:{ simpl. rewrite (Hnil eq_refl). reflexivity. }
  all: cbn [NilEmpty.string_of_uint digits_value uint_fold].
  all: match goal with
       | |- context [digit_of ?c] =>
           let v := eval vm_compute in (digit_of c) in change (digit_of c) with v
       end; cbv iota beta.
  all: rewrite IHd by reflexivity; f_equal; f_equal; lia.
Qed.

Lemma string_of_uint_digits (d : Decimal.uint) :
  string_forall is_digit (NilEmpty.string_of_uint d) = true.
Proof. induction d; simpl; try reflexivity; exact IHd. Qed.

Lemma lstrip_by_kept (sp : ascii -> bool) (c : ascii) (s : string) :
  sp c = false -> lstrip_by sp (String c s) = String c s.
Proof. intros Hc. simpl. rewrite Hc. reflexivity. Qed.

Lemma rstrip_by_kept (sp : ascii -> bool) (s : string) :
  string_forall (fun c => negb (sp c)) s = true -> rstrip_by sp s = s.
Proof.
  induction s as [|c s IH]; simpl; [reflexivity|].
  intros Hall. apply andb_prop in Hall as [Hc Hs].
  apply negb_true_iff in Hc. rewrite Hc, (IH Hs). reflexivity.
Qed.

Lemma string_forall_impl (p q : ascii -> bool) (s : string) :
  (forall c, p c = true -> q c = true) ->
  string_forall p s = true -> string_forall q s = true.
Proof.
  intros Hpq. induction s as [|c s IH]; simpl; [reflexivity|].
  intros Hall. apply andb_prop in Hall as [Hc Hs].
  rewrite (Hpq _ Hc), (IH Hs). reflexivity.
Qed.

Lemma is_digit_cases (c : ascii) :
  is_digit c = true ->
  is_c_space c = false /\ c <> "-"%char /\ c <> "+"%char /\ c <> "000"%char.
Proof.
  destruct c as [[|] [|] [|] [|] [|] [|] [|] [|]]; vm_compute;
    intros H; try discriminate H; repeat split; discriminate.
Qed.

Lemma uint_text_nonempty (d : Decimal.uint) :
  d <> Decimal.Nil ->
  exists c s, NilEmpty.string_of_uint d = String c s /\ is_digit c = true.
Proof.
  destruct d; intros Hd; [contradiction| | | | | | | | | |];
    simpl; eexists _, _; split; reflexivity.
Qed.

Lemma within_limit (t : string) :
  (digit_count t <=? int_max_str_digits)%N = true ->
  (int_max_str_digits <? digit_count t)%N = false.
Proof. intros Hl. apply N.ltb_ge, N.leb_le, Hl. Qed.

(** The numeral of a natural number [d]: [int] reads it back. *)
Lemma int_of_str_uint (d : Decimal.uint) :
  d <> Decimal.Nil ->
  (digit_count (NilEmpty.string_of_uint d) <=? int_max_str_digits)%N = true ->
  int_of_str (NilEmpty.string_of_uint d) = Ok (uint_fold d 0).
Proof.
  intros Hd Hl. unfold int_of_str.
  destruct (uint_text_nonempty Hd) as (c & s & Hcs & Hc).
  pose proof (string_of_uint_digits d) as Hall.
  destruct (is_digit_cases _ Hc) as (Hsp & Hminus & Hplus & _).
  assert (Hstrip : rstrip_by is_c_space (lstrip_by is_c_space (NilEmpty.string_of_uint d))
                   = NilEmpty.string_of_uint d).
  { rewrite Hcs, (lstrip_by_kept is_c_space c s Hsp), <- Hcs.
    apply rstrip_by_kept.
    apply (string_forall_impl is_digit); [|exact Hall].
    intros a Ha. apply negb_true_iff. apply (is_digit_cases _ Ha). }
  rewrite Hstrip, (within_limit _ Hl), Hcs.
  assert (Hdv : digits_value 0 false (String c s) = Some (uint_fold d 0)).
  { rewrite <- Hcs. apply digits_value_uint. intros ->. contradiction. }
  destruct c as [[|] [|] [|] [|] [|] [|] [|] [|]];
    try discriminate Hc; try (exfalso; apply Hminus; reflexivity);
    try (exfalso; apply Hplus; reflexivity); rewrite Hdv; reflexivity.
Qed.

(** [int(str(n)) == n], where [str(n)] is there. *)
Lemma int_of_str_int_str (z : Z) (s : string) :
  int_str z = Ok s -> int_of_str s = Ok z.
Proof.
  unfold int_str, in_digit_limit, numeral.
  destruct (_ <=? _)%N eqn:Hl; [|discriminate]. intros [= <-].
  rewrite <- (DecimalZ.of_to z) at 2. revert Hl.
  destruct z as [|p|p]; cbn [Z.to_int NilZero.string_of_int Z.of_int].
  - reflexivity.
  - unfold NilZero.string_of_uint. pose proof (DecimalPos.Unsigned.to_uint_nonnil p) as Hp.
    destruct (Pos.to_uint p) eqn:Hu; try contradiction;
      rewrite <- Hu in *; intros Hl; rewrite (int_of_str_uint Hp Hl); unfold Z.of_uint;
      rewrite of_uint_fold; reflexivity.
  - unfold NilZero.string_of_uint. pose proof (DecimalPos.Unsigned.to_uint_nonnil p) as Hp.
    assert (Ht : NilEmpty.string_of_uint (Pos.to_uint p)
                 = match Pos.to_uint p with
                   | Decimal.Nil => "0"
                   | _ => NilEmpty.string_of_uint (Pos.to_uint p)
                   end).
    { destruct (Pos.to_uint p); try reflexivity. contradiction. }
    rewrite <- Ht. clear Ht. intros Hl. unfold int_of_str.
    rewrite (lstrip_by_kept is_c_space "-" _ eq_refl).
    rewrite rstrip_by_kept.
    + rewrite (within_limit _ Hl).
      rewrite digits_value_uint by (intros Hn; contradiction).
      unfold Z.of_uint. rewrite of_uint_fold. reflexivity.
    + cbn [string_forall]. apply andb_true_intro. split; [reflexivity|].
      apply (string_forall_impl is_digit); [|apply string_of_uint_digits].
      intros a Ha. apply negb_true_iff. apply (is_digit_cases _ Ha).
Qed.

(** ** The document separator *)

Lemma split_rounds_two_cuts (n : nat) (sep x y z : string) :
  exists a b rest, split_rounds (S (S n)) sep (x ++ sep ++ y ++ sep ++ z) = a :: b :: rest
                   /\ rest <> [].
Proof.
  destruct (partition_app sep x (y ++ sep ++ z)) as (a & t & Ha).
  destruct (partition_app sep (t ++ y) z) as (b & u & Hb).
  rewrite app_assoc_string in Hb.
  exists a, b. simpl. rewrite Ha, Hb.
  eexists; split; [reflexivity|]. destruct n; simpl; [discriminate|].
  destruct (partition sep (u ++ z)) as [[? ?]|]; discriminate.
Qed.

(** C2: a document in which the separator [@@] occurs twice does not parse:
    [raw_content.split("@@")] then has three parts or more, and unpacking it
    into [header, raw_data] raises [ValueError].  The claim says that such a
    document parses, cut at the first occurrence. *)
Theorem parse_two_separators `{Runtime} (x y z : string) (fp : option string) :
  _parse (x ++ "@@" ++ y ++ "@@" ++ z) fp = Raise ValueError.
Proof.
  unfold _parse.
  destruct (partition_app "@@" x (y ++ "@@" ++ z)) as (a & t & Ha).
  rewrite (partition_contains _ _ Ha). simpl negb. cbv iota.
  unfold split.
  assert (Hlen : exists n, String.length (x ++ "@@" ++ y ++ "@@" ++ z) = S (S n)).
  { rewrite !length_app. simpl.
    exists (String.length x + (String.length y + S (S (String.length z)))). lia. }
  destruct Hlen as (n & ->).
  destruct (split_rounds_two_cuts n "@@" x y z) as (p & q & rest & -> & Hrest).
  destruct rest; [congruence | reflexivity].
Qed.

(** One occurrence: [split] is the pair [partition] finds. *)
Lemma split_once (s a b : string) :
  partition "@@" s = Some (a, b) -> contains "@@" b = false ->
  split "@@" s = [a; b].
Proof.
  intros Hp Hb. unfold split.
  rewrite (partition_eq _ _ Hp) at 1. rewrite !length_app. simpl String.length.
  replace (String.length a + (2 + String.length b))
    with (S (String.length a + (1 + String.length b))) by lia.
  simpl. rewrite Hp. rewrite split_rounds_no_separator by exact Hb. reflexivity.
Qed.

Lemma parse_annotations_not_separator_error (lines : list string) (acc : dict datatype._HighType) :
  parse_annotations acc lines <> Raise separator_not_found.
Proof.
  revert acc; induction lines as [|l lines IH]; intros acc; cbn [parse_annotations];
    [discriminate|].
  destruct (l =? "")%string; [apply IH|].
  destruct (split ":" l) as [|c [|t [|? ?]]]; try discriminate.
  cbv zeta.
  match goal with |- context [dict_get ?k ?d] => destruct (dict_get k d) end;
    [apply IH | discriminate].
Qed.

(** X8: The "separator not found" error is raised exactly when [@@] does not occur. *)
Lemma separator_error_iff_absent `{Runtime} (raw_content : string) (fp : option string) :
  _parse raw_content fp = Raise separator_not_found <-> contains "@@" raw_content = false.
Proof.
  unfold _parse. destruct (contains "@@" raw_content); simpl; split; try easy.
  intros Hr; exfalso; revert Hr.
  destruct (split "@@" raw_content) as [|h [|g [|? ?]]]; try discriminate.
  unfold _parse_header.
  destruct (parse_annotations [] _) as [ann|e] eqn:Ha; simpl.
  - unfold fieldnames, _dictreader_to_rows, read_or_raise.
    destruct (fst (csv_DictReader (strip g))) as [[fs|]|]; try discriminate. simpl.
    unfold _ensure_types_coverage.
    destruct (find _ _); [discriminate|]. destruct (find _ _); [discriminate|]. simpl.
    destruct (snd (csv_DictReader (strip g))); discriminate.
  - intros [= ->]. exact (parse_annotations_not_separator_error _ _ Ha).
Qed.

(** With one occurrence the text before it is the header block and the text
    behind it the grid block. *)
Lemma parse_single_separator `{Runtime} (raw_content header raw_data : string)
  (fp : option string) :
  partition "@@" raw_content = Some (header, raw_data) ->
  contains "@@" raw_data = false ->
  _parse raw_content fp =
  (annotations <- _parse_header (strip header) ;;
   fields <- fieldnames (csv_DictReader (strip raw_data)) ;;
   match fields with
   | None => Raise TypeError
   | Some fields =>
       _ <- _ensure_types_coverage fields annotations ;;
       rows <- _dictreader_to_rows (csv_DictReader (strip raw_data)) ;;
       Ok {| annotations := annotations;
             fields := fields;
             enc_rows := rows;
             file_path := fp;
             raw_header := Some header |}
   end).
Proof.
  intros Hp Hg. unfold _parse.
  rewrite (partition_contains _ _ Hp), (split_once _ Hp Hg). reflexivity.
Qed.

(** ** The header block *)

(** A non-empty header line with no colon: the unpacking of
    [annotation.split(":")] fails with [ValueError]. *)
Lemma header_line_without_colon (annotations : dict datatype._HighType)
  (annotation : string) (rest : list string) :
  annotation <> EmptyString -> contains ":" annotation = false ->
  parse_annotations annotations (annotation :: rest) = Raise ValueError.
Proof.
  intros Hne Hc. cbn [parse_annotations].
  destruct (String.eqb_spec annotation ""); [contradiction|].
  unfold split. rewrite split_rounds_no_separator by exact Hc. reflexivity.
Qed.

(** A line [column:alias] whose alias, lower-cased and stripped, is not in the
    table: [ParseError] with the stripped column and that alias text. *)
Lemma header_line_unknown_alias (annotations : dict datatype._HighType)
  (annotation column type_name : string) (rest : list string) :
  annotation <> EmptyString ->
  split ":" annotation = [column; type_name] ->
  dict_get (strip (lower type_name)) datatype.ANNOTATIONS_TABLE = None ->
  parse_annotations annotations (annotation :: rest)
  = Raise (invalid_data_type (strip column) (strip (lower type_name))).
Proof.
  intros Hne Hs Hg. cbn [parse_annotations].
  destruct (String.eqb_spec annotation ""); [contradiction|].
  rewrite Hs. cbv zeta. rewrite Hg. reflexivity.
Qed.

(** A line [column:alias] with a known alias binds the stripped column. *)
Lemma header_line_known_alias (annotations : dict datatype._HighType)
  (annotation column type_name : string) (t : datatype._HighType) (rest : list string) :
  annotation <> EmptyString ->
  split ":" annotation = [column; type_name] ->
  dict_get (strip (lower type_name)) datatype.ANNOTATIONS_TABLE = Some t ->
  parse_annotations annotations (annotation :: rest)
  = parse_annotations (dict_set (strip column) t annotations) rest.
Proof.
  intros Hne Hs Hg. cbn [parse_annotations].
  destruct (String.eqb_spec annotation ""); [contradiction|].
  rewrite Hs. cbv zeta. rewrite Hg. reflexivity.
Qed.

(** C3: a header line that has no colon does not fail with [ParseError]: the
    unpacking of [annotation.split(":")] raises [ValueError], and so does a line
    with two colons.  An unknown alias does raise [ParseError]; its message
    holds the stripped column and the alias as lower-cased and stripped, not as
    written. *)
Theorem header_line_without_separator :
  _parse_header "a int" = Raise ValueError
  /\ _parse_header "a: int: x" = Raise ValueError
  /\ _parse_header " a : Foo " = Raise (invalid_data_type "a" "foo").
Proof. repeat split; reflexivity. Qed.

(** ** The alias table *)

(** C9: the table has no alias [integer]: the key is spelt [interger], so a
    header line [a: integer] fails in any letter case; [DateTime] has no alias
    at all and [Float] has two.  The claim says that every class has a full
    word, a short word and a letter, and that [integer] resolves to [Integer]. *)
Theorem integer_alias_missing :
  resolve "integer" = None
  /\ resolve "Integer" = None
  /\ resolve "INTEGER" = None
  /\ _parse_header "a: integer" = Raise (invalid_data_type "a" "integer")
  /\ aliases_of datatype.Integer = ["interger"; "int"; "i"]
  /\ aliases_of datatype.Float = ["float"; "f"]
  /\ aliases_of datatype.DateTime = [].
Proof. repeat split; reflexivity. Qed.

(** In whatever letter case [integer] is written. *)
Lemma integer_alias_any_case (alias : string) :
  lower alias = "integer" -> resolve alias = None.
Proof. intros Hl. unfold resolve. rewrite Hl. reflexivity. Qed.

(** What does hold: the other aliases, in any letter case. *)
Lemma aliases_resolved :
  map resolve ["int"; "I"; "Float"; "f"; "STRING"; "str"; "s"; "boolean"; "Bool"; "b";
               "array"; "Arr"; "a"; "object"; "OBJ"; "o"]
  = map Some [datatype.Integer; datatype.Integer; datatype.Float; datatype.Float;
              datatype.String; datatype.String; datatype.String;
              datatype.Boolean; datatype.Boolean; datatype.Boolean;
              datatype.Array; datatype.Array; datatype.Array;
              datatype.Object; datatype.Object; datatype.Object].
Proof. reflexivity. Qed.

(** ** Round trips through the type variants *)

Lemma Boolean_roundtrip `{Runtime} (b : bool) :
  (low <- datatype.Boolean.encode (VBool b) ;; datatype.Boolean.decode low) = Ok (VBool b).
Proof. destruct b; reflexivity. Qed.

Lemma String_roundtrip `{Runtime} (s : string) :
  (low <- datatype.String.encode (VStr s) ;; datatype.String.decode low) = Ok (VStr s).
Proof. reflexivity. Qed.

Lemma Integer_roundtrip `{Runtime} (z : Z) :
  (low <- datatype.Integer.encode (VInt z) ;; datatype.Integer.decode low) = Ok (VInt z).
Proof. reflexivity. Qed.

(** The array [[False]]: written as [B::False], read back as [[True]]. *)
Example Array_False_comes_back_True `{Runtime} :
  datatype.Array.encode (VList [VBool false]) = Ok (VStr ("B::False" ++ nul))
  /\ datatype.Array.decode (VStr ("B::False" ++ nul)) = Ok (VList [VBool true]).
Proof. split; reflexivity. Qed.

(** *** Arrays of booleans *)

Lemma encode_items_bools `{Runtime} (bs : list bool) (chain : string) :
  datatype.Array.encode_items chain (map VBool bs) = Ok (chain ++ bool_records bs)%string.
Proof.
  revert chain; induction bs as [|b bs IH]; intros chain.
  - simpl. rewrite app_empty_r. reflexivity.
  - cbn [map datatype.Array.encode_items]. simpl datatype.Array.prefix_of. cbv beta iota.
    destruct b; cbn [py_str bind]; rewrite IH; f_equal; rewrite app_assoc_string;
      reflexivity.
Qed.

Lemma split_bool_records (bs : list bool) :
  split nul (bool_records bs)
  = map (fun b => ("B::" ++ bool_text b)%string) bs ++ [EmptyString].
Proof.
  induction bs as [|b bs IH]; [reflexivity|].
  cbn [bool_records map app]. rewrite <- IH.
  apply split_cut; [discriminate|].
  rewrite <- app_assoc_string. apply partition_char. destruct b; reflexivity.
Qed.

Lemma decode_items_bools `{Runtime} (bs : list bool) (seq : list value) :
  datatype.Array.decode_items seq
    (map (fun b => ("B::" ++ bool_text b)%string) bs ++ [EmptyString])
  = Ok (seq ++ map (fun _ => VBool true) bs).
Proof.
  revert seq; induction bs as [|b bs IH]; intros seq.
  - simpl. rewrite app_nil_r. reflexivity.
  - cbn [map app datatype.Array.decode_items].
    destruct b; simpl; rewrite IH, <- app_assoc; reflexivity.
Qed.

(** C1: an array of booleans does not survive the round trip: [encode] writes
    an element as [B::True] or [B::False], and [decode] rebuilds it with
    [bool(value)], which is [True] for both texts, as for every non-empty
    string.  Every element comes back [True]; the array [[False]] comes back
    as [[True]]. *)
Theorem Array_roundtrip_of_booleans `{Runtime} (bs : list bool) :
  (low <- datatype.Array.encode (VList (map VBool bs)) ;; datatype.Array.decode low)
  = Ok (VList (map (fun _ => VBool true) bs)).
Proof.
  unfold datatype.Array.encode, datatype.Array.decode. cbn [py_iter bind].
  rewrite encode_items_bools. cbn [bind append].
  unfold datatype.Array._items_sep. rewrite split_bool_records, decode_items_bools.
  reflexivity.
Qed.

(** *** Arrays of integers and strings *)

Lemma contains_char_forall (x : ascii) (p : ascii -> bool) (s : string) :
  (forall c, p c = true -> c <> x) -> string_forall p s = true ->
  contains (String x EmptyString) s = false.
Proof.
  intros Hp. induction s as [|c s IH]; [reflexivity|].
  cbn [string_forall contains]. intros Hall. apply andb_prop in Hall as [Hc Hs].
  rewrite prefix_char, (IH Hs). destruct (ascii_dec x c) as [->|]; [|reflexivity].
  exfalso. exact (Hp _ Hc eq_refl).
Qed.

Lemma contains_char_cons (x c : ascii) (s : string) :
  c <> x ->
  contains (String x EmptyString) (String c s) = contains (String x EmptyString) s.
Proof.
  intros Hc. cbn [contains]. rewrite prefix_char.
  destruct (ascii_dec x c); [congruence | reflexivity].
Qed.

Lemma numeral_no_nul (z : Z) : contains nul (numeral z) = false.
Proof.
  assert (Hd : forall d, contains nul (NilEmpty.string_of_uint d) = false).
  { intros d. apply (contains_char_forall is_digit); [|apply string_of_uint_digits].
    intros c Hc. apply (is_digit_cases _ Hc). }
  assert (Hz : forall d, contains nul (NilZero.string_of_uint d) = false).
  { intros d. unfold NilZero.string_of_uint. destruct d; try apply Hd. reflexivity. }
  unfold numeral. destruct (Z.to_int z) as [d|d]; cbn [NilZero.string_of_int].
  - apply Hz.
  - unfold nul. rewrite contains_char_cons by discriminate. apply Hz.
Qed.

Lemma item_body_no_nul `{PyTypes} (item : value) :
  plain_item item -> contains nul (item_body item) = false.
Proof.
  destruct item; simpl; try contradiction.
  - intros _. apply numeral_no_nul.
  - intros Hs. exact Hs.
Qed.

Lemma int_str_in_limit (z : Z) : in_digit_limit z = true -> int_str z = Ok (numeral z).
Proof. intros Hz. unfold int_str. rewrite Hz. reflexivity. Qed.

Lemma int_str_over_limit (z : Z) : in_digit_limit z = false -> int_str z = Raise ValueError.
Proof. intros Hz. unfold int_str. rewrite Hz. reflexivity. Qed.

Lemma int_str_Ok (z : Z) (s : string) :
  int_str z = Ok s -> in_digit_limit z = true /\ s = numeral z.
Proof.
  unfold int_str. destruct (in_digit_limit z); [|discriminate].
  intros [= <-]. split; reflexivity.
Qed.

Lemma encode_items_plain `{Runtime} (items : list value) (chain : string) :
  Forall plain_item items ->
  datatype.Array.encode_items chain items = Ok (chain ++ item_records items)%string.
Proof.
  intros Hall. revert chain; induction Hall as [|item items Hitem _ IH]; intros chain.
  - simpl. rewrite app_empty_r. reflexivity.
  - cbn [datatype.Array.encode_items item_records].
    destruct item; try contradiction; simpl datatype.Array.prefix_of; cbv beta iota;
      cbn [py_str]; try rewrite (int_str_in_limit _ Hitem); cbn [bind];
      rewrite IH; f_equal; rewrite app_assoc_string; f_equal;
      unfold item_body, datatype.Array._items_sep; cbn [append];
      rewrite app_assoc_string; reflexivity.
Qed.

Lemma split_item_records `{PyTypes} (items : list value) :
  Forall plain_item items ->
  split nul (item_records items) = map item_body items ++ [EmptyString].
Proof.
  induction 1 as [|item items Hitem _ IH]; [reflexivity|].
  cbn [item_records map app]. rewrite <- IH.
  apply split_cut; [discriminate|].
  apply partition_char, item_body_no_nul, Hitem.
Qed.

Lemma split1_tagged (tag : ascii) (text : string) :
  tag <> ":"%char ->
  split1 "::" (String tag ("::" ++ text)) = [String tag EmptyString; text].
Proof.
  intros Htag. unfold split1. rewrite partition_step.
  - rewrite partition_at_prefix by apply prefix_app.
    rewrite drop_app_length. reflexivity.
  - cbn [prefix]. destruct (ascii_dec ":"%char tag) as [E|E]; [congruence | reflexivity].
Qed.

Lemma decode_items_plain `{Runtime} (items : list value) (seq : list value) :
  Forall plain_item items ->
  datatype.Array.decode_items seq (map item_body items ++ [EmptyString])
  = Ok (seq ++ items).
Proof.
  intros Hall. revert seq; induction Hall as [|item items Hitem _ IH]; intros seq.
  - simpl. rewrite app_nil_r. reflexivity.
  - cbn [map app datatype.Array.decode_items].
    destruct item; try contradiction; cbn [item_body].
    + change (("I::" ++ numeral z)%string) with (String "I" ("::" ++ numeral z)).
      cbn [String.eqb Ascii.eqb]. rewrite split1_tagged by discriminate.
      simpl datatype.Array.basetype_of. cbv beta iota.
      cbn [datatype.Array.construct].
      rewrite (int_of_str_int_str _ (int_str_in_limit _ Hitem)). cbn [bind].
      rewrite IH, <- app_assoc. reflexivity.
    + change (("S::" ++ s)%string) with (String "S" ("::" ++ s)).
      cbn [String.eqb Ascii.eqb]. rewrite split1_tagged by discriminate.
      simpl datatype.Array.basetype_of. cbv beta iota.
      cbn [datatype.Array.construct bind].
      rewrite IH, <- app_assoc. reflexivity.
Qed.

(** X5: Arrays of integers and of strings without the terminator do come back as
    they were. *)
Lemma Array_roundtrip_of_plain_items `{Runtime} (items : list value) :
  Forall plain_item items ->
  (low <- datatype.Array.encode (VList items) ;; datatype.Array.decode low)
  = Ok (VList items).
Proof.
  intros Hall. unfold datatype.Array.encode, datatype.Array.decode. cbn [py_iter bind].
  rewrite (encode_items_plain _ Hall). cbn [bind append].
  unfold datatype.Array._items_sep.
  rewrite (split_item_records Hall), (decode_items_plain _ Hall). reflexivity.
Qed.

(** ** Coverage of the annotations *)

(** The coverage check in terms of the two sets of names. *)
Lemma ensure_types_coverage_spec (fields : list string)
  (annotations : dict datatype._HighType) :
  ((exists field, In field fields /\ ~ In field (keys annotations)) ->
   exists field, In field fields /\ ~ In field (keys annotations)
     /\ _ensure_types_coverage fields annotations = Raise (not_annotated field))
  /\ ((forall field, In field fields -> In field (keys annotations)) ->
      (exists column, In column (keys annotations) /\ ~ In column fields) ->
      exists column, In column (keys annotations) /\ ~ In column fields
        /\ _ensure_types_coverage fields annotations = Raise (annotated_invalid column))
  /\ ((forall field, In field fields -> In field (keys annotations)) ->
      (forall column, In column (keys annotations) -> In column fields) ->
      _ensure_types_coverage fields annotations = Ok tt).
Proof.
  unfold _ensure_types_coverage. repeat split.
  - intros (f & Hin & Hout).
    destruct (find_some_first (fun field => negb (dict_mem field annotations)) fields)
      as (g & -> & Hg & Hp).
    + exists f. split; [exact Hin|]. apply negb_true_iff.
      destruct (dict_mem f annotations) eqn:Hm; [|reflexivity].
      apply dict_mem_In in Hm. contradiction.
    + exists g. repeat split; [exact Hg|].
      intros Hk. apply dict_mem_In in Hk. rewrite Hk in Hp. discriminate.
  - intros Hfields (c & Hin & Hout).
    rewrite find_none_all.
    + destruct (find_some_first (fun a => negb (mem a fields)) (keys annotations))
        as (g & -> & Hg & Hp).
      * exists c. split; [exact Hin|]. apply negb_true_iff.
        destruct (mem c fields) eqn:Hm; [|reflexivity].
        apply mem_In in Hm. contradiction.
      * exists g. repeat split; [exact Hg|].
        intros Hk. apply mem_In in Hk. rewrite Hk in Hp. discriminate.
    + intros f Hf. apply negb_false_iff, dict_mem_In, Hfields, Hf.
  - intros Hfields Hcols.
    rewrite find_none_all.
    + rewrite find_none_all; [reflexivity|].
      intros c Hc. apply negb_false_iff, mem_In, Hcols, Hc.
    + intros f Hf. apply negb_false_iff, dict_mem_In, Hfields, Hf.
Qed.

(** The coverage check inside [_parse], for a document that splits into a
    header block and a grid, whose header parses and whose grid has a line of
    field names: when a field is not annotated or an annotated column is not a
    field, [_parse] raises [AnnotationCoverageError] with a message that
    quotes one such name (a field that is not annotated first); when the
    annotated columns are exactly the fields, the check passes and [_parse]
    goes on to read the rows: it returns the object, or raises what the
    reader raises there. *)
Lemma parse_coverage `{Runtime} (raw_content header raw_data : string)
  (fp : option string) (annotations : dict datatype._HighType)
  (fields : list string) :
  split "@@" raw_content = [header; raw_data] ->
  _parse_header (strip header) = Ok annotations ->
  fieldnames (csv_DictReader (strip raw_data)) = Ok (Some fields) ->
  ((exists name, offending fields annotations name) ->
   exists name,
     (In name fields /\ ~ In name (keys annotations)
      /\ _parse raw_content fp
         = Raise (AnnotationCoverageError
                    ("Not annotated field: " ++ dquote ++ name ++ dquote)))
     \/ (In name (keys annotations) /\ ~ In name fields
         /\ _parse raw_content fp
            = Raise (AnnotationCoverageError
                       ("Annotated invalid field: " ++ dquote ++ name ++ dquote))))
  /\ ((forall name, In name fields <-> In name (keys annotations)) ->
      _parse raw_content fp =
      (rows <- _dictreader_to_rows (csv_DictReader (strip raw_data)) ;;
       Ok {| parser.annotations := annotations;
             parser.fields := fields;
             enc_rows := rows;
             file_path := fp;
             raw_header := Some header |})).
Proof.
  intros Hs Hh Hf.
  assert (Hc : contains "@@" raw_content = true).
  { destruct (contains "@@" raw_content) eqn:Hc; [reflexivity|].
    unfold split in Hs. rewrite split_rounds_no_separator in Hs by exact Hc.
    discriminate. }
  assert (Hp : _parse raw_content fp =
               (_ <- _ensure_types_coverage fields annotations ;;
                rows <- _dictreader_to_rows (csv_DictReader (strip raw_data)) ;;
                Ok {| parser.annotations := annotations;
                      parser.fields := fields;
                      enc_rows := rows;
                      file_path := fp;
                      raw_header := Some header |})).
  { unfold _parse. rewrite Hc, Hs. simpl negb. cbv iota. rewrite Hh. simpl bind.
    rewrite Hf. reflexivity. }
  rewrite Hp. clear Hp.
  destruct (ensure_types_coverage_spec fields annotations) as (Ha & Hb & Hok).
  split.
  - intros (name & Hoff).
    destruct (all_or_missing fields (keys annotations)) as [Hall | Hex].
    + destruct Hoff as [[Hin Hout] | Hoff]; [exfalso; exact (Hout (Hall _ Hin))|].
      destruct (Hb Hall (ex_intro _ name Hoff)) as (c & Hc1 & Hc2 & ->).
      exists c. right. auto.
    + destruct (Ha Hex) as (f & Hf1 & Hf2 & ->).
      exists f. left. auto.
  - intros Heq. rewrite Hok; [reflexivity | |]; intros n Hn; apply Heq, Hn.
Qed.

(** X10: A grid without a line of field names: [fieldnames] is [None], and the
    loop of the coverage check over it raises [TypeError]. *)
Lemma parse_without_field_line `{Runtime} (raw_content header raw_data : string)
  (fp : option string) (annotations : dict datatype._HighType) :
  split "@@" raw_content = [header; raw_data] ->
  _parse_header (strip header) = Ok annotations ->
  fieldnames (csv_DictReader (strip raw_data)) = Ok None ->
  _parse raw_content fp = Raise TypeError.
Proof.
  intros Hs Hh Hf. unfold _parse.
  destruct (contains "@@" raw_content) eqn:Hc.
  - simpl negb. cbv iota. rewrite Hs, Hh. simpl bind. rewrite Hf. reflexivity.
  - unfold split in Hs. rewrite split_rounds_no_separator in Hs by exact Hc.
    discriminate.
Qed.

(** C4: a document whose header declares a column and whose grid has no line
    at all.  The annotated column is absent from the grid, yet [_parse] raises
    no [AnnotationCoverageError]: the reader's [fieldnames] is [None], and the
    first loop of the coverage check, over [None], raises [TypeError].  Given
    the empty field list instead, the check does raise the coverage error that
    quotes the first annotated column. *)
Theorem coverage_check_on_empty_grid `{Runtime} (raw_content header raw_data : string)
  (fp : option string) (column : string) (t : datatype._HighType)
  (others : dict datatype._HighType) :
  split "@@" raw_content = [header; raw_data] ->
  _parse_header (strip header) = Ok ((column, t) :: others) ->
  fieldnames (csv_DictReader (strip raw_data)) = Ok None ->
  _parse raw_content fp = Raise TypeError
  /\ _ensure_types_coverage [] ((column, t) :: others)
     = Raise (AnnotationCoverageError
                ("Annotated invalid field: " ++ dquote ++ column ++ dquote)).
Proof.
  intros Hs Hh Hf. split; [|reflexivity].
  unfold _parse.
  destruct (contains "@@" raw_content) eqn:Hc.
  - simpl negb. cbv iota. rewrite Hs, Hh. simpl bind. rewrite Hf. reflexivity.
  - unfold split in Hs. rewrite split_rounds_no_separator in Hs by exact Hc.
    discriminate.
Qed.

(** ** The row store *)

Lemma index_value_int `{PyTypes} (index : value) (i : Z) :
  index_value index = Ok i ->
  index = VInt i \/ exists b, index = VBool b /\ i = Z_of_bool b.
Proof.
  destruct index; simpl; try discriminate; intros [= <-]; eauto.
Qed.

(** [index in range(0, len(self.enc_rows))] is the test for a valid index. *)
Lemma in_range_valid `{PyTypes} (rows : list T_Row) (index : value) :
  in_range index (List.length rows) = true <-> valid_index rows index.
Proof.
  unfold in_range, valid_index, index_at. split.
  - destruct (index_value index) as [i|e]; [|discriminate].
    intros Hr. apply andb_prop in Hr as [H0 H1].
    apply Z.leb_le in H0. apply Z.ltb_lt in H1.
    exists (Z.to_nat i). split; [rewrite Z2Nat.id by lia; reflexivity | lia].
  - intros (n & -> & Hn).
    apply andb_true_intro; split; [apply Z.leb_le | apply Z.ltb_lt]; lia.
Qed.

Lemma validate_valid `{Runtime} (w : world) (index : value) (n : nat) :
  index_at (enc_rows (self w)) index n ->
  _validate_index index w = (Ok tt, w).
Proof.
  intros Hn. unfold _validate_index, then_, get_self.
  rewrite (proj2 (in_range_valid (enc_rows (self w)) index) (ex_intro _ n Hn)).
  destruct Hn as [Hi _].
  destruct (index_value_int _ Hi) as [-> | (b & -> & _)]; reflexivity.
Qed.

(** An index that is not valid and that the message can hold: [IndexError]. *)
Lemma validate_invalid `{Runtime} (w : world) (index : value) :
  ~ valid_index (enc_rows (self w)) index -> printable_index index ->
  _validate_index index w = (Raise IndexError, w).
Proof.
  intros Hbad Hp. unfold _validate_index, then_, get_self.
  destruct (isinstance_int index) eqn:Hint; [|reflexivity]. simpl negb. cbv iota.
  destruct (in_range index (List.length (enc_rows (self w)))) eqn:Hr.
  - exfalso. apply Hbad, in_range_valid, Hr.
  - simpl negb. cbv iota. unfold lift, raise, lift.
    destruct index; try discriminate; cbn [py_str].
    + destruct b; reflexivity.
    + rewrite (int_str_in_limit _ Hp). reflexivity.
Qed.

(** An integer that is not valid and has more digits than the message can
    hold: building the message raises [ValueError], and no [IndexError] is
    raised at all. *)
Lemma validate_over_limit `{Runtime} (w : world) (z : Z) :
  in_digit_limit z = false ->
  in_range (VInt z) (List.length (enc_rows (self w))) = false ->
  _validate_index (VInt z) w = (Raise ValueError, w).
Proof.
  intros Hz Hr. unfold _validate_index, then_, get_self. rewrite Hr.
  cbn [isinstance_int negb]. unfold lift. cbn [py_str].
  rewrite (int_str_over_limit _ Hz). reflexivity.
Qed.

(** [read] at an index the store rejects. *)
Lemma read_invalid `{Runtime} (w : world) (index : value) :
  ~ valid_index (enc_rows (self w)) index -> printable_index index ->
  read index w = (Ok None, w).
Proof.
  intros Hbad Hp. unfold read, then_. rewrite (validate_invalid _ Hbad Hp). reflexivity.
Qed.

(** At an index outside [0, rowCount) that is no integer over the digit
    limit, and at one that is no integer, [read] returns [None], while
    [update_row], [update_field] and [remove_row] raise [IndexError]; the
    world they leave is the one they found: no row was encoded or stored and
    no file written. *)
Lemma invalid_index_read_and_mutations `{Runtime} (w : world) (index : value)
  (row_data : T_Row) (col : string) (val : value) :
  ~ valid_index (enc_rows (self w)) index -> printable_index index ->
  read index w = (Ok None, w)
  /\ update_row index row_data w = (Raise IndexError, w)
  /\ update_field index col val w = (Raise IndexError, w)
  /\ remove_row index w = (Raise IndexError, w).
Proof.
  intros Hbad Hp. split; [exact (read_invalid _ Hbad Hp)|].
  unfold update_row, update_field, remove_row, then_.
  rewrite (validate_invalid _ Hbad Hp). repeat split; reflexivity.
Qed.

(** C5: an integer index outside [0, rowCount) with more digits than the
    interpreter writes (4300): [_validate_index] builds the message of its
    [IndexError] with the index in it, and building it raises [ValueError].
    So [read] does not return [None]: it raises [ValueError], which its
    [except IndexError] does not catch; and [update_row], [update_field] and
    [remove_row] raise [ValueError], not [IndexError].  The world is left as
    it was. *)
Theorem index_over_digit_limit `{Runtime} (w : world) (z : Z)
  (row_data : T_Row) (col : string) (val : value) :
  in_digit_limit z = false ->
  in_range (VInt z) (List.length (enc_rows (self w))) = false ->
  read (VInt z) w = (Raise ValueError, w)
  /\ update_row (VInt z) row_data w = (Raise ValueError, w)
  /\ update_field (VInt z) col val w = (Raise ValueError, w)
  /\ remove_row (VInt z) w = (Raise ValueError, w).
Proof.
  intros Hz Hr.
  unfold read, update_row, update_field, remove_row, then_.
  rewrite (validate_over_limit _ _ Hz Hr). repeat split; reflexivity.
Qed.

(** *** [update_row] and [insert_row] *)

Lemma update_row_valid `{Runtime} (w : world) (index : value) (n : nat) (row_data : T_Row) :
  index_at (enc_rows (self w)) index n ->
  update_row index row_data w =
  match _encode_row (annotations (self w)) row_data with
  | Ok encoded_row => _save (set_rows w (replace_nth n encoded_row (enc_rows (self w))))
  | Raise e => (Raise e, w)
  end.
Proof.
  intros Hv. unfold update_row, then_ at 1. rewrite (validate_valid _ Hv).
  unfold then_, get_self, lift, put_rows, setitem.
  destruct (_encode_row _ _); [|reflexivity].
  destruct Hv as [-> Hn]. rewrite (position_valid _ Hn). reflexivity.
Qed.

Lemma insert_row_unfold `{Runtime} (w : world) (row_data : T_Row) :
  insert_row row_data w =
  match _encode_row (annotations (self w)) row_data with
  | Ok encoded_row => _save (set_rows w (enc_rows (self w) ++ [encoded_row]))
  | Raise e => (Raise e, w)
  end.
Proof.
  unfold insert_row, then_, get_self, lift, put_rows.
  destruct (_encode_row _ _); reflexivity.
Qed.

Lemma update_field_valid `{Runtime} (w : world) (index : value) (n : nat)
  (col : string) (val : value) (t : datatype._HighType) (v : value) (row : T_Row) :
  index_at (enc_rows (self w)) index n ->
  dict_get col (annotations (self w)) = Some t ->
  datatype.encode t val = Ok v ->
  nth_error (enc_rows (self w)) n = Some row ->
  update_field index col val w
  = _save (set_rows w (replace_nth n (dict_set col v row) (enc_rows (self w)))).
Proof.
  intros Hv Hc He Hr. unfold update_field, then_ at 1. rewrite (validate_valid _ Hv).
  unfold then_, get_self, lift, put_rows, setitem, getitem. rewrite Hc, He.
  destruct Hv as [-> Hn]. rewrite (position_valid _ Hn), Hr. reflexivity.
Qed.

Lemma remove_row_valid `{Runtime} (w : world) (index : value) (n : nat) :
  index_at (enc_rows (self w)) index n ->
  remove_row index w = _save (set_rows w (remove_nth n (enc_rows (self w)))).
Proof.
  intros Hv. unfold remove_row, then_ at 1. rewrite (validate_valid _ Hv).
  unfold then_, get_self, lift, put_rows, pop.
  destruct Hv as [-> Hn]. rewrite (position_valid _ Hn). reflexivity.
Qed.

(** The first column of a row that is not annotated, with what stands before
    it and behind it. *)
Lemma first_unknown_column `{PyTypes} {V : Type} (annotations : dict V)
  (items : list (string * value)) :
  (exists col, In col (keys items) /\ dict_get col annotations = None) ->
  exists pre col val post,
    items = pre ++ (col, val) :: post
    /\ dict_get col annotations = None
    /\ (forall c, In c (keys pre) -> dict_mem c annotations = true).
Proof.
  induction items as [|[c v] items IH]; intros (col & Hin & Hnone); [destruct Hin|].
  destruct (dict_get c annotations) as [t|] eqn:Hc.
  - destruct IH as (pre & col' & val & post & -> & Hn & Hpre).
    { destruct Hin as [<- | Hin]; [simpl in Hnone; congruence | eauto]. }
    exists ((c, v) :: pre), col', val, post. repeat split; [exact Hn|].
    intros c' [<- | Hc']; [unfold dict_mem; simpl; rewrite Hc; reflexivity|].
    apply Hpre, Hc'.
  - exists [], c, v, items. repeat split; [exact Hc | intros c' []].
Qed.

(** The loop of [_encode_row] on a row with a column that is not annotated:
    it raises, whatever it has built so far; it raises the "unknown column"
    error of that column when the values before it encode, and otherwise what
    the first of them that does not encode raises. *)
Lemma encode_columns_first_unknown `{Runtime} (annotations : dict datatype._HighType)
  (pre post : list (string * value)) (col : string) (val : value) :
  dict_get col annotations = None ->
  (forall c, In c (keys pre) -> dict_mem c annotations = true) ->
  exists e,
    (forall casted,
       encode_columns annotations casted (pre ++ (col, val) :: post) = Raise e)
    /\ ((encodable annotations pre /\ e = UpdateError ("Invalid column: " ++ col))
        \/ (exists pre1 c v t pre2,
              pre = pre1 ++ (c, v) :: pre2
              /\ encodable annotations pre1
              /\ dict_get c annotations = Some t
              /\ datatype.encode t v = Raise e)).
Proof.
  intros Hnone. induction pre as [|[c v] pre IH]; intros Hpre.
  - exists (UpdateError ("Invalid column: " ++ col)). split.
    + intros casted. simpl. rewrite Hnone. reflexivity.
    + left. split; [intros ? ? [] | reflexivity].
  - assert (Hc : exists t, dict_get c annotations = Some t).
    { specialize (Hpre c (or_introl eq_refl)). unfold dict_mem in Hpre.
      destruct (dict_get c annotations) as [t|]; [eauto | discriminate]. }
    destruct Hc as (t & Hc).
    destruct (datatype.encode t v) as [x|e0] eqn:He.
    + destruct IH as (e & Hall & Hcase).
      { intros c' Hc'. apply Hpre. right; exact Hc'. }
      exists e. split.
      * intros casted. cbn [app encode_columns]. rewrite Hc, He. simpl bind.
        apply Hall.
      * destruct Hcase as [[Henc ->] | (pre1 & c1 & v1 & t1 & pre2 & -> & Henc & Hc1 & He1)].
        -- left. split; [|reflexivity].
           intros c' v' [[= <- <-] | Hin]; [eauto | exact (Henc _ _ Hin)].
        -- right. exists ((c, v) :: pre1), c1, v1, t1, pre2.
           repeat split; try assumption.
           intros c' v' [[= <- <-] | Hin]; [eauto | exact (Henc _ _ Hin)].
    + exists e0. split.
      * intros casted. cbn [app encode_columns]. rewrite Hc, He. reflexivity.
      * right. exists [], c, v, t, pre. repeat split; try assumption.
        intros ? ? [].
Qed.

Lemma encode_columns_encodable `{Runtime} (annotations : dict datatype._HighType)
  (items : list (string * value)) (casted : T_Row) :
  encodable annotations items ->
  exists encoded_row, encode_columns annotations casted items = Ok encoded_row.
Proof.
  revert casted; induction items as [|[c v] items IH]; intros casted Hall.
  - eexists; reflexivity.
  - cbn [encode_columns].
    destruct (Hall c v (or_introl eq_refl)) as (t & x & -> & ->). simpl.
    apply IH. intros c' v' Hi. apply Hall. right; exact Hi.
Qed.

(** *** Persistence *)

Lemma save_unbound `{Runtime} (w : world) :
  file_path (self w) = None \/ file_path (self w) = Some EmptyString ->
  _save w = (Ok tt, w).
Proof.
  intros Hf. unfold _save, then_, get_self.
  destruct Hf as [-> | ->]; reflexivity.
Qed.

(** [_save] on a store bound to a file, with its header text: the file is
    emptied, then it gets the document, unless building the document raises. *)
Lemma save_bound `{Runtime} (w : world) (fp header : string) :
  file_path (self w) = Some fp -> fp <> EmptyString ->
  raw_header (self w) = Some header ->
  _save w =
  match document header (fields (self w)) (enc_rows (self w)) with
  | Ok content =>
      (Ok tt, {| self := self w;
                 files := dict_set fp content (dict_set fp "" (files w)) |})
  | Raise e =>
      (Raise e, {| self := self w; files := dict_set fp "" (files w) |})
  end.
Proof.
  intros Hf Hne Hh. unfold _save, then_, get_self. rewrite Hf.
  destruct fp; [contradiction|]. unfold write_file, lift. simpl. rewrite Hh.
  destruct (document header _ _); reflexivity.
Qed.

(** [_save] on a store bound to a file, without a header text. *)
Lemma save_headless `{Runtime} (w : world) (fp : string) :
  file_path (self w) = Some fp -> fp <> EmptyString ->
  raw_header (self w) = None ->
  _save w = (Raise TypeError, {| self := self w; files := dict_set fp "" (files w) |}).
Proof.
  intros Hf Hne Hh. unfold _save, then_, get_self. rewrite Hf.
  destruct fp; [contradiction|]. unfold write_file, raise, lift. simpl. rewrite Hh.
  reflexivity.
Qed.

(** [_save] leaves the object as it is, whether it returns or raises. *)
Lemma save_self `{Runtime} (w : world) : self (snd (_save w)) = self w.
Proof.
  destruct (file_path (self w)) as [[|c fp]|] eqn:Hf.
  - rewrite save_unbound by auto. reflexivity.
  - destruct (raw_header (self w)) as [h|] eqn:Hh.
    + rewrite (save_bound w (fp := String c fp) (header := h)) by (auto; discriminate).
      destruct (document h _ _); reflexivity.
    + rewrite (save_headless w (fp := String c fp)) by (auto; discriminate).
      reflexivity.
  - rewrite save_unbound by auto. reflexivity.
Qed.

Lemma texts_has_text `{Runtime} (vs : list value) :
  Forall has_text vs <-> exists cells, texts vs = Ok cells.
Proof.
  induction vs as [|v vs IH]; simpl.
  - split; [eexists; reflexivity | constructor].
  - split.
    + intros Hall. inversion Hall as [|? ? (s & Hs) Hrest]; subst.
      apply IH in Hrest as (cells & Hcells). rewrite Hs, Hcells. eexists; reflexivity.
    + intros (cells & Hcells).
      destruct (py_str v) as [s|] eqn:Hs; [|discriminate]. simpl in Hcells.
      destruct (texts vs) as [ss|] eqn:Hss; [|discriminate].
      constructor; [exists s; exact Hs | apply IH; eauto].
Qed.

Lemma row_line_has_text `{Runtime} (row : T_Row) :
  Forall has_text (values row) <-> exists line, row_line row = Ok line.
Proof.
  unfold row_line. rewrite texts_has_text. split.
  - intros (cells & ->). eexists; reflexivity.
  - intros (line & Hline). destruct (texts (values row)); [eauto | discriminate].
Qed.

Lemma row_lines_writable `{Runtime} (rows : list T_Row) :
  writable rows <-> exists lines, row_lines rows = Ok lines.
Proof.
  unfold writable. induction rows as [|row rows IH]; simpl.
  - split; [eexists; reflexivity | constructor].
  - split.
    + intros Hall. inversion Hall as [|? ? Hrow Hrest]; subst.
      apply row_line_has_text in Hrow as (line & ->).
      apply IH in Hrest as (lines & ->). eexists; reflexivity.
    + intros (lines & Hlines).
      destruct (row_line row) as [line|] eqn:Hl; [|discriminate]. simpl in Hlines.
      destruct (row_lines rows) as [ls|] eqn:Hls; [|discriminate].
      constructor; [apply row_line_has_text; eauto | apply IH; eauto].
Qed.

(** The document can be built exactly for writable rows. *)
Lemma document_writable `{Runtime} (header : string) (fields : list string)
  (rows : list T_Row) :
  writable rows <-> exists text, document header fields rows = Ok text.
Proof.
  unfold document. rewrite row_lines_writable. split.
  - intros (lines & ->). eexists; reflexivity.
  - intros (text & Ht). destruct (row_lines rows); [eauto | discriminate].
Qed.

(** [_save] returns exactly on a store that is savable with the rows it
    holds. *)
Lemma save_returns `{Runtime} (w : world) :
  fst (_save w) = Ok tt <-> savable (self w) (enc_rows (self w)).
Proof.
  unfold savable.
  destruct (file_path (self w)) as [[|c fp]|] eqn:Hf.
  - rewrite save_unbound by auto. tauto.
  - destruct (raw_header (self w)) as [h|] eqn:Hh.
    + rewrite (save_bound w (fp := String c fp) (header := h)) by (auto; discriminate).
      rewrite (document_writable h (fields (self w))).
      destruct (document h _ _) as [text|e]; simpl; split.
      * intros _. split; eauto.
      * reflexivity.
      * discriminate.
      * intros [_ (text & Ht)]. discriminate.
    + rewrite (save_headless w (fp := String c fp)) by (auto; discriminate).
      simpl. split; [discriminate | intros [(h & Hh') _]; discriminate].
  - rewrite save_unbound by auto. tauto.
Qed.

(** The same for the store after its rows were set. *)
Lemma save_rows_returns `{Runtime} (w : world) (rows : list T_Row) :
  fst (_save (set_rows w rows)) = Ok tt <-> savable (self w) rows.
Proof. rewrite save_returns. reflexivity. Qed.

Lemma save_rows_self `{Runtime} (w : world) (rows : list T_Row) :
  self (snd (_save (set_rows w rows))) = with_rows (self w) rows.
Proof. rewrite save_self. reflexivity. Qed.

Lemma savable_persistable `{Runtime} (o : SCSVObject) (rows : list T_Row) :
  savable o rows -> persistable o.
Proof.
  unfold savable, persistable.
  destruct (file_path o) as [[|? ?]|]; try exact (fun H => H). intros [Hh _]; exact Hh.
Qed.

Lemma persistable_writable_savable `{Runtime} (o : SCSVObject) (rows : list T_Row) :
  persistable o -> writable rows -> savable o rows.
Proof.
  unfold savable, persistable.
  destruct (file_path o) as [[|? ?]|]; auto.
Qed.

Lemma persistable_set_rows `{PyTypes} (w : world) (rows : list T_Row) :
  persistable (self w) -> persistable (self (set_rows w rows)).
Proof. exact (fun H => H). Qed.

(** Writable rows stay writable under the changes the methods make. *)
Lemma writable_replace_nth `{Runtime} (rows : list T_Row) (n : nat) (row : T_Row) :
  writable rows -> Forall has_text (values row) -> writable (replace_nth n row rows).
Proof.
  unfold writable. intros Hall Hrow. revert n.
  induction Hall as [|r rows Hr Hrest IH]; intros [|n]; simpl; constructor; auto.
Qed.

Lemma writable_remove_nth `{Runtime} (rows : list T_Row) (n : nat) :
  writable rows -> writable (remove_nth n rows).
Proof.
  unfold writable. intros Hall. revert n.
  induction Hall as [|r rows Hr Hrest IH]; intros [|n]; simpl; try constructor; auto.
Qed.

Lemma savable_remove_nth `{Runtime} (o : SCSVObject) (rows : list T_Row) (n : nat) :
  savable o rows -> savable o (remove_nth n rows).
Proof.
  unfold savable. destruct (file_path o) as [[|? ?]|]; auto.
  intros [Hh Hw]. split; [exact Hh | apply writable_remove_nth, Hw].
Qed.

Lemma writable_append `{Runtime} (rows : list T_Row) (row : T_Row) :
  writable rows -> Forall has_text (values row) -> writable (rows ++ [row]).
Proof.
  unfold writable. intros Hall Hrow. apply Forall_app. split; [exact Hall|].
  constructor; [exact Hrow | constructor].
Qed.

Lemma writable_nth `{Runtime} (rows : list T_Row) (n : nat) (row : T_Row) :
  writable rows -> nth_error rows n = Some row -> Forall has_text (values row).
Proof.
  unfold writable. intros Hall Hn.
  exact (proj1 (Forall_forall _ _) Hall _ (nth_error_In _ _ Hn)).
Qed.

Lemma has_text_dict_set `{Runtime} (row : T_Row) (col : string) (v : value) :
  Forall has_text (values row) -> has_text v ->
  Forall has_text (values (dict_set col v row)).
Proof.
  intros Hall Hv. induction row as [|[k x] row IH]; simpl.
  - constructor; [exact Hv | constructor].
  - inversion Hall as [|? ? Hx Hrest]; subst.
    destruct (k =? col)%string; simpl; constructor; auto.
Qed.

(** *** Dictionaries built by the loops *)

Lemma encode_columns_spec `{Runtime} (annotations : dict datatype._HighType)
  (items : list (string * value)) (casted out : T_Row) :
  NoDup (keys casted ++ keys items) ->
  encode_columns annotations casted items = Ok out ->
  exists encoded_row, out = casted ++ encoded_row /\ encodes annotations items encoded_row.
Proof.
  revert casted; induction items as [|[c v] items IH]; intros casted Hnd.
  - simpl. intros [= <-]. exists []. split; [symmetry; apply app_nil_r | constructor].
  - cbn [encode_columns]. destruct (dict_get c annotations) as [t|] eqn:Hc; [|discriminate].
    destruct (datatype.encode t v) as [x|e] eqn:He; [|discriminate]. simpl.
    assert (Hfresh : ~ In c (keys casted)).
    { intros Hin. simpl in Hnd. apply NoDup_remove_2 in Hnd. apply Hnd.
      apply in_or_app; left; exact Hin. }
    rewrite (dict_set_fresh _ _ _ Hfresh). intros Hout.
    destruct (IH (casted ++ [(c, x)])) as (enc & -> & Henc).
    + unfold keys in *. rewrite map_app, <- app_assoc. exact Hnd.
    + exact Hout.
    + exists ((c, x) :: enc). split; [rewrite <- app_assoc; reflexivity|].
      constructor; [|exact Henc]. simpl. split; [reflexivity|]. exists t. auto.
Qed.

Lemma encodes_keys `{Runtime} (annotations : dict datatype._HighType)
  (items : list (string * value)) (encoded_row : T_Row) :
  encodes annotations items encoded_row -> keys encoded_row = keys items.
Proof.
  induction 1 as [|cv ce items enc [Hk _] _ IH]; simpl; [reflexivity|].
  rewrite Hk, IH. reflexivity.
Qed.

Lemma encode_row_spec `{Runtime} (annotations : dict datatype._HighType)
  (row_data encoded_row : T_Row) :
  NoDup (keys row_data) ->
  _encode_row annotations row_data = Ok encoded_row ->
  encodes annotations row_data encoded_row.
Proof.
  intros Hnd He. destruct (encode_columns_spec annotations row_data [] Hnd He)
    as (enc & -> & Henc). exact Henc.
Qed.

Lemma storable_encodable `{Runtime} (annotations : dict datatype._HighType)
  (items : list (string * value)) :
  storable annotations items -> encodable annotations items.
Proof.
  intros Hall col val Hin. destruct (Hall col val Hin) as (t & v & Hc & He & _). eauto.
Qed.

(** The encoded row of a storable row has a text for every value. *)
Lemma encode_columns_storable `{Runtime} (annotations : dict datatype._HighType)
  (items : list (string * value)) (casted out : T_Row) :
  storable annotations items -> Forall has_text (values casted) ->
  encode_columns annotations casted items = Ok out -> Forall has_text (values out).
Proof.
  revert casted; induction items as [|[c v] items IH]; intros casted Hall Hc.
  - simpl. intros [= <-]. exact Hc.
  - cbn [encode_columns].
    destruct (Hall c v (or_introl eq_refl)) as (t & x & -> & -> & Hx). simpl.
    apply IH.
    + intros c' v' Hi. apply Hall. right; exact Hi.
    + apply has_text_dict_set; assumption.
Qed.

Lemma encode_row_storable `{Runtime} (annotations : dict datatype._HighType)
  (row_data encoded_row : T_Row) :
  storable annotations row_data ->
  _encode_row annotations row_data = Ok encoded_row ->
  Forall has_text (values encoded_row).
Proof.
  intros Hall He.
  exact (@encode_columns_storable _ _ annotations row_data [] encoded_row
           Hall (Forall_nil _) He).
Qed.

(** C6, as the code has it: when the input row names a column that is not
    annotated, [update_row] (at a valid index) and [insert_row] raise and
    leave the world as it was: no row changed, nothing written.  The loop of
    [_encode_row] checks and encodes column by column, so with [col] the first
    column of the input that is not annotated, the exception is the "unknown
    column" [UpdateError] with the message [Invalid column: col] whenever the
    values that stand before [col] encode, and otherwise what the first of
    these values that does not encode raises.  When every column is annotated
    and every value encodes, the row at the index is replaced by the encoded
    row, the other rows are kept, and [_save] runs on the store so changed. *)
Theorem update_row_unknown_column `{Runtime} (w : world) (index : value)
  (row_data : T_Row) :
  ((exists col, In col (keys row_data)
                /\ dict_get col (annotations (self w)) = None) ->
   exists pre col val post e,
     row_data = pre ++ (col, val) :: post
     /\ dict_get col (annotations (self w)) = None
     /\ (forall c, In c (keys pre) -> dict_mem c (annotations (self w)) = true)
     /\ insert_row row_data w = (Raise e, w)
     /\ (valid_index (enc_rows (self w)) index ->
         update_row index row_data w = (Raise e, w))
     /\ ((encodable (annotations (self w)) pre
          /\ e = UpdateError ("Invalid column: " ++ col))
         \/ (exists pre1 c v t pre2,
               pre = pre1 ++ (c, v) :: pre2
               /\ encodable (annotations (self w)) pre1
               /\ dict_get c (annotations (self w)) = Some t
               /\ datatype.encode t v = Raise e)))
  /\ (valid_index (enc_rows (self w)) index ->
      encodable (annotations (self w)) row_data ->
      exists n encoded_row,
        index_at (enc_rows (self w)) index n
        /\ _encode_row (annotations (self w)) row_data = Ok encoded_row
        /\ update_row index row_data w
           = _save (set_rows w (replace_nth n encoded_row (enc_rows (self w))))
        /\ nth_error (replace_nth n encoded_row (enc_rows (self w))) n = Some encoded_row
        /\ (forall m, m <> n ->
            nth_error (replace_nth n encoded_row (enc_rows (self w))) m
            = nth_error (enc_rows (self w)) m)).
Proof.
  split.
  - intros Hunknown.
    destruct (first_unknown_column (annotations (self w)) row_data Hunknown)
      as (pre & col & val & post & -> & Hnone & Hpre).
    destruct (@encode_columns_first_unknown _ _ (annotations (self w)) pre post col val
                Hnone Hpre)
      as (e & He & Hcase).
    exists pre, col, val, post, e.
    repeat split; try assumption.
    + rewrite insert_row_unfold. unfold _encode_row. rewrite He. reflexivity.
    + intros (n & Hn). rewrite (update_row_valid _ _ Hn).
      unfold _encode_row. rewrite He. reflexivity.
  - intros (n & Hn) Hall.
    destruct (encode_columns_encodable [] Hall)
      as (enc & He).
    exists n, enc. rewrite (update_row_valid _ _ Hn). unfold _encode_row. rewrite He.
    repeat split; try apply Hn.
    + apply nth_error_replace_nth, Hn.
    + intros m Hm. apply nth_error_replace_nth_other, Hm.
Qed.

(** An unknown column behind a value that does not encode: the exception is
    the one of the value, in every runtime; an unknown column before such a
    value: the exception is the "unknown column" error. *)
Lemma bad_value_before_unknown_column `{Runtime} :
  dict_get "zz" (annotations (self tagged_world)) = None
  /\ update_row (VInt 0) [("tags", VList [VNone]); ("zz", VInt 1)] tagged_world
     = (Raise ValueError, tagged_world)
  /\ insert_row [("tags", VList [VNone]); ("zz", VInt 1)] tagged_world
     = (Raise ValueError, tagged_world)
  /\ update_row (VInt 0) [("zz", VInt 1); ("tags", VList [VNone])] tagged_world
     = (Raise (UpdateError "Invalid column: zz"), tagged_world)
  /\ insert_row [("zz", VInt 1); ("tags", VList [VNone])] tagged_world
     = (Raise (UpdateError "Invalid column: zz"), tagged_world).
Proof. repeat split; reflexivity. Qed.

(** C10, as the code has it: for a valid index and an input row whose columns
    are annotated, whose values encode and which leaves out a declared column,
    the stored row at the index becomes the encoded input row: it has the
    columns of the input and no other, so the columns left out are gone from
    it.  [update_row] then returns when the store can be saved with the rows
    it now holds: it is bound to no file, or it has its header text and every
    value of these rows has a text. *)
Theorem update_row_partial `{Runtime} (w : world) (index : value) (row_data : T_Row) :
  valid_index (enc_rows (self w)) index ->
  NoDup (keys row_data) ->
  encodable (annotations (self w)) row_data ->
  (exists col, dict_mem col (annotations (self w)) = true /\ ~ In col (keys row_data)) ->
  exists n encoded_row,
    index_at (enc_rows (self w)) index n
    /\ (savable (self w) (replace_nth n encoded_row (enc_rows (self w))) ->
        fst (update_row index row_data w) = Ok tt)
    /\ enc_rows (self (snd (update_row index row_data w)))
       = replace_nth n encoded_row (enc_rows (self w))
    /\ nth_error (enc_rows (self (snd (update_row index row_data w)))) n
       = Some encoded_row
    /\ encodes (annotations (self w)) row_data encoded_row
    /\ keys encoded_row = keys row_data
    /\ (exists col, dict_mem col (annotations (self w)) = true
                    /\ dict_get col encoded_row = None).
Proof.
  intros (n & Hn) Hnd Hall (col & Hdecl & Hout).
  destruct (encode_columns_encodable [] Hall)
    as (enc & He).
  pose proof (encode_row_spec _ _ Hnd He) as Henc.
  pose proof (encodes_keys Henc) as Hkeys.
  exists n, enc. rewrite (update_row_valid _ _ Hn). unfold _encode_row. rewrite He.
  rewrite save_rows_returns, save_rows_self. simpl enc_rows.
  repeat split; try apply Hn; try assumption; try (intros Hs; exact Hs).
  - apply nth_error_replace_nth, Hn.
  - exists col. split; [exact Hdecl|]. apply dict_get_None. rewrite Hkeys. exact Hout.
Qed.

(** A row of annotated columns with a value that does not encode. *)
Lemma bad_value_in_partial_row `{Runtime} :
  keys (annotations (self tagged_world)) = ["tags"; "n"]
  /\ update_row (VInt 0) [("tags", VList [VNone])] tagged_world
     = (Raise ValueError, tagged_world).
Proof. split; reflexivity. Qed.

(** The parser builds objects that have their header text. *)
Lemma parse_persistable `{Runtime} (raw_content : string) (fp : option string)
  (o : SCSVObject) :
  _parse raw_content fp = Ok o ->
  persistable o /\ file_path o = fp /\ exists header, raw_header o = Some header.
Proof.
  unfold _parse. destruct (negb (contains "@@" raw_content)); [discriminate|].
  destruct (split "@@" raw_content) as [|h [|g [|? ?]]]; try discriminate.
  destruct (_parse_header (strip h)) as [ann|]; [|discriminate]. simpl.
  destruct (fieldnames (csv_DictReader (strip g))) as [[fs|]|]; try discriminate. simpl.
  destruct (_ensure_types_coverage fs ann); [|discriminate]. simpl.
  destruct (_dictreader_to_rows (csv_DictReader (strip g))); [|discriminate]. simpl.
  intros [= <-]. unfold persistable. simpl.
  repeat split; eauto. destruct fp as [[|? ?]|]; eauto.
Qed.

(** *** What the methods leave alone *)

Lemma with_rows_same `{PyTypes} (o : SCSVObject) : with_rows o (enc_rows o) = o.
Proof. destruct o; reflexivity. Qed.

Lemma keeps_frame_then `{PyTypes} {A B : Type} (c : method A) (k : A -> method B) :
  keeps_frame c -> (forall a, keeps_frame (k a)) -> keeps_frame (then_ c k).
Proof.
  intros Hc Hk w. unfold then_. destruct (Hc w) as (rows & Hrows).
  destruct (c w) as [[a|e] w1]; simpl in Hrows.
  - destruct (Hk a w1) as (rows' & Hrows'). exists rows'.
    rewrite Hrows', Hrows. reflexivity.
  - exists rows. exact Hrows.
Qed.

Lemma keeps_frame_pure `{PyTypes} {A : Type} (r : result A) : keeps_frame (lift r).
Proof. intros w. exists (enc_rows (self w)). rewrite with_rows_same. reflexivity. Qed.

Lemma keeps_frame_get_self `{PyTypes} : keeps_frame get_self.
Proof. intros w. exists (enc_rows (self w)). rewrite with_rows_same. reflexivity. Qed.

Lemma keeps_frame_put_rows `{PyTypes} (rows : list T_Row) : keeps_frame (put_rows rows).
Proof. intros w. exists rows. reflexivity. Qed.

Lemma keeps_frame_write_file `{PyTypes} (path content : string) :
  keeps_frame (write_file path content).
Proof. intros w. exists (enc_rows (self w)). rewrite with_rows_same. reflexivity. Qed.

(** Splits a method into its steps. *)
Ltac frame :=
  repeat first
    [ apply keeps_frame_then; [|intros ?]
    | apply keeps_frame_pure | apply keeps_frame_get_self
    | apply keeps_frame_put_rows | apply keeps_frame_write_file
    | match goal with
      | |- keeps_frame (match ?x with _ => _ end) => destruct x
      | |- keeps_frame (if ?x then _ else _) => destruct x
      end ].

Lemma save_keeps_frame `{Runtime} : keeps_frame _save.
Proof. unfold _save, raise, ret. frame. Qed.

Lemma validate_keeps_frame `{Runtime} (index : value) : keeps_frame (_validate_index index).
Proof. unfold _validate_index, raise, ret. frame. Qed.

(** X21: The annotations, the field list, the bound file and the header text are
    those the parser set: a method replaces the row list and nothing else. *)
Lemma mutations_keep_frame `{Runtime} (index : value) (row_data : T_Row)
  (col : string) (val : value) :
  keeps_frame (update_row index row_data)
  /\ keeps_frame (update_field index col val)
  /\ keeps_frame (remove_row index)
  /\ keeps_frame (insert_row row_data).
Proof.
  pose proof save_keeps_frame. pose proof (validate_keeps_frame index).
  unfold update_row, update_field, remove_row, insert_row, raise.
  repeat split; frame; assumption.
Qed.

Lemma keeps_frame_persistable `{PyTypes} {A : Type} (m : method A) (w : world) :
  keeps_frame m -> persistable (self w) -> persistable (self (snd (m w))).
Proof.
  intros Hm Hp. destruct (Hm w) as (rows & ->). exact Hp.
Qed.

(** *** What [_save] writes *)

(** [update_row] on a bound store, with a row whose encoded values have a
    text, among rows that are writable: it returns, the file holds the header
    text, the separator, the field line and one line per row, and the line of
    the new row lists the values in the order of the input row. *)
Lemma update_row_writes_row_as_supplied `{Runtime} (w : world) (index : value)
  (n : nat) (row_data : T_Row) (fp header : string) :
  index_at (enc_rows (self w)) index n ->
  NoDup (keys row_data) ->
  storable (annotations (self w)) row_data ->
  writable (enc_rows (self w)) ->
  file_path (self w) = Some fp -> fp <> EmptyString ->
  raw_header (self w) = Some header ->
  exists encoded_row text cells,
    encodes (annotations (self w)) row_data encoded_row
    /\ keys encoded_row = keys row_data
    /\ fst (update_row index row_data w) = Ok tt
    /\ document header (fields (self w))
         (replace_nth n encoded_row (enc_rows (self w))) = Ok text
    /\ dict_get fp (files (snd (update_row index row_data w))) = Some text
    /\ texts (values encoded_row) = Ok cells
    /\ row_line encoded_row = Ok (join "," cells).
Proof.
  intros Hn Hnd Hall Hw Hf Hne Hh.
  destruct (encode_columns_encodable [] (storable_encodable Hall)) as (enc & He).
  pose proof (encode_row_spec _ _ Hnd He) as Henc.
  pose proof (@encode_row_storable _ _ _ _ _ Hall He) as Htext.
  pose proof (@writable_replace_nth _ _ _ n _ Hw Htext) as Hw'.
  destruct (proj1 (document_writable header (fields (self w)) _) Hw') as (text & Ht).
  destruct (proj1 (texts_has_text _) Htext) as (cells & Hcells).
  exists enc, text, cells. rewrite (update_row_valid _ _ Hn). unfold _encode_row. rewrite He.
  rewrite (save_bound (set_rows w (replace_nth n enc (enc_rows (self w))))
             (fp := fp) (header := header)) by assumption.
  cbn [set_rows self with_rows fields enc_rows]. rewrite Ht.
  cbn [fst snd files]. rewrite dict_get_set_same.
  repeat split; try assumption; [exact (encodes_keys Henc)|].
  unfold row_line. rewrite Hcells. reflexivity.
Qed.

(** C7: the lines [_save] writes hold the values of a row in the order the row
    stores them, not in the order of the field list.  After
    [update_row(0, {"b": "y", "a": 2})] the file has the line [y,2] under the
    field line [a,b]; the claim says the line is [2,y]. *)
Theorem save_writes_values_in_stored_order `{Runtime} :
  update_row (VInt 0) [("b", VStr "y"); ("a", VInt 2)] example_world
  = (Ok tt,
     {| self := with_rows example_object
                  [ [("b", VStr "y"); ("a", VInt 2)];
                    [("a", VStr "2"); ("b", VStr "y")] ];
        files := [("t.scsv",
                   (example_header ++ "@@" ++ newline
                    ++ "a,b" ++ newline ++ "y,2" ++ newline ++ "2,y" ++ newline)%string)] |}).
Proof. reflexivity. Qed.

(** ** Traversal with [read_all] *)

Lemma decode_rows_at `{Runtime} (annotations : dict datatype._HighType)
  (rows decs : list T_Row) (pos : nat) :
  decode_rows annotations rows = Ok decs ->
  match nth_error rows pos with
  | None => skipn pos decs = []
  | Some row => exists d, _decode_row annotations row = Ok d
                          /\ skipn pos decs = d :: skipn (S pos) decs
  end.
Proof.
  revert decs pos; induction rows as [|row rows IH]; intros decs pos; simpl.
  - intros [= <-]. destruct pos; reflexivity.
  - destruct (_decode_row annotations row) as [d|] eqn:Hd; [|discriminate]. simpl.
    destruct (decode_rows annotations rows) as [ds|] eqn:Hds; [|discriminate]. simpl.
    intros [= <-]. destruct pos as [|pos]; simpl.
    + exists d. auto.
    + exact (IH ds pos eq_refl).
Qed.

Lemma decode_rows_length `{Runtime} (annotations : dict datatype._HighType)
  (rows decs : list T_Row) :
  decode_rows annotations rows = Ok decs -> List.length decs = List.length rows.
Proof.
  revert decs; induction rows as [|row rows IH]; intros decs; simpl.
  - intros [= <-]. reflexivity.
  - destruct (_decode_row annotations row); [|discriminate]. simpl.
    destruct (decode_rows annotations rows) as [ds|]; [|discriminate]. simpl.
    intros [= <-]. simpl. rewrite (IH ds eq_refl). reflexivity.
Qed.

Lemma traverse_ended `{Runtime} (j : nat) (w : world) :
  traverse (repeat Next j) Ended w = steps j [].
Proof. induction j as [|j IH]; simpl; [reflexivity | rewrite IH; reflexivity]. Qed.

(** Against a store that stays as it is, the generator yields the decoded rows
    from its position on. *)
Lemma traverse_rest `{Runtime} (j pos : nat) (w : world) (decs : list T_Row) :
  decode_rows (annotations (self w)) (enc_rows (self w)) = Ok decs ->
  traverse (repeat Next j) (At pos) w = steps j (skipn pos decs).
Proof.
  intros Hd. revert pos; induction j as [|j IH]; intros pos; [reflexivity|].
  cbn [repeat traverse next]. pose proof (@decode_rows_at _ _ _ _ _ pos Hd) as Hat.
  destruct (nth_error (enc_rows (self w)) pos) as [row|].
  - destruct Hat as (d & -> & ->). cbn [steps]. rewrite IH. reflexivity.
  - rewrite Hat. cbn [steps]. rewrite traverse_ended. reflexivity.
Qed.

Lemma traverse_prefix `{Runtime} (k pos : nat) (rest : list action) (w : world)
  (decs : list T_Row) :
  decode_rows (annotations (self w)) (enc_rows (self w)) = Ok decs ->
  pos + k <= List.length decs ->
  traverse (repeat Next k ++ rest) (At pos) w
  = steps k (skipn pos decs) ++ traverse rest (At (pos + k)) w.
Proof.
  intros Hd. revert pos; induction k as [|k IH]; intros pos Hk.
  - simpl. rewrite Nat.add_0_r. reflexivity.
  - cbn [repeat app traverse next]. pose proof (@decode_rows_at _ _ _ _ _ pos Hd) as Hat.
    destruct (nth_error (enc_rows (self w)) pos) as [row|] eqn:Hn.
    + destruct Hat as (d & -> & ->). cbn [steps]. rewrite IH by lia.
      replace (S pos + k) with (pos + S k) by lia. reflexivity.
    + apply nth_error_None in Hn. rewrite <- (decode_rows_length _ _ Hd) in Hn. lia.
Qed.

(** One call between the steps: after [k] rows were yielded, a method call
    changes the store, and what the traversal yields from then on are the
    rows of the changed store from position [k] on, when all rows decode. *)
Lemma read_all_around_a_call `{Runtime} (w : world) (m : method unit) (k j : nat)
  (before after : list T_Row) :
  decode_rows (annotations (self w)) (enc_rows (self w)) = Ok before ->
  decode_rows (annotations (self (snd (m w)))) (enc_rows (self (snd (m w)))) = Ok after ->
  k <= List.length before ->
  traverse (repeat Next k ++ Do m :: repeat Next j) read_all w
  = steps k before ++ steps j (skipn k after).
Proof.
  intros Hb Ha Hk. unfold read_all.
  rewrite (@traverse_prefix _ _ k 0 _ w before Hb) by exact Hk. simpl skipn. simpl Nat.add.
  cbn [traverse]. rewrite (@traverse_rest _ _ j k _ after Ha). reflexivity.
Qed.

Lemma traverse_ended_next `{Runtime} (script : list action) (w : world) :
  traverse (script ++ [Next]) Ended w = traverse script Ended w ++ [StopIteration].
Proof.
  revert w; induction script as [|[|m] script IH]; intros w; simpl.
  - reflexivity.
  - rewrite IH. reflexivity.
  - apply IH.
Qed.

(** One more [next] after any script, from any position. *)
Lemma traverse_next `{Runtime} (script : list action) (pos : nat) (w : world) :
  traverse (script ++ [Next]) (At pos) w
  = traverse script (At pos) w
    ++ [ if forallb yielded (traverse script (At pos) w)
         then row_step (after script w) (pos + nexts script)
         else StopIteration ].
Proof.
  revert pos w; induction script as [|[|m] script IH]; intros pos w.
  - cbn [app traverse next forallb after nexts]. rewrite Nat.add_0_r. unfold row_step.
    destruct (nth_error (enc_rows (self w)) pos) as [row|]; [|reflexivity].
    destruct (_decode_row (annotations (self w)) row); reflexivity.
  - cbn [app traverse next after nexts].
    destruct (nth_error (enc_rows (self w)) pos) as [row|].
    + destruct (_decode_row (annotations (self w)) row) as [d|e].
      * rewrite IH. cbn [forallb yielded andb app].
        replace (S pos + nexts script) with (pos + S (nexts script)) by lia.
        reflexivity.
      * rewrite traverse_ended_next. reflexivity.
    + rewrite traverse_ended_next. reflexivity.
  - cbn [app traverse after nexts]. apply IH.
Qed.

(** C8, as the code has it: [read_all] walks the list the store mutates, not a
    copy of it.  Whatever the caller did so far ([script]: calls of [next] and
    of methods of the store, in any order), one more [next] gives: when every
    [next] so far yielded a row, what the store, as the calls so far have left
    it, holds at the position that is the number of these [next] (the decoded
    row there, the failure of decoding it, or the end when there is no row at
    that position); and the end when an earlier [next] has ended or failed. *)
Theorem read_all_follows_store `{Runtime} (script : list action) (w : world) :
  traverse (script ++ [Next]) read_all w
  = traverse script read_all w
    ++ [ if forallb yielded (traverse script read_all w)
         then row_step (after script w) (nexts script)
         else StopIteration ].
Proof. exact (traverse_next script 0 w). Qed.

(** Without a call in between, the traversal yields the decoded rows of the
    store in order and then stops. *)
Lemma read_all_unmutated `{Runtime} (w : world) (decs : list T_Row) (j : nat) :
  decode_rows (annotations (self w)) (enc_rows (self w)) = Ok decs ->
  traverse (repeat Next j) read_all w = steps j decs.
Proof. intros Hd. apply (@traverse_rest _ _ j 0 w decs Hd). Qed.

(** A row removed during the traversal, in every runtime; a row appended
    after the traversal has ended is not yielded; a row changed after it was
    yielded is not yielded again, one changed before its turn is yielded as
    changed. *)
Lemma removal_during_traversal `{Runtime} :
  traverse [Next; Next; Next] read_all example_world
  = [ Yield [("a", VInt 1); ("b", VStr "x")];
      Yield [("a", VInt 2); ("b", VStr "y")];
      StopIteration ]
  /\ traverse [Next; Do (remove_row (VInt 0)); Next; Next] read_all example_world
     = [ Yield [("a", VInt 1); ("b", VStr "x")]; StopIteration; StopIteration ]
  /\ traverse [Next; Next; Next; Do (insert_row [("a", VInt 3); ("b", VStr "z")]); Next]
       read_all example_world
     = [ Yield [("a", VInt 1); ("b", VStr "x")];
         Yield [("a", VInt 2); ("b", VStr "y")];
         StopIteration; StopIteration ]
  /\ traverse [Next; Do (insert_row [("a", VInt 3); ("b", VStr "z")]); Next; Next; Next]
       read_all example_world
     = [ Yield [("a", VInt 1); ("b", VStr "x")];
         Yield [("a", VInt 2); ("b", VStr "y")];
         Yield [("a", VInt 3); ("b", VStr "z")];
         StopIteration ]
  /\ traverse [Next; Do (update_field (VInt 0) "b" (VStr "q"));
               Do (update_field (VInt 1) "b" (VStr "r")); Next; Next]
       read_all example_world
     = [ Yield [("a", VInt 1); ("b", VStr "x")];
         Yield [("a", VInt 2); ("b", VStr "r")];
         StopIteration ].
Proof. repeat split; reflexivity. Qed.

(** ** The classes that coerce, and [Boolean] *)

(** X1: [Integer], [Float] and [String]: [encode] and [decode] are the same call of
    the base type.  What [encode] returns for [x] is what [decode] returns for
    [x]; it is of the base type; it is a fixed point of both calls, so
    [decode(encode(x))] is [encode(x)]; and it is [x] itself when [x] is of
    the base type already. *)
Theorem coercion_is_idempotent `{Runtime} (t : datatype._HighType) (x v : value) :
  coercing t = true ->
  datatype.encode t x = Ok v ->
  datatype.decode t x = Ok v
  /\ datatype.encode t v = Ok v
  /\ datatype.decode t v = Ok v
  /\ type_of v = _base_type t
  /\ (type_of x = _base_type t -> v = x).
Proof.
  destruct t; try discriminate; intros _; simpl.
  - unfold datatype.Integer.encode, datatype.Integer.decode.
    destruct (py_int x) as [z|] eqn:Hx; [|discriminate]. intros [= <-].
    repeat split. destruct x; try discriminate. simpl in Hx. congruence.
  - unfold datatype.Float.encode, datatype.Float.decode.
    destruct (py_float x) as [f|] eqn:Hx; [|discriminate]. intros [= <-].
    repeat split. destruct x; try discriminate. simpl in Hx. congruence.
  - unfold datatype.String.encode, datatype.String.decode.
    destruct (py_str x) as [s|] eqn:Hx; [|discriminate]. intros [= <-].
    repeat split. destruct x; try discriminate. simpl in Hx. congruence.
Qed.

(** X2: [Boolean]: [encode] takes any value by its truth value and [decode] never
    raises, so [decode(encode(x))] is [bool(x)]. *)
Theorem Boolean_decode_encode_truth `{Runtime} (x : value) :
  (low <- datatype.Boolean.encode x ;; datatype.Boolean.decode low)
  = Ok (VBool (py_truth x)).
Proof.
  unfold datatype.Boolean.encode, datatype.Boolean.decode. cbn [bind].
  destruct (py_truth x); reflexivity.
Qed.

(** ** [Array.encode] and [Array.decode], element by element *)

Lemma array_item_text `{Runtime} (item : value) :
  array_item item = true -> py_str item = Ok (item_text item).
Proof.
  destruct item; try discriminate; cbn [array_item py_str item_text].
  - destruct b; reflexivity.
  - apply int_str_in_limit.
  - reflexivity.
  - reflexivity.
Qed.

Lemma array_item_prefix `{PyTypes} (item : value) :
  array_item item = true ->
  datatype.Array.prefix_of (type_of item) datatype.Array._base_types_translation
  = Some (tag_of item).
Proof. destruct item; try discriminate; reflexivity. Qed.

Lemma encode_items_records `{Runtime} (items : list value) (chain : string) :
  forallb array_item items = true ->
  datatype.Array.encode_items chain items = Ok (chain ++ records items)%string.
Proof.
  revert chain; induction items as [|item items IH]; intros chain.
  - simpl. rewrite app_empty_r. reflexivity.
  - cbn [forallb]. intros Hall. apply andb_prop in Hall as [Hitem Hall].
    cbn [datatype.Array.encode_items records].
    rewrite (array_item_prefix _ Hitem), (array_item_text _ Hitem). cbn [bind].
    rewrite (IH _ Hall). f_equal. rewrite app_assoc_string. f_equal.
    unfold datatype.Array._items_sep.
    repeat rewrite app_assoc_string. reflexivity.
Qed.

Lemma encode_items_refused `{Runtime} (items : list value) (chain : string) :
  forallb array_item items = false ->
  exists e,
    datatype.Array.encode_items chain items = Raise e
    /\ (e = ValueError \/ exists item, In item items /\ container_str item = Raise e).
Proof.
  revert chain; induction items as [|item items IH]; intros chain; [discriminate|].
  cbn [forallb]. intros Hall.
  destruct (array_item item) eqn:Hitem.
  - cbn [andb] in Hall. cbn [datatype.Array.encode_items].
    rewrite (array_item_prefix _ Hitem), (array_item_text _ Hitem). cbn [bind].
    destruct (IH (chain ++ tag_of item ++ "::" ++ item_text item
                  ++ datatype.Array._items_sep)%string Hall)
      as (e & -> & [-> | (it & Hin & Hit)]).
    + exists ValueError. split; [reflexivity | left; reflexivity].
    + exists e. split; [reflexivity | right; exists it; split; [right; exact Hin | exact Hit]].
  - cbn [datatype.Array.encode_items].
    destruct item; try discriminate; simpl datatype.Array.prefix_of; cbv beta iota;
      cbn [py_str bind].
    + exists ValueError. split; [reflexivity | left; reflexivity].
    + cbn [array_item] in Hitem. rewrite (int_str_over_limit _ Hitem).
      exists ValueError. split; [reflexivity | left; reflexivity].
    + destruct (container_str (VList items0)) as [text|e] eqn:Hc.
      * exists ValueError. split; [reflexivity | left; reflexivity].
      * exists e. split; [reflexivity|]. right. exists (VList items0).
        split; [left; reflexivity | exact Hc].
    + destruct (container_str (VDict items0)) as [text|e] eqn:Hc.
      * exists ValueError. split; [reflexivity | left; reflexivity].
      * exists e. split; [reflexivity|]. right. exists (VDict items0).
        split; [left; reflexivity | exact Hc].
    + exists ValueError. split; [reflexivity | left; reflexivity].
Qed.

(** X3: [Array.encode] of a list: the chain of the elements' records when every
    element is a [bool], a [str], a [float], or an [int] within the digit
    limit; otherwise it raises and gives no text at all: [ValueError], or what
    taking the text of a list or dictionary among the elements raises. *)
Theorem Array_encode_of_list `{Runtime} (items : list value) :
  (forallb array_item items = true ->
   datatype.Array.encode (VList items) = Ok (VStr (records items)))
  /\ (forallb array_item items = false ->
      exists e,
        datatype.Array.encode (VList items) = Raise e
        /\ (e = ValueError
            \/ exists item, In item items /\ container_str item = Raise e)).
Proof.
  unfold datatype.Array.encode. cbn [py_iter bind]. split; intros Hall.
  - rewrite (@encode_items_records _ _ items EmptyString Hall). reflexivity.
  - destruct (@encode_items_refused _ _ items EmptyString Hall) as (e & -> & He).
    exists e. split; [reflexivity | exact He].
Qed.

Lemma partition_char_free (c : ascii) (s a b : string) :
  partition (String c EmptyString) s = Some (a, b) ->
  contains (String c EmptyString) a = false.
Proof.
  revert a b; induction s as [|d s IH]; intros a b; cbn [partition].
  - destruct (prefix (String c "") ""); [|discriminate]. intros [= <- _]. reflexivity.
  - destruct (prefix (String c "") (String d s)) eqn:Hp.
    + intros [= <- _]. reflexivity.
    + destruct (partition (String c "") s) as [[a' b']|] eqn:Hs; [|discriminate].
      intros [= <- <-]. rewrite prefix_char in Hp.
      cbn [contains]. rewrite prefix_char, Hp. simpl. eapply IH. reflexivity.
Qed.

Lemma partition_none_free (sep s : string) :
  partition sep s = None -> contains sep s = false.
Proof.
  intros Hp. destruct (contains sep s) eqn:Hc; [|reflexivity].
  destruct (contains_partition _ _ Hc) as (ab & Hab). congruence.
Qed.

(** The parts of a split at a character do not hold the character. *)
Lemma split_char_free (c : ascii) (s part : string) :
  In part (split (String c EmptyString) s) ->
  contains (String c EmptyString) part = false.
Proof.
  remember (String.length s) as n eqn:Hn. revert s Hn part.
  induction n as [n IH] using lt_wf_ind. intros s Hn part.
  destruct (partition (String c "") s) as [[a b]|] eqn:Hp.
  - rewrite (@split_cut (String c "") s a b) by (discriminate || exact Hp).
    intros [<- | Hin].
    + exact (partition_char_free _ _ Hp).
    + apply (IH (String.length b)) with (s := b); [|reflexivity | exact Hin].
      subst n. apply (@partition_shorter (String c "") s a b); [discriminate | exact Hp].
  - pose proof (partition_none_free _ _ Hp) as Hc.
    unfold split. rewrite split_rounds_no_separator by exact Hc.
    intros [<- | []]. exact Hc.
Qed.

Lemma contains_suffix (sep u v : string) :
  contains sep (u ++ v) = false -> contains sep v = false.
Proof.
  induction u as [|d u IH]; [exact (fun H => H)|].
  change ((String d u ++ v)%string) with (String d (u ++ v)). cbn [contains].
  intros Hc. apply orb_false_elim in Hc as [_ Hc]. exact (IH Hc).
Qed.

Lemma decode_items_elements `{Runtime} (items : list string) (seq out : list value) :
  Forall (fun item => contains nul item = false) items ->
  Forall decoded_item seq ->
  datatype.Array.decode_items seq items = Ok out ->
  Forall decoded_item out.
Proof.
  intros Hitems. revert seq; induction Hitems as [|item items Hfree _ IH]; intros seq Hseq.
  - simpl. intros [= <-]. exact Hseq.
  - cbn [datatype.Array.decode_items]. destruct (item =? "")%string; [apply IH, Hseq|].
    unfold split1. destruct (partition "::" item) as [[type_repr text]|] eqn:Hp;
      [|discriminate].
    assert (Htext : contains nul text = false).
    { rewrite (partition_eq _ _ Hp) in Hfree.
      apply contains_suffix in Hfree. apply contains_suffix in Hfree. exact Hfree. }
    assert (Hv : forall basetype v,
               datatype.Array.basetype_of type_repr datatype.Array._base_types_translation
               = Some basetype ->
               datatype.Array.construct basetype text = Ok v -> decoded_item v).
    { intros basetype v. cbn [datatype.Array.basetype_of datatype.Array._base_types_translation].
      repeat match goal with
             | |- context [(?p =? type_repr)%string] => destruct (p =? type_repr)%string
             end; try discriminate; intros [= <-]; cbn [datatype.Array.construct].
      - intros [= <-]. exact I.
      - intros [= <-]. exact Htext.
      - destruct (int_of_str text); [|discriminate]. intros [= <-]. exact I.
      - destruct (float_of_str text); [|discriminate]. intros [= <-]. exact I. }
    destruct (datatype.Array.basetype_of type_repr _) as [basetype|]; [|discriminate].
    destruct (datatype.Array.construct basetype text) as [v|] eqn:Hc; [|discriminate].
    cbn [bind]. apply IH. apply Forall_app. split; [exact Hseq|].
    constructor; [|constructor]. exact (Hv basetype v eq_refl Hc).
Qed.

(** X4: Whatever [Array.decode] returns: it was given a string, and the list it
    hands back holds booleans, integers, floats and strings only, none of the
    strings with the record terminator in it. *)
Theorem Array_decode_elements `{Runtime} (data v : value) :
  datatype.Array.decode data = Ok v ->
  exists s seq, data = VStr s /\ v = VList seq /\ Forall decoded_item seq.
Proof.
  destruct data; try discriminate. unfold datatype.Array.decode.
  destruct (datatype.Array.decode_items [] _) as [seq|] eqn:Hd; [|discriminate].
  intros [= <-]. exists s, seq. repeat split.
  refine (decode_items_elements _ _ Hd); [|constructor].
  apply Forall_forall. intros part Hin. exact (split_char_free _ _ _ Hin).
Qed.

(** X6: A list with a string that holds the record terminator never comes back
    from [Array.decode] as it went into [Array.encode]. *)
Theorem Array_string_with_terminator_is_lost `{Runtime} (items : list value) (s : string) :
  In (VStr s) items -> contains nul s = true ->
  (low <- datatype.Array.encode (VList items) ;; datatype.Array.decode low)
  <> Ok (VList items).
Proof.
  intros Hin Hs Hr.
  destruct (datatype.Array.encode (VList items)) as [low|]; [|discriminate].
  cbn [bind] in Hr. unfold datatype.Array.decode in Hr.
  destruct low; try discriminate.
  destruct (datatype.Array.decode_items [] _) as [seq|] eqn:Hd; [|discriminate].
  injection Hr as ->.
  assert (Hall : Forall decoded_item items).
  { refine (decode_items_elements _ _ Hd); [|constructor].
    apply Forall_forall. intros part Hp. exact (split_char_free _ _ _ Hp). }
  rewrite Forall_forall in Hall. specialize (Hall _ Hin). simpl in Hall. congruence.
Qed.

Lemma chars_plain `{PyTypes} (s : string) :
  contains nul s = false -> Forall plain_item (map VStr (chars s)).
Proof.
  induction s as [|c s IH]; [constructor|].
  unfold nul. cbn [contains]. rewrite prefix_char. intros Hc.
  apply orb_false_elim in Hc as [Hp Hc]. cbn [chars map]. constructor; [|exact (IH Hc)].
  cbn [plain_item]. unfold nul. cbn [contains]. rewrite prefix_char, Hp. reflexivity.
Qed.

(** X7: [Array.encode] loops over whatever it is given: a string goes in as its
    characters, and comes back as the list of them. *)
Theorem Array_of_str_is_its_characters `{Runtime} (s : string) :
  contains nul s = false ->
  (low <- datatype.Array.encode (VStr s) ;; datatype.Array.decode low)
  = Ok (VList (map VStr (chars s))).
Proof.
  intros Hs. pose proof (chars_plain s Hs) as Hall.
  unfold datatype.Array.encode, datatype.Array.decode. cbn [py_iter bind].
  rewrite (encode_items_plain _ Hall). cbn [bind append].
  unfold datatype.Array._items_sep.
  rewrite (split_item_records Hall), (decode_items_plain _ Hall). reflexivity.
Qed.

(** ** What a successful parse tells *)

Lemma prefix_app_r (p u v : string) :
  prefix p u = true -> prefix p (u ++ v) = true.
Proof.
  revert u; induction p as [|c p IH]; intros u Hp; [apply prefix_empty|].
  destruct u as [|d u]; [discriminate|]. simpl in *.
  destruct (ascii_dec c d); [apply IH, Hp | discriminate].
Qed.

(** The text in front of the cut does not hold the separator. *)
Lemma partition_before_free (sep s a b : string) :
  partition sep s = Some (a, b) -> sep <> EmptyString -> contains sep a = false.
Proof.
  intros Hp Hsep. revert a b Hp; induction s as [|d s IH]; intros a b; cbn [partition].
  - destruct (prefix sep "") eqn:Hp; [|discriminate]. intros [= <- _].
    destruct sep; [contradiction | reflexivity].
  - destruct (prefix sep (String d s)) eqn:Hp.
    + intros [= <- _]. destruct sep; [contradiction | reflexivity].
    + destruct (partition sep s) as [[a' b']|] eqn:Hs; [|discriminate].
      intros [= <- <-]. cbn [contains]. rewrite (IH _ _ eq_refl), orb_false_r.
      destruct (prefix sep (String d a')) eqn:Hpa; [|reflexivity].
      rewrite (partition_eq _ _ Hs) in Hp.
      change (String d (a' ++ sep ++ b')) with ((String d a' ++ sep ++ b')%string) in Hp.
      rewrite (prefix_app_r _ _ _ Hpa) in Hp. discriminate.
Qed.

Lemma split_not_nil (sep s : string) : split sep s <> [].
Proof.
  unfold split. destruct (String.length s); simpl; [discriminate|].
  destruct (partition sep s) as [[a b]|]; discriminate.
Qed.

(** A split in two parts: the separator stands once, between them. *)
Lemma split_in_two (sep s h g : string) :
  sep <> EmptyString -> split sep s = [h; g] ->
  s = (h ++ sep ++ g)%string /\ contains sep h = false /\ contains sep g = false.
Proof.
  intros Hsep Hs. destruct (partition sep s) as [[a b]|] eqn:Hp.
  - rewrite (split_cut s Hsep Hp) in Hs. injection Hs as -> Hb.
    destruct (partition sep b) as [[a' b']|] eqn:Hpb.
    + rewrite (split_cut b Hsep Hpb) in Hb. injection Hb as _ Hb.
      exfalso. exact (split_not_nil _ _ Hb).
    + pose proof (partition_none_free _ _ Hpb) as Hc.
      unfold split in Hb. rewrite split_rounds_no_separator in Hb by exact Hc.
      injection Hb as ->. repeat split.
      * exact (partition_eq _ _ Hp).
      * exact (@partition_before_free sep s h g Hp Hsep).
      * exact Hc.
  - pose proof (partition_none_free _ _ Hp) as Hc.
    unfold split in Hs. rewrite split_rounds_no_separator in Hs by exact Hc. discriminate.
Qed.

Lemma ensure_types_coverage_ok (fields : list string)
  (annotations : dict datatype._HighType) :
  _ensure_types_coverage fields annotations = Ok tt ->
  forall name, In name fields <-> In name (keys annotations).
Proof.
  unfold _ensure_types_coverage.
  destruct (find _ fields) eqn:Hf; [discriminate|].
  destruct (find _ (keys annotations)) eqn:Ha; [discriminate|]. intros _ name. split.
  - intros Hin. pose proof (find_none _ _ Hf _ Hin) as Hn.
    apply negb_false_iff in Hn. apply dict_mem_In, Hn.
  - intros Hin. pose proof (find_none _ _ Ha _ Hin) as Hn.
    apply negb_false_iff in Hn. apply mem_In, Hn.
Qed.

(** The parts of a document that parses. *)
Lemma parse_returns_only_for_one_separator_aux `{Runtime} (raw_content : string)
  (fp : option string) (o : SCSVObject) :
  _parse raw_content fp = Ok o ->
  exists header raw_data,
    raw_content = (header ++ "@@" ++ raw_data)%string
    /\ partition "@@" raw_content = Some (header, raw_data)
    /\ raw_header o = Some header
    /\ _parse_header (strip header) = Ok (annotations o)
    /\ (forall name, In name (fields o) <-> In name (keys (annotations o))).
Proof.
  unfold _parse. destruct (negb (contains "@@" raw_content)); [discriminate|].
  destruct (split "@@" raw_content) as [|h [|g [|? ?]]] eqn:Hs; try discriminate.
  destruct (_parse_header (strip h)) as [ann|] eqn:Hh; [|discriminate]. cbn [bind].
  destruct (fieldnames (csv_DictReader (strip g))) as [[fs|]|] eqn:Hf; try discriminate.
  cbn [bind].
  destruct (_ensure_types_coverage fs ann) as [[]|] eqn:Hc; [|discriminate]. cbn [bind].
  destruct (_dictreader_to_rows (csv_DictReader (strip g))) as [rows|] eqn:Hr;
    [|discriminate]. cbn [bind].
  intros [= <-]. exists h, g. cbn [raw_header annotations fields].
  destruct (@split_in_two "@@" raw_content h g) as (E & Hfree_h & Hfree_g);
    [discriminate | exact Hs |].
  repeat split; try assumption; try reflexivity; try apply (ensure_types_coverage_ok _ _ Hc).
  destruct (partition "@@" raw_content) as [[a b]|] eqn:Hp.
  - rewrite (@split_cut "@@" raw_content a b) in Hs by (discriminate || exact Hp).
    injection Hs as -> Hb.
    destruct (partition "@@" b) as [[a' b']|] eqn:Hpb.
    + rewrite (@split_cut "@@" b a' b') in Hb by (discriminate || exact Hpb).
      injection Hb as _ Hb. exfalso. exact (split_not_nil _ _ Hb).
    + pose proof (partition_none_free _ _ Hpb) as Hcb.
      unfold split in Hb. rewrite split_rounds_no_separator in Hb by exact Hcb.
      injection Hb as ->. reflexivity.
  - pose proof (partition_none_free _ _ Hp) as Hcr.
    unfold split in Hs. rewrite split_rounds_no_separator in Hs by exact Hcr. discriminate.
Qed.

(** X9: When [_parse] returns an object, the document holds the separator exactly
    once; the object keeps the text in front of it as it stands (not
    stripped) and the path it was given, its annotations are those of the
    stripped header text, its fields and rows are those the reader finds in
    the stripped text behind the separator (no cell is decoded or checked),
    and the fields are exactly the annotated columns. *)
Theorem parse_returns_only_for_one_separator `{Runtime} (raw_content : string)
  (fp : option string) (o : SCSVObject) :
  _parse raw_content fp = Ok o ->
  exists header raw_data,
    raw_content = (header ++ "@@" ++ raw_data)%string
    /\ contains "@@" header = false
    /\ contains "@@" raw_data = false
    /\ raw_header o = Some header
    /\ file_path o = fp
    /\ _parse_header (strip header) = Ok (annotations o)
    /\ fieldnames (csv_DictReader (strip raw_data)) = Ok (Some (fields o))
    /\ _dictreader_to_rows (csv_DictReader (strip raw_data)) = Ok (enc_rows o)
    /\ (forall name, In name (fields o) <-> In name (keys (annotations o))).
Proof.
  unfold _parse. destruct (negb (contains "@@" raw_content)); [discriminate|].
  destruct (split "@@" raw_content) as [|h [|g [|? ?]]] eqn:Hs; try discriminate.
  destruct (_parse_header (strip h)) as [ann|] eqn:Hh; [|discriminate]. cbn [bind].
  destruct (fieldnames (csv_DictReader (strip g))) as [[fs|]|] eqn:Hf; try discriminate.
  cbn [bind].
  destruct (_ensure_types_coverage fs ann) as [[]|] eqn:Hc; [|discriminate]. cbn [bind].
  destruct (_dictreader_to_rows (csv_DictReader (strip g))) as [rows|] eqn:Hr;
    [|discriminate]. cbn [bind].
  intros [= <-]. exists h, g.
  destruct (@split_in_two "@@" raw_content h g) as (E & Hfree_h & Hfree_g);
    [discriminate | exact Hs |].
  cbn [raw_header file_path annotations fields enc_rows].
  repeat split; try assumption; try reflexivity; apply (ensure_types_coverage_ok _ _ Hc).
Qed.

(** ** The columns of a parsed store *)

Lemma rstrip_by_idem (sp : ascii -> bool) (s : string) :
  rstrip_by sp (rstrip_by sp s) = rstrip_by sp s.
Proof.
  induction s as [|c s IH]; [reflexivity|]. cbn [rstrip_by].
  destruct (sp c && (rstrip_by sp s =? "")%string) eqn:Hc; [reflexivity|].
  cbn [rstrip_by]. rewrite IH, Hc. reflexivity.
Qed.

Lemma lstrip_by_head (sp : ascii -> bool) (s : string) (c : ascii) (r : string) :
  lstrip_by sp s = String c r -> sp c = false.
Proof.
  induction s as [|d s IH]; simpl; [discriminate|].
  destruct (sp d) eqn:Hd; [exact IH|]. intros [= <- _]. exact Hd.
Qed.

(** [strip] of a stripped text changes nothing. *)
Lemma strip_idem (s : string) : strip (strip s) = strip s.
Proof.
  unfold strip. destruct (lstrip_by is_space s) as [|c r] eqn:Hl; [reflexivity|].
  pose proof (lstrip_by_head _ _ Hl) as Hc.
  cbn [rstrip_by]. rewrite Hc. cbn [andb].
  rewrite (lstrip_by_kept is_space c _ Hc). cbn [rstrip_by]. rewrite Hc. cbn [andb].
  rewrite rstrip_by_idem. reflexivity.
Qed.

Lemma keys_dict_set {V : Type} (k : string) (v : V) (d : dict V) :
  keys (dict_set k v d) = if dict_mem k d then keys d else keys d ++ [k].
Proof.
  unfold dict_mem. induction d as [|[a x] d IH]; simpl; [reflexivity|].
  destruct (String.eqb_spec a k) as [->|Ha]; simpl; [reflexivity|].
  rewrite IH. destruct (dict_get k d); reflexivity.
Qed.

Lemma NoDup_dict_set {V : Type} (k : string) (v : V) (d : dict V) :
  NoDup (keys d) -> NoDup (keys (dict_set k v d)).
Proof.
  intros Hnd. rewrite keys_dict_set. destruct (dict_mem k d) eqn:Hm; [exact Hnd|].
  apply NoDup_app; repeat split.
  - exact Hnd.
  - constructor; [intros [] | constructor].
  - intros a Ha [<- | []]. apply dict_mem_In in Ha. congruence.
Qed.

Lemma In_dict_set {V : Type} (k : string) (v : V) (d : dict V) (kv : string * V) :
  In kv (dict_set k v d) -> kv = (k, v) \/ In kv d.
Proof.
  induction d as [|[a x] d IH]; simpl.
  - intros [<- | []]. left; reflexivity.
  - destruct (String.eqb_spec a k) as [->|Ha]; simpl.
    + intros [<- | Hin]; [left; reflexivity | right; right; exact Hin].
    + intros [<- | Hin]; [right; left; reflexivity|].
      destruct (IH Hin); [left | right; right]; assumption.
Qed.

Lemma table_has_no_DateTime (type_name : string) (t : datatype._HighType) :
  dict_get type_name datatype.ANNOTATIONS_TABLE = Some t -> t <> datatype.DateTime.
Proof.
  cbn [dict_get datatype.ANNOTATIONS_TABLE].
  repeat match goal with
         | |- context [(?k =? type_name)%string] => destruct (k =? type_name)%string
         end; intros [= <-]; discriminate.
Qed.

(** What the loop of [_parse_header] keeps: distinct column names, each
    stripped, and no column of the class [DateTime]. *)
Lemma parse_annotations_columns (lines : list string) (acc annotations : dict datatype._HighType) :
  parse_annotations acc lines = Ok annotations ->
  NoDup (keys acc) ->
  (forall col t, In (col, t) acc -> strip col = col /\ t <> datatype.DateTime) ->
  NoDup (keys annotations)
  /\ (forall col t, In (col, t) annotations -> strip col = col /\ t <> datatype.DateTime).
Proof.
  revert acc; induction lines as [|l lines IH]; intros acc; cbn [parse_annotations].
  - intros [= <-] Hnd Hall. split; assumption.
  - destruct (l =? "")%string; [apply IH|].
    destruct (split ":" l) as [|c [|tn [|? ?]]]; try discriminate. cbv zeta.
    destruct (dict_get (strip (lower tn)) datatype.ANNOTATIONS_TABLE) as [t|] eqn:Ht;
      [|discriminate].
    intros Hp Hnd Hall. apply (IH _ Hp).
    + apply NoDup_dict_set, Hnd.
    + intros col t' Hin. apply In_dict_set in Hin as [[= -> ->] | Hin].
      * split; [apply strip_idem | exact (table_has_no_DateTime _ Ht)].
      * exact (Hall _ _ Hin).
Qed.

(** X12: In a store [_parse] returns, the annotated columns are distinct, no column
    is of the class [DateTime] (no alias leads to it), and every column and
    field name is stripped: a grid whose field line has a name with white space
    around it is never accepted. *)
Theorem parsed_columns `{Runtime} (raw_content : string) (fp : option string)
  (o : SCSVObject) :
  _parse raw_content fp = Ok o ->
  NoDup (keys (annotations o))
  /\ (forall col t, In (col, t) (annotations o) -> t <> datatype.DateTime)
  /\ (forall name, In name (fields o) -> strip name = name).
Proof.
  unfold _parse. destruct (negb (contains "@@" raw_content)); [discriminate|].
  destruct (split "@@" raw_content) as [|h [|g [|? ?]]]; try discriminate.
  destruct (_parse_header (strip h)) as [ann|] eqn:Hh; [|discriminate]. cbn [bind].
  destruct (fieldnames (csv_DictReader (strip g))) as [[fs|]|]; try discriminate.
  cbn [bind].
  destruct (_ensure_types_coverage fs ann) as [[]|] eqn:Hc; [|discriminate]. cbn [bind].
  destruct (_dictreader_to_rows (csv_DictReader (strip g))) as [rows|];
    [|discriminate]. cbn [bind].
  intros [= <-]. cbn [annotations fields].
  destruct (parse_annotations_columns _ _ Hh) as (Hnd & Hall).
  - constructor.
  - intros col t [].
  - repeat split.
    + exact Hnd.
    + intros col t Hin. apply (Hall _ _ Hin).
    + intros name Hin. apply (ensure_types_coverage_ok _ _ Hc) in Hin.
      apply in_map_iff in Hin as ([col t] & <- & Hin). apply (Hall _ _ Hin).
Qed.

(** ** Header texts that parse *)

Lemma contains_char_app (c : ascii) (u v : string) :
  contains (String c EmptyString) (u ++ v)
  = contains (String c EmptyString) u || contains (String c EmptyString) v.
Proof.
  induction u as [|d u IH]; [reflexivity|].
  change ((String d u ++ v)%string) with (String d (u ++ v)). cbn [contains].
  rewrite !prefix_char, IH. destruct (ascii_dec c d); reflexivity.
Qed.

(** Joining at a character parts that do not hold it, and splitting again. *)
Lemma split_join_char (c : ascii) (parts : list string) :
  parts <> [] ->
  Forall (fun part => contains (String c EmptyString) part = false) parts ->
  split (String c EmptyString) (join (String c EmptyString) parts) = parts.
Proof.
  intros Hne Hall. unfold join. induction Hall as [|p parts Hp Hall IH]; [contradiction|].
  destruct parts as [|q parts].
  - simpl. unfold split. apply split_rounds_no_separator, Hp.
  - change (String.concat (String c "") (p :: q :: parts))
      with ((p ++ String c (String.concat (String c "") (q :: parts)))%string).
    rewrite (@split_cut (String c "") _ p (String.concat (String c "") (q :: parts))).
    + rewrite IH by discriminate. reflexivity.
    + discriminate.
    + apply partition_char, Hp.
Qed.

Lemma split_header_line (column alias : string) :
  contains ":" column = false -> contains ":" alias = false ->
  split ":" (header_line (column, alias)) = [column; alias].
Proof.
  intros Hc Ha. unfold header_line. cbn [fst snd].
  change ((column ++ ":" ++ alias)%string) with ((column ++ String ":" alias)%string).
  rewrite (@split_cut ":" _ column alias).
  - unfold split. rewrite split_rounds_no_separator by exact Ha. reflexivity.
  - discriminate.
  - apply partition_char, Hc.
Qed.

Lemma parse_annotations_declare (decls : list (string * string))
  (annotations : dict datatype._HighType) :
  Forall well_formed decls ->
  parse_annotations annotations (map header_line decls) = declare annotations decls.
Proof.
  intros Hall. revert annotations.
  induction Hall as [|[column alias] decls (Hc & _ & Ha & _) _ IH]; intros annotations;
    [reflexivity|].
  cbn [map parse_annotations declare].
  assert (Hne : (header_line (column, alias) =? "")%string = false).
  { unfold header_line. cbn [fst snd]. destruct column; reflexivity. }
  rewrite Hne, (split_header_line column alias Hc Ha). cbv zeta. unfold resolve.
  destruct (dict_get (strip (lower alias)) datatype.ANNOTATIONS_TABLE); [apply IH | reflexivity].
Qed.

(** X11: A header text made of lines [column:alias], none of them with a second
    colon: [_parse_header] binds each column, stripped, to the class of its
    alias (stripped, in any letter case), in the order of the lines, a later
    line for a column replacing the class of an earlier one; the first alias
    that is not in the table raises [ParseError] with that column and alias. *)
Theorem parse_header_of_declarations (decls : list (string * string)) :
  Forall well_formed decls ->
  _parse_header (join newline (map header_line decls)) = declare [] decls.
Proof.
  intros Hall. unfold _parse_header. destruct decls as [|d decls]; [reflexivity|].
  unfold newline. rewrite split_join_char.
  - apply parse_annotations_declare, Hall.
  - discriminate.
  - apply Forall_forall. intros line Hin. apply in_map_iff in Hin as ([column alias] & <- & Hin).
    rewrite Forall_forall in Hall. destruct (Hall _ Hin) as (_ & Hc & _ & Ha).
    unfold header_line. cbn [fst snd].
    rewrite !contains_char_app. cbn [fst snd] in Hc, Ha. unfold newline in Hc, Ha.
    rewrite Hc, Ha. reflexivity.
Qed.

(** ** Rows through the classes and back *)

Lemma native_roundtrip `{Runtime} (t : datatype._HighType) (v : value) :
  native t v ->
  exists low, datatype.encode t v = Ok low /\ datatype.decode t low = Ok v.
Proof.
  destruct t, v; simpl; try contradiction; intros Hn.
  - eexists; split; reflexivity.
  - eexists; split; reflexivity.
  - eexists; split; reflexivity.
  - destruct b; eexists; split; reflexivity.
  - exists (VStr (item_records items)). unfold datatype.Array.encode, datatype.Array.decode.
    cbn [py_iter bind]. rewrite (encode_items_plain _ Hn). cbn [bind append].
    unfold datatype.Array._items_sep.
    rewrite (split_item_records Hn), (decode_items_plain _ Hn). split; reflexivity.
Qed.

Lemma native_roundtrip_text `{Runtime} (t : datatype._HighType) (v : value) :
  native t v -> (forall f, v <> VFloat f) ->
  exists low text, datatype.encode t v = Ok low
                   /\ py_str low = Ok text
                   /\ datatype.decode t (VStr text) = Ok v.
Proof.
  destruct t, v; simpl; try contradiction; intros Hn Hf.
  - exists (VInt z), (numeral z). split; [reflexivity|].
    cbn [py_str]. split; [exact (int_str_in_limit _ Hn)|].
    unfold datatype.Integer.decode. cbn [py_int].
    rewrite (int_of_str_int_str _ (int_str_in_limit _ Hn)). reflexivity.
  - exfalso. exact (Hf f eq_refl).
  - exists (VStr s), s. repeat split.
  - destruct b; eexists; eexists; repeat split.
  - exists (VStr (item_records items)), (item_records items).
    unfold datatype.Array.encode, datatype.Array.decode.
    cbn [py_iter bind py_str]. rewrite (encode_items_plain _ Hn). cbn [bind append].
    unfold datatype.Array._items_sep.
    rewrite (split_item_records Hn), (decode_items_plain _ Hn). repeat split.
Qed.

Lemma decode_columns_spec `{Runtime} (annotations : dict datatype._HighType)
  (items enc : list (string * value)) (decoded : T_Row) :
  Forall2 (fun cv ce =>
             fst ce = fst cv
             /\ exists t, dict_get (fst cv) annotations = Some t
                          /\ datatype.decode t (snd ce) = Ok (snd cv))
          items enc ->
  NoDup (keys decoded ++ keys items) ->
  decode_columns annotations decoded enc = Ok (decoded ++ items).
Proof.
  intros Hall. revert decoded.
  induction Hall as [|[c v] [c' x] items enc (Hk & t & Ht & Hd) _ IH]; intros decoded Hnd.
  - simpl. rewrite app_nil_r. reflexivity.
  - simpl in Hk, Ht, Hd. subst c'. cbn [decode_columns]. rewrite Ht, Hd. cbn [bind].
    assert (Hfresh : ~ In c (keys decoded)).
    { intros Hin. simpl in Hnd. apply NoDup_remove_2 in Hnd. apply Hnd.
      apply in_or_app; left; exact Hin. }
    rewrite (dict_set_fresh _ _ _ Hfresh), IH.
    + rewrite <- app_assoc. reflexivity.
    + unfold keys in *. rewrite map_app, <- app_assoc. exact Hnd.
Qed.

Lemma native_row_encodable `{Runtime} (annotations : dict datatype._HighType)
  (items : list (string * value)) :
  native_row annotations items -> encodable annotations items.
Proof.
  intros Hn col val Hin. destruct (Hn col val Hin) as (t & Ht & Hv).
  destruct (native_roundtrip _ _ Hv) as (low & He & _). eauto.
Qed.

(** The encoded form of a row of base-type values decodes to the row, as it
    stands in memory and as text. *)
Lemma encoded_native_row_decodes `{Runtime} (annotations : dict datatype._HighType)
  (row_data encoded_row : T_Row) :
  NoDup (keys row_data) ->
  native_row annotations row_data ->
  encodes annotations row_data encoded_row ->
  _decode_row annotations encoded_row = Ok row_data
  /\ ((forall col f, ~ In (col, VFloat f) row_data) ->
      exists cells, as_text encoded_row = Ok cells
                    /\ _decode_row annotations cells = Ok row_data).
Proof.
  intros Hnd Hn Henc. split.
  - apply (@decode_columns_spec _ _ annotations row_data _ []); [|exact Hnd].
    clear Hnd. induction Henc as [|[c v] [c' x] items enc (Hk & t & Ht & He) _ IH];
      constructor.
    + simpl in *. split; [exact Hk|]. exists t. split; [exact Ht|].
      destruct (Hn c v (or_introl eq_refl)) as (t' & Ht' & Hv).
      destruct (native_roundtrip _ _ Hv) as (low & He' & Hd).
      congruence.
    + apply IH. intros col val Hin. apply Hn. right; exact Hin.
  - intros Hf.
    assert (Hcells : exists cells,
               as_text encoded_row = Ok cells
               /\ Forall2 (fun cv ce =>
                             fst ce = fst cv
                             /\ exists t, dict_get (fst cv) annotations = Some t
                                          /\ datatype.decode t (snd ce) = Ok (snd cv))
                          row_data cells).
    { clear Hnd. induction Henc as [|[c v] [c' x] items enc (Hk & t & Ht & He) _ IH].
      - exists []. split; [reflexivity | constructor].
      - simpl in Hk, Ht, He. subst c'.
        destruct (Hn c v (or_introl eq_refl)) as (t' & Ht' & Hv).
        destruct (native_roundtrip_text _ Hv) as (low & text & He' & Htext & Hd).
        { intros f ->. exact (Hf c f (or_introl eq_refl)). }
        assert (t' = t) by congruence. subst t'.
        assert (low = x) by congruence. subst low.
        destruct IH as (cells & Hcells & Hall).
        { intros col val Hin. apply Hn. right; exact Hin. }
        { intros col f Hin. apply (Hf col f). right; exact Hin. }
        exists ((c, VStr text) :: cells). cbn [as_text]. rewrite Htext, Hcells.
        split; [reflexivity|]. constructor; [|exact Hall].
        simpl. split; [reflexivity|]. exists t. auto. }
    destruct Hcells as (cells & Hcells & Hall). exists cells. split; [exact Hcells|].
    apply (@decode_columns_spec _ _ annotations row_data _ []); [exact Hall | exact Hnd].
Qed.

(** X13: A row whose columns are annotated and whose values are of their classes'
    base types and can be written as text encodes, and the encoded row decodes
    to the row it came from; so does, when the row has no float, the encoded
    row with each value replaced by its text, which is what a file holds of
    it. *)
Theorem native_row_survives_encoding `{Runtime} (annotations : dict datatype._HighType)
  (row_data : T_Row) :
  NoDup (keys row_data) ->
  native_row annotations row_data ->
  exists encoded_row,
    _encode_row annotations row_data = Ok encoded_row
    /\ keys encoded_row = keys row_data
    /\ _decode_row annotations encoded_row = Ok row_data
    /\ ((forall col f, ~ In (col, VFloat f) row_data) ->
        exists cells, as_text encoded_row = Ok cells
                      /\ _decode_row annotations cells = Ok row_data).
Proof.
  intros Hnd Hnat.
  destruct (encode_columns_encodable [] (native_row_encodable Hnat)) as (enc & He).
  pose proof (encode_row_spec _ _ Hnd He) as Henc.
  destruct (encoded_native_row_decodes Hnd Hnat Henc) as [Hdec Htext].
  exists enc. repeat split; [exact He | exact (encodes_keys Henc) | exact Hdec | exact Htext].
Qed.

(** ** The store, method by method *)

Lemma dict_get_set_other {V : Type} (k k' : string) (v : V) (d : dict V) :
  k' <> k -> dict_get k' (dict_set k v d) = dict_get k' d.
Proof.
  intros Hk. induction d as [|[a x] d IH]; simpl.
  - destruct (String.eqb_spec k k'); [congruence | reflexivity].
  - destruct (String.eqb_spec a k) as [->|Ha]; simpl.
    + destruct (String.eqb_spec k k'); [congruence | reflexivity].
    + destruct (String.eqb_spec a k'); [reflexivity | exact IH].
Qed.

Lemma validate_cases `{Runtime} (w : world) (index : value) :
  (exists n, index_at (enc_rows (self w)) index n)
  \/ (exists e, _validate_index index w = (Raise e, w)).
Proof.
  destruct (in_range index (List.length (enc_rows (self w)))) eqn:Hr.
  - left. apply in_range_valid, Hr.
  - right. unfold _validate_index, then_, get_self. rewrite Hr.
    destruct (isinstance_int index); cbn [negb]; [|eexists; reflexivity].
    unfold lift. destruct (py_str index); eexists; reflexivity.
Qed.

Lemma index_at_row `{PyTypes} (rows : list T_Row) (index : value) (n : nat) :
  index_at rows index n -> exists row, nth_error rows n = Some row.
Proof.
  intros [_ Hn]. destruct (nth_error rows n) as [row|] eqn:Hr; [eauto|].
  apply nth_error_None in Hr. lia.
Qed.

(** What a mutating method comes to: it raises and leaves the world as it
    found it, or it installs a row list and saves. *)
Lemma mutation_outcome `{Runtime} (index : value) (row_data : T_Row) (col : string)
  (val : value) :
  settles (update_row index row_data)
  /\ settles (update_field index col val)
  /\ settles (remove_row index)
  /\ settles (insert_row row_data).
Proof.
  repeat split; intros w.
  - destruct (validate_cases w index) as [(n & Hn) | (e & Hbad)].
    + rewrite (update_row_valid _ _ Hn).
      destruct (_encode_row _ _); [right | left]; eauto.
    + left. exists e. unfold update_row, then_. rewrite Hbad. reflexivity.
  - destruct (validate_cases w index) as [(n & Hn) | (e & Hbad)].
    + destruct (index_at_row Hn) as (row & Hrow).
      destruct (dict_get col (annotations (self w))) as [t|] eqn:Hc.
      * destruct (datatype.encode t val) as [v|e] eqn:He.
        -- right. rewrite (@update_field_valid _ _ w index n col val t v row Hn Hc He Hrow). eauto.
        -- left. exists e. unfold update_field, then_ at 1. rewrite (validate_valid _ Hn).
           unfold then_, get_self, lift. rewrite Hc, He. reflexivity.
      * left. exists (invalid_column_quoted col).
        unfold update_field, then_ at 1. rewrite (validate_valid _ Hn).
        unfold then_, get_self. rewrite Hc. reflexivity.
    + left. exists e. unfold update_field, then_. rewrite Hbad. reflexivity.
  - destruct (validate_cases w index) as [(n & Hn) | (e & Hbad)].
    + right. rewrite (remove_row_valid _ Hn). eauto.
    + left. exists e. unfold remove_row, then_. rewrite Hbad. reflexivity.
  - rewrite insert_row_unfold. destruct (_encode_row _ _); [right | left]; eauto.
Qed.

Lemma read_valid `{Runtime} (w : world) (index : value) (n : nat) (enc_row : T_Row) :
  index_at (enc_rows (self w)) index n ->
  nth_error (enc_rows (self w)) n = Some enc_row ->
  read index w =
  match _decode_row (annotations (self w)) enc_row with
  | Ok dec_row => (Ok (Some dec_row), w)
  | Raise IndexError => (Ok None, w)
  | Raise e => (Raise e, w)
  end.
Proof.
  intros Hn Hr. unfold read, then_ at 1. rewrite (validate_valid _ Hn).
  unfold row_at, then_, get_self, lift, getitem.
  destruct Hn as [-> Hlt]. rewrite (position_valid _ Hlt), Hr.
  destruct (_decode_row _ _) as [d|[]]; reflexivity.
Qed.

(** What a value of the base type encodes to has a text. *)
Lemma native_has_text `{Runtime} (t : datatype._HighType) (v low : value) :
  native t v -> datatype.encode t v = Ok low -> has_text low.
Proof.
  destruct t, v; simpl; try contradiction; intros Hn.
  - intros [= <-]. exists (numeral z). exact (int_str_in_limit _ Hn).
  - intros [= <-]. eexists; reflexivity.
  - intros [= <-]. eexists; reflexivity.
  - intros [= <-]. eexists; reflexivity.
  - unfold datatype.Array.encode. cbn [py_iter bind].
    destruct (datatype.Array.encode_items "" items); [|discriminate].
    intros [= <-]. eexists; reflexivity.
Qed.

Lemma native_row_storable `{Runtime} (annotations : dict datatype._HighType)
  (items : list (string * value)) :
  native_row annotations items -> storable annotations items.
Proof.
  intros Hn col val Hin. destruct (Hn col val Hin) as (t & Ht & Hv).
  destruct (native_roundtrip _ _ Hv) as (low & He & _).
  exists t, low. repeat split; [exact Ht | exact He | exact (native_has_text _ _ Hv He)].
Qed.

(** X14: [store[index] = row_data] and then [store[index]]: a row of base-type
    values put at a valid index is what is read there afterwards, also when
    saving raised.  The assignment returns exactly when the store can be
    saved with the rows it then holds; it does when the store has its header
    text and the rows it held were writable. *)
Theorem getitem_after_setitem `{Runtime} (w : world) (index : value) (row_data : T_Row) :
  valid_index (enc_rows (self w)) index ->
  NoDup (keys row_data) ->
  native_row (annotations (self w)) row_data ->
  __getitem__ index (snd (__setitem__ index row_data w))
  = (Ok (Some row_data), snd (__setitem__ index row_data w))
  /\ (fst (__setitem__ index row_data w) = Ok tt
      <-> savable (self w) (enc_rows (self (snd (__setitem__ index row_data w)))))
  /\ (persistable (self w) -> writable (enc_rows (self w)) ->
      fst (__setitem__ index row_data w) = Ok tt).
Proof.
  intros (n & Hn) Hnd Hnat. unfold __setitem__, __getitem__.
  destruct (encode_columns_encodable [] (native_row_encodable Hnat)) as (enc & He).
  pose proof (encode_row_spec _ _ Hnd He) as Henc.
  destruct (encoded_native_row_decodes Hnd Hnat Henc) as [Hdec _].
  pose proof (@encode_row_storable _ _ _ _ _ (native_row_storable Hnat) He) as Htext.
  rewrite (update_row_valid _ _ Hn). unfold _encode_row. rewrite He.
  pose proof (save_rows_self w (replace_nth n enc (enc_rows (self w)))) as Hself.
  rewrite save_rows_returns. rewrite Hself. cbn [enc_rows with_rows].
  split; [|split; [reflexivity|]].
  - rewrite (@read_valid _ _ _ index n enc).
    + rewrite Hself. cbn [annotations with_rows]. rewrite Hdec. reflexivity.
    + rewrite Hself. cbn [enc_rows with_rows].
      split; [apply Hn | rewrite length_replace_nth; apply Hn].
    + rewrite Hself. cbn [enc_rows with_rows]. apply nth_error_replace_nth, Hn.
  - intros Hp Hw. apply persistable_writable_savable; [exact Hp|].
    apply writable_replace_nth; assumption.
Qed.

(** X15: [insert_row] checks no index: a row of base-type values goes behind the
    last row, the rows before it stay, and [read] at the former row count
    returns it, also when saving raised.  The call returns exactly when the
    store can be saved with the rows it then holds; it does when the store
    has its header text and the rows it held were writable. *)
Theorem read_after_insert_row `{Runtime} (w : world) (row_data : T_Row) :
  NoDup (keys row_data) ->
  native_row (annotations (self w)) row_data ->
  List.length (enc_rows (self (snd (insert_row row_data w))))
  = S (List.length (enc_rows (self w)))
  /\ (forall n, n < List.length (enc_rows (self w)) ->
      nth_error (enc_rows (self (snd (insert_row row_data w)))) n
      = nth_error (enc_rows (self w)) n)
  /\ read (VInt (Z.of_nat (List.length (enc_rows (self w))))) (snd (insert_row row_data w))
     = (Ok (Some row_data), snd (insert_row row_data w))
  /\ (fst (insert_row row_data w) = Ok tt
      <-> savable (self w) (enc_rows (self (snd (insert_row row_data w)))))
  /\ (persistable (self w) -> writable (enc_rows (self w)) ->
      fst (insert_row row_data w) = Ok tt).
Proof.
  intros Hnd Hnat.
  destruct (encode_columns_encodable [] (native_row_encodable Hnat)) as (enc & He).
  pose proof (encode_row_spec _ _ Hnd He) as Henc.
  destruct (encoded_native_row_decodes Hnd Hnat Henc) as [Hdec _].
  pose proof (@encode_row_storable _ _ _ _ _ (native_row_storable Hnat) He) as Htext.
  rewrite insert_row_unfold. unfold _encode_row. rewrite He.
  pose proof (save_rows_self w (enc_rows (self w) ++ [enc])) as Hself.
  rewrite save_rows_returns. rewrite Hself. cbn [enc_rows with_rows].
  split; [rewrite List.length_app; simpl; lia|].
  split; [intros n Hlt; apply nth_error_app1, Hlt|].
  split; [|split; [reflexivity|]].
  - rewrite (@read_valid _ _ _ _ (List.length (enc_rows (self w))) enc).
    + rewrite Hself. cbn [annotations with_rows]. rewrite Hdec. reflexivity.
    + rewrite Hself. cbn [enc_rows with_rows]. split; [reflexivity|].
      rewrite List.length_app. simpl. lia.
    + rewrite Hself. cbn [enc_rows with_rows].
      rewrite nth_error_app2 by lia. rewrite Nat.sub_diag. reflexivity.
  - intros Hp Hw. apply persistable_writable_savable; [exact Hp|].
    apply writable_append; assumption.
Qed.

Lemma nth_error_remove_nth_before {A : Type} (n m : nat) (l : list A) :
  m < n -> nth_error (remove_nth n l) m = nth_error l m.
Proof.
  revert n m; induction l as [|x l IH]; intros [|n] [|m] Hm; simpl; try reflexivity; try lia.
  apply IH; lia.
Qed.

Lemma nth_error_remove_nth_behind {A : Type} (n m : nat) (l : list A) :
  n <= m -> nth_error (remove_nth n l) m = nth_error l (S m).
Proof.
  revert n m; induction l as [|x l IH]; intros n m Hm.
  - destruct n, m; reflexivity.
  - destruct n as [|n].
    + reflexivity.
    + destruct m as [|m]; [lia|]. simpl. apply IH. lia.
Qed.

Lemma length_remove_nth {A : Type} (n : nat) (l : list A) :
  n < List.length l -> S (List.length (remove_nth n l)) = List.length l.
Proof.
  revert n; induction l as [|x l IH]; intros [|n] Hn; simpl in *; try lia.
  rewrite IH by lia. reflexivity.
Qed.

(** X16: [update_field] at a valid index.  A column that is not annotated:
    [UpdateError] with the column in quotes, nothing changed.  A value that
    does not encode: its exception, nothing changed.  Otherwise the row at the
    index gets the encoded value under the column and keeps what it holds
    under every other column, and the other rows stay: unlike [update_row],
    [update_field] merges into the stored row.  This holds also when saving
    raises; the call returns exactly when the store can be saved with the
    rows it then holds, which it can when it has its header text, the rows it
    held were writable and the encoded value has a text. *)
Theorem update_field_at_valid_index `{Runtime} (w : world) (index : value) (n : nat)
  (col : string) (val : value) (row : T_Row) :
  index_at (enc_rows (self w)) index n ->
  nth_error (enc_rows (self w)) n = Some row ->
  match dict_get col (annotations (self w)) with
  | None =>
      update_field index col val w
      = (Raise (UpdateError ("Invalid column: " ++ dquote ++ col ++ dquote)), w)
  | Some t =>
      match datatype.encode t val with
      | Raise e => update_field index col val w = (Raise e, w)
      | Ok v =>
          exists row',
            nth_error (enc_rows (self (snd (update_field index col val w)))) n
            = Some row'
            /\ dict_get col row' = Some v
            /\ (forall c, c <> col -> dict_get c row' = dict_get c row)
            /\ (forall m, m <> n ->
                nth_error (enc_rows (self (snd (update_field index col val w)))) m
                = nth_error (enc_rows (self w)) m)
            /\ List.length (enc_rows (self (snd (update_field index col val w))))
               = List.length (enc_rows (self w))
            /\ (fst (update_field index col val w) = Ok tt
                <-> savable (self w)
                      (enc_rows (self (snd (update_field index col val w)))))
            /\ (persistable (self w) -> writable (enc_rows (self w)) -> has_text v ->
                fst (update_field index col val w) = Ok tt)
      end
  end.
Proof.
  intros Hn Hrow.
  destruct (dict_get col (annotations (self w))) as [t|] eqn:Hc.
  - destruct (datatype.encode t val) as [v|e] eqn:He.
    + exists (dict_set col v row).
      rewrite (@update_field_valid _ _ w index n col val t v row Hn Hc He Hrow).
      rewrite save_rows_returns, save_rows_self. cbn [enc_rows with_rows].
      repeat split; try (intros Hs; exact Hs).
      * apply nth_error_replace_nth, Hn.
      * apply dict_get_set_same.
      * intros c Hne. apply dict_get_set_other, Hne.
      * intros m Hm. apply nth_error_replace_nth_other, Hm.
      * apply length_replace_nth.
      * intros Hp Hw Hv. apply persistable_writable_savable; [exact Hp|].
        apply writable_replace_nth; [exact Hw|].
        apply has_text_dict_set; [exact (writable_nth _ Hw Hrow) | exact Hv].
    + unfold update_field, then_ at 1. rewrite (validate_valid _ Hn).
      unfold then_, get_self, lift. rewrite Hc, He. reflexivity.
  - unfold update_field, then_ at 1. rewrite (validate_valid _ Hn).
    unfold then_, get_self. rewrite Hc. reflexivity.
Qed.

(** X17: [remove_row] at a valid index: one row less, the rows in front of the
    index stay where they are and the rows behind it move up by one, also
    when saving raises.  The call returns exactly when the store can be saved
    with the rows that are left; it can when it could with the rows it
    held. *)
Theorem remove_row_shifts `{Runtime} (w : world) (index : value) (n : nat) :
  index_at (enc_rows (self w)) index n ->
  S (List.length (enc_rows (self (snd (remove_row index w)))))
  = List.length (enc_rows (self w))
  /\ (forall m, m < n ->
      nth_error (enc_rows (self (snd (remove_row index w)))) m
      = nth_error (enc_rows (self w)) m)
  /\ (forall m, n <= m ->
      nth_error (enc_rows (self (snd (remove_row index w)))) m
      = nth_error (enc_rows (self w)) (S m))
  /\ (fst (remove_row index w) = Ok tt
      <-> savable (self w) (enc_rows (self (snd (remove_row index w)))))
  /\ (savable (self w) (enc_rows (self w)) -> fst (remove_row index w) = Ok tt).
Proof.
  intros Hn. rewrite (remove_row_valid _ Hn).
  rewrite save_rows_returns, save_rows_self. cbn [enc_rows with_rows].
  repeat split; try (intros Hs; exact Hs).
  - apply length_remove_nth, Hn.
  - intros m Hm. apply nth_error_remove_nth_before, Hm.
  - intros m Hm. apply nth_error_remove_nth_behind, Hm.
  - apply savable_remove_nth.
Qed.

Lemma remove_nth_last {A : Type} (l : list A) (a : A) :
  remove_nth (List.length l) (l ++ [a]) = l.
Proof. induction l as [|x l IH]; simpl; [reflexivity | rewrite IH; reflexivity]. Qed.

(** X18: [insert_row] of a row that encodes and then [remove_row] at the index
    of the new row (the former row count): the object is as it was before the
    two calls, also when saving raised in one of them or both.  The second
    call returns exactly when the store can be saved with the rows it held at
    first, so it returns whenever the first did. *)
Theorem remove_row_undoes_insert_row `{Runtime} (w : world) (row_data : T_Row) :
  encodable (annotations (self w)) row_data ->
  self (snd (remove_row (VInt (Z.of_nat (List.length (enc_rows (self w)))))
                        (snd (insert_row row_data w))))
  = self w
  /\ (fst (remove_row (VInt (Z.of_nat (List.length (enc_rows (self w)))))
                      (snd (insert_row row_data w))) = Ok tt
      <-> savable (self w) (enc_rows (self w)))
  /\ (fst (insert_row row_data w) = Ok tt ->
      fst (remove_row (VInt (Z.of_nat (List.length (enc_rows (self w)))))
                      (snd (insert_row row_data w))) = Ok tt).
Proof.
  intros Henc. destruct (encode_columns_encodable [] Henc) as (enc & He).
  rewrite insert_row_unfold. unfold _encode_row. rewrite He.
  pose proof (save_rows_self w (enc_rows (self w) ++ [enc])) as Hself.
  rewrite (save_rows_returns w (enc_rows (self w) ++ [enc])).
  set (w1 := snd (_save (set_rows w (enc_rows (self w) ++ [enc])))) in *.
  assert (Hn : index_at (enc_rows (self w1))
                 (VInt (Z.of_nat (List.length (enc_rows (self w)))))
                 (List.length (enc_rows (self w)))).
  { split; [reflexivity|]. rewrite Hself. cbn [enc_rows with_rows].
    rewrite List.length_app. simpl. lia. }
  rewrite (remove_row_valid _ Hn).
  rewrite save_rows_returns, save_rows_self. rewrite Hself. cbn [enc_rows with_rows].
  rewrite remove_nth_last.
  assert (Hsame : with_rows (with_rows (self w) (enc_rows (self w) ++ [enc]))
                    (enc_rows (self w)) = self w).
  { unfold with_rows. cbn. destruct (self w); reflexivity. }
  split; [exact Hsame|]. split.
  - unfold savable. reflexivity.
  - intros Hs. pose proof (@savable_remove_nth _ _ (self w) (enc_rows (self w) ++ [enc])
                             (List.length (enc_rows (self w))) Hs) as Hs'.
    rewrite remove_nth_last in Hs'. exact Hs'.
Qed.

(** ** Stored rows have annotated columns only *)

Lemma encode_columns_annotated `{Runtime} (annotations : dict datatype._HighType)
  (items : list (string * value)) (casted out : T_Row) :
  (forall col, In col (keys casted) -> dict_mem col annotations = true) ->
  encode_columns annotations casted items = Ok out ->
  forall col, In col (keys out) -> dict_mem col annotations = true.
Proof.
  revert casted; induction items as [|[c v] items IH]; intros casted Hc.
  - simpl. intros [= <-]. exact Hc.
  - cbn [encode_columns]. destruct (dict_get c annotations) as [t|] eqn:Ht; [|discriminate].
    destruct (datatype.encode t v) as [x|]; [|discriminate]. cbn [bind].
    apply IH. intros col Hin. rewrite keys_dict_set in Hin.
    destruct (dict_mem c casted).
    + apply Hc, Hin.
    + apply in_app_or in Hin as [Hin | [<- | []]]; [apply Hc, Hin|].
      unfold dict_mem. rewrite Ht. reflexivity.
Qed.

Lemma In_replace_nth {A : Type} (n : nat) (a x : A) (l : list A) :
  In x (replace_nth n a l) -> x = a \/ In x l.
Proof.
  revert n; induction l as [|y l IH]; intros [|n]; simpl; try tauto.
  - intros [<- | Hin]; auto.
  - intros [<- | Hin]; [auto|]. destruct (IH n Hin); auto.
Qed.

Lemma In_remove_nth {A : Type} (n : nat) (x : A) (l : list A) :
  In x (remove_nth n l) -> In x l.
Proof.
  revert n; induction l as [|y l IH]; intros [|n]; simpl; try tauto.
  intros [<- | Hin]; [auto | right; exact (IH n Hin)].
Qed.

(** X28: The columns of the stored rows stay within the annotations: when every
    column of every stored row is annotated, it is so after a call of
    [update_row], [update_field], [remove_row] or [insert_row], whether the
    call returns or raises. *)
Theorem mutations_keep_rows_annotated `{Runtime} (w : world) (index : value)
  (row_data : T_Row) (col : string) (val : value) :
  annotated_rows (self w) ->
  annotated_rows (self (snd (update_row index row_data w)))
  /\ annotated_rows (self (snd (update_field index col val w)))
  /\ annotated_rows (self (snd (remove_row index w)))
  /\ annotated_rows (self (snd (insert_row row_data w))).
Proof.
  intros Hinv. repeat split.
  - destruct (validate_cases w index) as [(n & Hn) | (e0 & Hbad)].
    + rewrite (update_row_valid _ _ Hn).
      destruct (_encode_row (annotations (self w)) row_data) as [enc|] eqn:He; [|exact Hinv].
      rewrite save_self. intros row c Hrow Hc. cbn [self set_rows with_rows enc_rows annotations] in *.
      apply In_replace_nth in Hrow as [-> | Hrow]; [|exact (Hinv _ _ Hrow Hc)].
      refine (@encode_columns_annotated _ _ (annotations (self w)) row_data [] enc _ He c Hc). intros ? [].
    + unfold update_row, then_. rewrite Hbad. exact Hinv.
  - destruct (validate_cases w index) as [(n & Hn) | (e0 & Hbad)].
    + destruct (index_at_row Hn) as (row0 & Hrow0).
      destruct (dict_get col (annotations (self w))) as [t|] eqn:Ht.
      * destruct (datatype.encode t val) as [v|e] eqn:He.
        -- rewrite (@update_field_valid _ _ w index n col val t v row0 Hn Ht He Hrow0).
           rewrite save_self. intros row c Hrow Hc.
           cbn [self set_rows with_rows enc_rows annotations] in *.
           apply In_replace_nth in Hrow as [-> | Hrow]; [|exact (Hinv _ _ Hrow Hc)].
           rewrite keys_dict_set in Hc. destruct (dict_mem col row0).
           ++ exact (Hinv _ _ (nth_error_In _ _ Hrow0) Hc).
           ++ apply in_app_or in Hc as [Hc | [<- | []]].
              ** exact (Hinv _ _ (nth_error_In _ _ Hrow0) Hc).
              ** unfold dict_mem. rewrite Ht. reflexivity.
        -- unfold update_field, then_ at 1. rewrite (validate_valid _ Hn).
           unfold then_, get_self, lift. rewrite Ht, He. exact Hinv.
      * unfold update_field, then_ at 1. rewrite (validate_valid _ Hn).
        unfold then_, get_self. rewrite Ht. exact Hinv.
    + unfold update_field, then_. rewrite Hbad. exact Hinv.
  - destruct (validate_cases w index) as [(n & Hn) | (e0 & Hbad)].
    + rewrite (remove_row_valid _ Hn), save_self. intros row c Hrow Hc.
      cbn [self set_rows with_rows enc_rows annotations] in *.
      exact (Hinv _ _ (In_remove_nth _ _ _ Hrow) Hc).
    + unfold remove_row, then_. rewrite Hbad. exact Hinv.
  - rewrite insert_row_unfold.
    destruct (_encode_row (annotations (self w)) row_data) as [enc|] eqn:He; [|exact Hinv].
    rewrite save_self. intros row c Hrow Hc.
    cbn [self set_rows with_rows enc_rows annotations] in *.
    apply in_app_or in Hrow as [Hrow | [<- | []]]; [exact (Hinv _ _ Hrow Hc)|].
    refine (@encode_columns_annotated _ _ (annotations (self w)) row_data [] enc _ He c Hc). intros ? [].
Qed.

(** ** All or nothing *)




(** X20: A store bound to a file but without a header text (the default of the
    class): [remove_row] at a valid index removes the row, empties the file
    and raises [TypeError]. *)
Theorem remove_row_without_header_text `{Runtime} (w : world) (fp : string)
  (index : value) (n : nat) :
  file_path (self w) = Some fp -> fp <> EmptyString ->
  raw_header (self w) = None ->
  index_at (enc_rows (self w)) index n ->
  fst (remove_row index w) = Raise TypeError
  /\ self (snd (remove_row index w))
     = with_rows (self w) (remove_nth n (enc_rows (self w)))
  /\ dict_get fp (files (snd (remove_row index w))) = Some EmptyString.
Proof.
  intros Hf Hne Hh Hn. rewrite (remove_row_valid _ Hn).
  rewrite (save_headless (set_rows w (remove_nth n (enc_rows (self w)))) (fp := fp))
    by assumption.
  cbn [fst snd self files set_rows]. repeat split. apply dict_get_set_same.
Qed.

(** ** Where the store writes *)

Lemma settles_unbound `{Runtime} (m : method unit) (w : world) :
  settles m ->
  file_path (self w) = None \/ file_path (self w) = Some EmptyString ->
  files (snd (m w)) = files w.
Proof.
  intros Hm Hf. destruct (Hm w) as [(e' & Hr) | (rows & Hr)]; rewrite Hr.
  - reflexivity.
  - rewrite save_unbound by exact Hf. reflexivity.
Qed.

Lemma settles_bound `{Runtime} (m : method unit) (w : world) (fp header : string) :
  settles m ->
  file_path (self w) = Some fp -> fp <> EmptyString ->
  raw_header (self w) = Some header ->
  saved_to fp header m w.
Proof.
  intros Hm Hf Hne Hh Hok. destruct (Hm w) as [(e' & Hr) | (rows & Hr)]; rewrite Hr in *.
  - discriminate.
  - rewrite (save_bound (set_rows w rows) (fp := fp) (header := header)) in *
      by assumption.
    cbn [set_rows self with_rows fields enc_rows files] in *.
    destruct (document header (fields (self w)) rows) as [text|e] eqn:Hd; [|discriminate].
    cbn [fst snd files self with_rows enc_rows]. split.
    + exists text. split; [exact Hd | apply dict_get_set_same].
    + intros p Hp _. rewrite !dict_get_set_other by exact Hp. reflexivity.
Qed.

(** X24: A store made by [parse_string] is bound to no file: whatever is called on
    it, and whether the call returns or raises, no file is written. *)
Theorem parse_string_store_never_writes `{Runtime} (content : string) (w : world)
  (index : value) (row_data : T_Row) (col : string) (val : value) :
  supercsv.parse_string content = Ok (self w) ->
  files (snd (update_row index row_data w)) = files w
  /\ files (snd (update_field index col val w)) = files w
  /\ files (snd (remove_row index w)) = files w
  /\ files (snd (insert_row row_data w)) = files w.
Proof.
  intros Hparse. destruct (parse_persistable _ _ Hparse) as (_ & Hfp & _).
  destruct (mutation_outcome index row_data col val) as (H1 & H2 & H3 & H4).
  repeat split; apply settles_unbound; auto.
Qed.

(** X25: A store loaded with [use_file]: the file holds a header text, the
    separator and a grid, and whenever a mutating call returns, the file holds
    that header text as it stood, the separator and a line break, the field
    line and the lines of the rows now stored; no file but this one and its
    lock file is touched. *)
Theorem use_file_store_rewrites_its_file `{Runtime} (fp : string) (fs : filesystem)
  (w : world) (index : value) (row_data : T_Row) (col : string) (val : value) :
  supercsv.use_file fp fs = Ok (self w) -> fp <> EmptyString ->
  exists header grid,
    dict_get fp fs = Some (header ++ "@@" ++ grid)%string
    /\ saved_to fp header (update_row index row_data) w
    /\ saved_to fp header (update_field index col val) w
    /\ saved_to fp header (remove_row index) w
    /\ saved_to fp header (insert_row row_data) w.
Proof.
  unfold supercsv.use_file. intros Hload Hne.
  destruct (dict_get fp fs) as [raw_content|]; [|discriminate].
  destruct (parse_persistable _ _ Hload) as (_ & Hf & _).
  assert (Hshape : exists header grid,
             raw_content = (header ++ "@@" ++ grid)%string
             /\ raw_header (self w) = Some header).
  { revert Hload. unfold _parse.
    destruct (negb (contains "@@" raw_content)); [discriminate|].
    destruct (split "@@" raw_content) as [|h [|g [|? ?]]] eqn:Hs; try discriminate.
    destruct (_parse_header (strip h)) as [ann|]; [|discriminate]. cbn [bind].
    destruct (fieldnames (csv_DictReader (strip g))) as [[fields|]|]; try discriminate.
    cbn [bind].
    destruct (_ensure_types_coverage fields ann) as [[]|]; [|discriminate]. cbn [bind].
    destruct (_dictreader_to_rows (csv_DictReader (strip g))) as [rows|];
      [|discriminate]. cbn [bind].
    intros [= <-]. exists h, g. split; [|reflexivity].
    apply (@split_in_two "@@" raw_content h g); [discriminate | exact Hs]. }
  destruct Hshape as (header & grid & -> & Hh). exists header, grid.
  destruct (mutation_outcome index row_data col val) as (H1 & H2 & H3 & H4).
  split; [reflexivity|]. repeat split; eapply settles_bound; eassumption.
Qed.

(** ** Loading what was saved *)

Lemma contains_app_r (sep u v : string) :
  contains sep v = true -> contains sep (u ++ v) = true.
Proof.
  intros Hv. induction u as [|d u IH]; [exact Hv|].
  change ((String d u ++ v)%string) with (String d (u ++ v)). cbn [contains].
  rewrite IH. apply orb_true_r.
Qed.

Lemma contains_app_l (sep u v : string) :
  contains sep u = true -> contains sep (u ++ v) = true.
Proof.
  induction u as [|d u IH].
  - destruct sep; [|discriminate]. intros _. destruct v; reflexivity.
  - change ((String d u ++ v)%string) with (String d (u ++ v)). cbn [contains].
    intros Hc. apply orb_prop in Hc as [Hp | Hc].
    + change (String d (u ++ v)) with ((String d u ++ v)%string).
      rewrite (prefix_app_r _ _ _ Hp). reflexivity.
    + rewrite (IH Hc). apply orb_true_r.
Qed.

Lemma contains_join (sep inner part : string) (parts : list string) :
  In part parts -> contains inner part = true ->
  contains inner (join sep parts) = true.
Proof.
  intros Hin Hc. unfold join. induction parts as [|a parts IH]; [destruct Hin|].
  destruct parts as [|b parts].
  - destruct Hin as [<- | []]. exact Hc.
  - change (String.concat sep (a :: b :: parts))
      with ((a ++ sep ++ String.concat sep (b :: parts))%string).
    destruct Hin as [<- | Hin].
    + apply contains_app_l, Hc.
    + apply contains_app_r, contains_app_r, IH, Hin.
Qed.

Lemma dict_get_In_values {V : Type} (k : string) (v : V) (d : dict V) :
  dict_get k d = Some v -> In v (values d).
Proof.
  induction d as [|[a x] d IH]; simpl; [discriminate|].
  destruct (a =? k)%string; [intros [= <-]; left; reflexivity | right; auto].
Qed.

(** A document whose grid text holds the separator again does not parse. *)
Lemma parse_separator_in_grid `{Runtime} (header grid : string) (fp : option string) :
  contains "@@" grid = true ->
  _parse (header ++ "@@" ++ grid) fp = Raise ValueError.
Proof.
  intros Hg. destruct (contains_partition _ _ Hg) as ([y z] & Hp).
  rewrite (partition_eq _ _ Hp). unfold _parse.
  destruct (partition_app "@@" header (y ++ "@@" ++ z)) as (a & t & Ha).
  rewrite (partition_contains _ _ Ha). simpl negb. cbv iota. unfold split.
  assert (Hlen : exists n, String.length (header ++ "@@" ++ y ++ "@@" ++ z) = S (S n)).
  { rewrite !length_app. simpl.
    exists (String.length header + (String.length y + S (S (String.length z)))). lia. }
  destruct Hlen as (n & ->).
  destruct (split_rounds_two_cuts n "@@" header y z) as (p & q & rest & -> & Hrest).
  destruct rest; [congruence | reflexivity].
Qed.

Lemma texts_In `{Runtime} (vs : list value) (cells : list string) (v : value)
  (text : string) :
  texts vs = Ok cells -> In v vs -> py_str v = Ok text -> In text cells.
Proof.
  revert cells; induction vs as [|x vs IH]; intros cells; simpl; [intros _ []|].
  destruct (py_str x) as [s|] eqn:Hx; [|discriminate]. simpl.
  destruct (texts vs) as [ss|]; [|discriminate]. simpl. intros [= <-].
  intros [-> | Hin] Hv.
  - left. congruence.
  - right. exact (IH ss eq_refl Hin Hv).
Qed.

Lemma row_lines_In `{Runtime} (rows : list T_Row) (lines : list string) (row : T_Row) :
  row_lines rows = Ok lines -> In row rows ->
  exists line, row_line row = Ok line /\ In line lines.
Proof.
  revert lines; induction rows as [|r rows IH]; intros lines; simpl; [intros _ []|].
  destruct (row_line r) as [l|] eqn:Hr; [|discriminate]. simpl.
  destruct (row_lines rows) as [ls|]; [|discriminate]. simpl. intros [= <-].
  intros [-> | Hin].
  - exists l. split; [exact Hr | left; reflexivity].
  - destruct (IH ls eq_refl Hin) as (line & Hline & Hl). exists line.
    split; [exact Hline | right; exact Hl].
Qed.

(** X26: The text of a stored value goes into the file as it is: when a value
    [update_field] stores has the separator [@@] in its text, on a store bound
    to a file whose rows are writable, the call returns, and the file it wrote
    can no longer be loaded: [use_file] raises [ValueError]. *)
Theorem separator_in_value_breaks_file `{Runtime} (w : world) (fp header : string)
  (index : value) (col : string) (val : value) (t : datatype._HighType) (v : value)
  (text : string) :
  file_path (self w) = Some fp -> fp <> EmptyString ->
  raw_header (self w) = Some header ->
  writable (enc_rows (self w)) ->
  valid_index (enc_rows (self w)) index ->
  dict_get col (annotations (self w)) = Some t ->
  datatype.encode t val = Ok v ->
  py_str v = Ok text ->
  contains "@@" text = true ->
  fst (update_field index col val w) = Ok tt
  /\ supercsv.use_file fp (files (snd (update_field index col val w)))
     = Raise ValueError.
Proof.
  intros Hf Hne Hh Hw (n & Hn) Hc He Hv Htext.
  destruct (index_at_row Hn) as (row & Hrow).
  rewrite (@update_field_valid _ _ w index n col val t v row Hn Hc He Hrow).
  rewrite (save_bound (set_rows w (replace_nth n (dict_set col v row) (enc_rows (self w))))
             (fp := fp) (header := header)) by assumption.
  cbn [self set_rows with_rows fields enc_rows files].
  assert (Hw' : writable (replace_nth n (dict_set col v row) (enc_rows (self w)))).
  { apply writable_replace_nth; [exact Hw|].
    apply has_text_dict_set; [exact (writable_nth _ Hw Hrow) | exists text; exact Hv]. }
  apply row_lines_writable in Hw' as (lines & Hlines).
  unfold document. rewrite Hlines. cbn [bind fst snd files].
  split; [reflexivity|].
  unfold supercsv.use_file. rewrite dict_get_set_same.
  apply parse_separator_in_grid.
  destruct (row_lines_In _ (dict_set col v row) Hlines) as (line & Hline & Hin).
  { apply (nth_error_In _ n). apply nth_error_replace_nth, Hn. }
  do 3 apply contains_app_r. apply contains_app_l.
  apply (@contains_join newline "@@" line); [exact Hin|].
  unfold row_line in Hline.
  destruct (texts (values (dict_set col v row))) as [cells|] eqn:Hcells; [|discriminate].
  injection Hline as <-.
  apply (@contains_join "," "@@" text); [|exact Htext].
  apply (texts_In _ v Hcells); [|exact Hv].
  apply (dict_get_In_values col). apply dict_get_set_same.
Qed.

Lemma prefix_app_long (p u v : string) :
  String.length p <= String.length u -> prefix p (u ++ v) = prefix p u.
Proof.
  revert u; induction p as [|c p IH]; intros u Hl.
  - rewrite !prefix_empty. reflexivity.
  - destruct u as [|d u]; simpl in Hl; [lia|]. simpl.
    destruct (ascii_dec c d); [apply IH; lia | reflexivity].
Qed.

(** Where the leftmost separator stands does not depend on what is behind it. *)
Lemma partition_same_front (sep a b b' : string) :
  partition sep (a ++ sep ++ b) = Some (a, b) ->
  partition sep (a ++ sep ++ b') = Some (a, b').
Proof.
  induction a as [|c a IH].
  - intros _. change (("" ++ sep ++ b')%string) with ((sep ++ b')%string).
    rewrite partition_at_prefix by apply prefix_app.
    rewrite drop_app_length. reflexivity.
  - change ((String c a ++ sep ++ b)%string) with (String c (a ++ sep ++ b)).
    change ((String c a ++ sep ++ b')%string) with (String c (a ++ sep ++ b')).
    destruct (prefix sep (String c (a ++ sep ++ b))) eqn:Hp.
    + rewrite partition_at_prefix by exact Hp. discriminate.
    + rewrite partition_step by exact Hp.
      destruct (partition sep (a ++ sep ++ b)) as [[x y]|] eqn:Hab; [|discriminate].
      intros [= -> ->].
      assert (Hp' : prefix sep (String c (a ++ sep ++ b')) = false).
      { change (String c (a ++ sep ++ b')) with ((String c a ++ sep ++ b')%string).
        rewrite <- app_assoc_string.
        rewrite prefix_app_long by (rewrite length_app; simpl; lia).
        change (String c (a ++ sep ++ b)) with ((String c a ++ sep ++ b)%string) in Hp.
        rewrite <- app_assoc_string in Hp.
        rewrite prefix_app_long in Hp by (rewrite length_app; simpl; lia).
        exact Hp. }
      rewrite partition_step by exact Hp'. rewrite (IH eq_refl). reflexivity.
Qed.

(** X27: A store [_parse] returned, its rows replaced by [rows], written as
    [_save] writes it and parsed again.  When the values have texts, the
    texts of the fields and of the values do not hold the separator and the
    reader finds in the grid the fields and the rows, value by value as text,
    the parse returns the store: the header text and the annotations are the
    same, the values are the texts of the values written. *)
Theorem saved_document_loads_back `{Runtime} (raw_content : string)
  (fp0 : option string) (o : SCSVObject) (header : string) (rows : list T_Row)
  (fp : option string) (grid : string) (cells : list T_Row) :
  _parse raw_content fp0 = Ok o ->
  raw_header o = Some header ->
  grid_text (fields o) rows = Ok grid ->
  rows_as_text rows = Ok cells ->
  contains "@@" grid = false ->
  csv_DictReader (strip grid) = (Some (Some (fields o)), Some cells) ->
  (text <- document header (fields o) rows ;; _parse text fp)
  = Ok {| annotations := annotations o;
          fields := fields o;
          enc_rows := cells;
          file_path := fp;
          raw_header := Some header |}.
Proof.
  intros Hparse Hh Hgrid Hcells Hfree Hreader.
  destruct (parse_returns_only_for_one_separator_aux _ _ Hparse)
    as (h & g & Hraw & Hpart & Hhdr & Hann & Hcov).
  rewrite Hh in Hhdr. injection Hhdr as <-.
  assert (Hdoc : document header (fields o) rows = Ok (header ++ "@@" ++ grid)%string).
  { revert Hgrid. unfold grid_text, document.
    destruct (row_lines rows) as [lines|]; [|discriminate]. cbn [bind].
    intros [= <-]. reflexivity. }
  rewrite Hdoc. cbn [bind].
  rewrite (@parse_single_separator _ _ _ header grid fp).
  - rewrite Hann. cbn [bind]. rewrite Hreader.
    unfold fieldnames, _dictreader_to_rows, read_or_raise. cbn [fst snd bind].
    assert (Hok : _ensure_types_coverage (fields o) (annotations o) = Ok tt).
    { apply ensure_types_coverage_spec; intros name Hn; apply Hcov, Hn. }
    rewrite Hok. reflexivity.
  - apply (@partition_same_front "@@" header g). rewrite <- Hraw. exact Hpart.
  - exact Hfree.
Qed.

(** ** [read] beside [read_all] *)

Lemma nth_error_steps `{PyTypes} (j n : nat) (ds : list T_Row) :
  n < j ->
  nth_error (steps j ds) n
  = Some (match nth_error ds n with Some d => Yield d | None => StopIteration end).
Proof.
  revert n ds; induction j as [|j IH]; intros n ds Hn; [lia|].
  destruct ds as [|d ds]; destruct n as [|n]; cbn [steps nth_error]; try reflexivity.
  - rewrite IH by lia. destruct n; reflexivity.
  - apply IH. lia.
Qed.

Lemma skipn_head {A : Type} (n : nat) (l rest : list A) (a : A) :
  skipn n l = a :: rest -> nth_error l n = Some a.
Proof.
  revert l; induction n as [|n IH]; intros [|x l]; simpl; try discriminate.
  - intros [= -> _]. reflexivity.
  - apply IH.
Qed.

Lemma skipn_nil {A : Type} (n : nat) (l : list A) :
  skipn n l = [] -> nth_error l n = None.
Proof.
  revert l; induction n as [|n IH]; intros [|x l]; simpl; try discriminate; try reflexivity.
  apply IH.
Qed.

(** X22: When every stored row decodes, [read] at a natural number within the
    digit limit returns what [read_all] yields at that position, and nothing
    where [read_all] has stopped; it changes neither the rows nor the files. *)
Theorem read_agrees_with_read_all `{Runtime} (w : world) (decs : list T_Row) (n j : nat) :
  decode_rows (annotations (self w)) (enc_rows (self w)) = Ok decs ->
  in_digit_limit (Z.of_nat n) = true ->
  n < j ->
  read (VInt (Z.of_nat n)) w = (Ok (nth_error decs n), w)
  /\ nth_error (traverse (repeat Next j) read_all w) n
     = Some (match nth_error decs n with
             | Some dec_row => Yield dec_row
             | None => StopIteration
             end).
Proof.
  intros Hd Hlim Hn. split.
  - pose proof (@decode_rows_at _ _ _ _ _ n Hd) as Hat.
    destruct (nth_error (enc_rows (self w)) n) as [row|] eqn:Hrow.
    + destruct Hat as (d & Hdec & Hskip).
      rewrite (@read_valid _ _ w (VInt (Z.of_nat n)) n row).
      * rewrite Hdec, (skipn_head _ _ Hskip). reflexivity.
      * split; [reflexivity|]. apply nth_error_Some. congruence.
      * exact Hrow.
    + rewrite (skipn_nil _ _ Hat). apply read_invalid; [|exact Hlim].
      intros (m & Hi & Hm). simpl in Hi. injection Hi as Hi.
      apply Nat2Z.inj in Hi. subst m. apply nth_error_None in Hrow. lia.
  - rewrite (read_all_unmutated _ j Hd). apply nth_error_steps, Hn.
Qed.

Lemma steps_nil `{PyTypes} (j : nat) : steps j [] = repeat StopIteration j.
Proof. induction j as [|j IH]; simpl; [reflexivity | rewrite IH; reflexivity]. Qed.

Lemma traverse_to_bad_row `{Runtime} (w : world) (bad : T_Row) (rest : list T_Row)
  (e : exn) (j : nat) :
  _decode_row (annotations (self w)) bad = Raise e ->
  forall good decs pre,
  enc_rows (self w) = pre ++ good ++ bad :: rest ->
  decode_rows (annotations (self w)) good = Ok decs ->
  traverse (repeat Next (List.length good + S j)) (At (List.length pre)) w
  = map Yield decs ++ Failed e :: repeat StopIteration j.
Proof.
  intros Hbad. induction good as [|g good IH]; intros decs pre Hrows Hd.
  - simpl in Hd. injection Hd as <-. cbn [List.length Nat.add repeat traverse next].
    assert (Hnth : nth_error (enc_rows (self w)) (List.length pre) = Some bad).
    { rewrite Hrows, nth_error_app2 by lia. rewrite Nat.sub_diag. reflexivity. }
    rewrite Hnth, Hbad. rewrite traverse_ended, steps_nil. reflexivity.
  - simpl in Hd. destruct (_decode_row (annotations (self w)) g) as [d|] eqn:Hg;
      [|discriminate]. simpl in Hd.
    destruct (decode_rows (annotations (self w)) good) as [ds|] eqn:Hds; [|discriminate].
    simpl in Hd. injection Hd as <-.
    cbn [List.length Nat.add repeat traverse next].
    assert (Hnth : nth_error (enc_rows (self w)) (List.length pre) = Some g).
    { rewrite Hrows, nth_error_app2 by lia. rewrite Nat.sub_diag. reflexivity. }
    rewrite Hnth, Hg.
    specialize (IH ds (pre ++ [g])). rewrite List.length_app in IH. simpl in IH.
    replace (List.length pre + 1) with (S (List.length pre)) in IH by lia.
    rewrite IH; [reflexivity | | reflexivity].
    rewrite Hrows, <- app_assoc. reflexivity.
Qed.

(** X23: A stored row that does not decode ends [read_all]: the rows in front of it
    are yielded, its exception is raised, and the generator has stopped, so the
    rows behind it are never yielded.  [read] still returns each of them that
    decodes. *)
Theorem read_all_ends_at_undecodable_row `{Runtime} (w : world)
  (good rest : list T_Row) (bad : T_Row) (decs : list T_Row) (e : exn) (j : nat) :
  enc_rows (self w) = good ++ bad :: rest ->
  decode_rows (annotations (self w)) good = Ok decs ->
  _decode_row (annotations (self w)) bad = Raise e ->
  traverse (repeat Next (List.length good + S j)) read_all w
  = map Yield decs ++ Failed e :: repeat StopIteration j
  /\ (forall n enc_row dec_row,
      nth_error rest n = Some enc_row ->
      _decode_row (annotations (self w)) enc_row = Ok dec_row ->
      read (VInt (Z.of_nat (List.length good + S n))) w = (Ok (Some dec_row), w)).
Proof.
  intros Hrows Hd Hbad. split.
  - apply (@traverse_to_bad_row _ _ w bad rest e j Hbad good decs [] Hrows Hd).
  - intros n enc_row dec_row Hn Hdec.
    assert (Hat : nth_error (enc_rows (self w)) (List.length good + S n) = Some enc_row).
    { rewrite Hrows, nth_error_app2 by lia.
      replace (List.length good + S n - List.length good) with (S n) by lia. exact Hn. }
    rewrite (@read_valid _ _ w _ (List.length good + S n) enc_row).
    + rewrite Hdec. reflexivity.
    + split; [reflexivity|]. apply nth_error_Some. congruence.
    + exact Hat.
Qed.

(** ** Worked examples *)

#[local] Existing Instance plain_types.
#[local] Existing Instance plain_runtime.

Example example_parses :
  _parse example_document (Some "t.scsv") = Ok example_object.
Proof. reflexivity. Qed.

Example example_reads :
  read (VInt 0) example_world
  = (Ok (Some [("a", VInt 1); ("b", VStr "x")]), example_world)
  /\ read (VInt 1) example_world
     = (Ok (Some [("a", VInt 2); ("b", VStr "y")]), example_world)
  /\ read (VInt 2) example_world = (Ok None, example_world).
Proof. repeat split; reflexivity. Qed.

Lemma example_index_0 : index_at (enc_rows (self example_world)) (VInt 0) 0.
Proof. split; [reflexivity | simpl; lia]. Qed.

Lemma example_index_2_invalid : ~ valid_index (enc_rows (self example_world)) (VInt 2).
Proof. intros (n & Hi & Hn). simpl in Hi, Hn. injection Hi as Hi. lia. Qed.

(** The index 2 of the two-row store: [read] returns [None], the mutators
    raise [IndexError]. *)
Example example_invalid_index :
  read (VInt 2) example_world = (Ok None, example_world)
  /\ update_row (VInt 2) [("a", VInt 7)] example_world = (Raise IndexError, example_world)
  /\ update_field (VInt 2) "a" (VInt 7) example_world = (Raise IndexError, example_world)
  /\ remove_row (VInt 2) example_world = (Raise IndexError, example_world).
Proof.
  exact (invalid_index_read_and_mutations example_world [("a", VInt 7)] "a" (VInt 7)
           example_index_2_invalid eq_refl).
Qed.

(** C5 at the index [10 ** 4300] of the two-row store: the index has 4301
    digits, [read] raises [ValueError] and so do the mutators. *)
Lemma index_over_digit_limit_witness :
  in_digit_limit (10 ^ 4300) = false
  /\ in_range (VInt (10 ^ 4300)) (List.length (enc_rows (self example_world))) = false
  /\ (read (VInt (10 ^ 4300)) example_world = (Raise ValueError, example_world)
      /\ update_row (VInt (10 ^ 4300)) [("a", VInt 7)] example_world
         = (Raise ValueError, example_world)
      /\ update_field (VInt (10 ^ 4300)) "a" (VInt 7) example_world
         = (Raise ValueError, example_world)
      /\ remove_row (VInt (10 ^ 4300)) example_world = (Raise ValueError, example_world)).
Proof.
  assert (Hz : in_digit_limit (10 ^ 4300) = false) by (vm_compute; reflexivity).
  assert (Hr : in_range (VInt (10 ^ 4300))
                 (List.length (enc_rows (self example_world))) = false)
    by (vm_compute; reflexivity).
  split; [exact Hz|]. split; [exact Hr|].
  exact (@index_over_digit_limit plain_types plain_runtime example_world (10 ^ 4300)
           [("a", VInt 7)] "a" (VInt 7) Hz Hr).
Defined.

(** The largest index the message can hold, [10 ** 4300 - 1]: [IndexError],
    and [read] returns [None]. *)
Example example_index_at_digit_limit :
  in_digit_limit (10 ^ 4300 - 1) = true
  /\ read (VInt (10 ^ 4300 - 1)) example_world = (Ok None, example_world)
  /\ remove_row (VInt (10 ^ 4300 - 1)) example_world = (Raise IndexError, example_world).
Proof.
  assert (Hz : in_digit_limit (10 ^ 4300 - 1) = true) by (vm_compute; reflexivity).
  assert (Hbad : ~ valid_index (enc_rows (self example_world)) (VInt (10 ^ 4300 - 1))).
  { intros Hv. apply in_range_valid in Hv. vm_compute in Hv. discriminate. }
  split; [exact Hz|].
  destruct (invalid_index_read_and_mutations example_world [] "a" VNone Hbad Hz)
    as (Hread & _ & _ & Hremove).
  split; assumption.
Qed.

Example example_not_annotated :
  _parse ("a: int" ++ newline ++ "@@" ++ newline ++ "a,b" ++ newline) None
  = Raise (AnnotationCoverageError ("Not annotated field: " ++ dquote ++ "b" ++ dquote))
  /\ _parse ("a: int" ++ newline ++ "b: str" ++ newline ++ "@@" ++ newline
             ++ "a" ++ newline) None
     = Raise (AnnotationCoverageError
                ("Annotated invalid field: " ++ dquote ++ "b" ++ dquote)).
Proof. split; reflexivity. Qed.

(** The coverage check at the example document: the columns are the fields,
    the object is returned. *)
Example example_coverage :
  _parse example_document (Some "t.scsv") = Ok example_object.
Proof.
  refine (proj2 (@parse_coverage plain_types plain_runtime example_document
                   example_header
                   (newline ++ "a,b" ++ newline ++ "1,x" ++ newline
                    ++ "2,y" ++ newline)%string
                   (Some "t.scsv")
                   [("a", datatype.Integer); ("b", datatype.String)]
                   ["a"; "b"] _ _ _) _).
  - reflexivity.
  - reflexivity.
  - reflexivity.
  - intros name. simpl. tauto.
Qed.

(** C4 at the document [a: int / @@]: the column [a] is annotated, the grid
    has no field at all, and [_parse] raises [TypeError]. *)
Lemma coverage_check_on_empty_grid_witness :
  split "@@" ("a: int" ++ newline ++ "@@") = [("a: int" ++ newline)%string; EmptyString]
  /\ _parse_header (strip ("a: int" ++ newline)) = Ok [("a", datatype.Integer)]
  /\ fieldnames (csv_DictReader (strip "")) = Ok None
  /\ (_parse ("a: int" ++ newline ++ "@@") None = Raise TypeError
      /\ _ensure_types_coverage [] [("a", datatype.Integer)]
         = Raise (AnnotationCoverageError
                    ("Annotated invalid field: " ++ dquote ++ "a" ++ dquote))).
Proof.
  split; [reflexivity|]. split; [reflexivity|]. split; [reflexivity|].
  exact (@coverage_check_on_empty_grid plain_types plain_runtime
           ("a: int" ++ newline ++ "@@") ("a: int" ++ newline) "" None
           "a" datatype.Integer [] eq_refl eq_refl eq_refl).
Defined.

(** C6, the claim as stated fails: the input row names the unknown column
    [zz], and [update_row] and [insert_row] raise [ValueError], not
    [UpdateError]: the loop of [_encode_row] reaches the column [tags] first,
    and [Array.encode] rejects the [None] in its list. *)
Lemma unknown_column_after_bad_value :
  dict_get "zz" (annotations (self tagged_world)) = None
  /\ update_row (VInt 0) [("tags", VList [VNone]); ("zz", VInt 1)] tagged_world
     = (Raise ValueError, tagged_world)
  /\ insert_row [("tags", VList [VNone]); ("zz", VInt 1)] tagged_world
     = (Raise ValueError, tagged_world).
Proof.
  destruct (@bad_value_before_unknown_column plain_types plain_runtime)
    as (H1 & H2 & H3 & _).
  repeat split; assumption.
Qed.

(** The unknown column in front of the value that does not encode: the
    "unknown column" error. *)
Example unknown_column_before_bad_value :
  update_row (VInt 0) [("zz", VInt 1); ("tags", VList [VNone])] tagged_world
  = (Raise (UpdateError "Invalid column: zz"), tagged_world)
  /\ insert_row [("zz", VInt 1); ("tags", VList [VNone])] tagged_world
     = (Raise (UpdateError "Invalid column: zz"), tagged_world).
Proof. split; reflexivity. Qed.

(** C6 at a row with the unknown column [zz] behind a value that encodes, on
    the two-row store and at the index 0. *)
Lemma update_row_unknown_column_witness :
  exists pre col val post e,
    [("a", VInt 7); ("zz", VInt 1)] = pre ++ (col, val) :: post
    /\ dict_get col (annotations (self example_world)) = None
    /\ (forall c, In c (keys pre) -> dict_mem c (annotations (self example_world)) = true)
    /\ insert_row [("a", VInt 7); ("zz", VInt 1)] example_world = (Raise e, example_world)
    /\ (valid_index (enc_rows (self example_world)) (VInt 0) ->
        update_row (VInt 0) [("a", VInt 7); ("zz", VInt 1)] example_world
        = (Raise e, example_world))
    /\ ((encodable (annotations (self example_world)) pre
         /\ e = UpdateError ("Invalid column: " ++ col))
        \/ (exists pre1 c v t pre2,
              pre = pre1 ++ (c, v) :: pre2
              /\ encodable (annotations (self example_world)) pre1
              /\ dict_get c (annotations (self example_world)) = Some t
              /\ datatype.encode t v = Raise e)).
Proof.
  refine (proj1 (@update_row_unknown_column plain_types plain_runtime example_world
                   (VInt 0) [("a", VInt 7); ("zz", VInt 1)]) _).
  exists "zz". split; [simpl; auto | reflexivity].
Defined.

Example example_unknown_column :
  update_row (VInt 0) [("a", VInt 7); ("zz", VInt 1)] example_world
  = (Raise (UpdateError "Invalid column: zz"), example_world)
  /\ insert_row [("a", VInt 7); ("zz", VInt 1)] example_world
     = (Raise (UpdateError "Invalid column: zz"), example_world).
Proof. split; reflexivity. Qed.

(** C10, the claim as stated fails.  The input row has the annotated column
    [tags] only, a strict subset of the declared columns, and [update_row]
    does not return: the value does not encode, [ValueError] is raised and the
    stored row stays.  And on the store bound to a file, the input row has the
    column [a] only, with the integer [10 ** 4300], which encodes:
    [update_row] replaces the stored row, empties the file and raises
    [ValueError], for the integer has too many digits to be written. *)
Lemma partial_row_with_bad_value :
  keys (annotations (self tagged_world)) = ["tags"; "n"]
  /\ update_row (VInt 0) [("tags", VList [VNone])] tagged_world
     = (Raise ValueError, tagged_world)
  /\ datatype.encode datatype.Integer (VInt (10 ^ 4300)) = Ok (VInt (10 ^ 4300))
  /\ update_row (VInt 0) [("a", VInt (10 ^ 4300))] example_world
     = (Raise ValueError,
        {| self := with_rows example_object
                     [ [("a", VInt (10 ^ 4300))];
                       [("a", VStr "2"); ("b", VStr "y")] ];
           files := [("t.scsv", EmptyString)] |}).
Proof.
  split; [reflexivity|]. split; [reflexivity|]. split; [reflexivity|].
  vm_compute. reflexivity.
Qed.

Lemma example_row_encodable :
  encodable (annotations (self example_world)) [("a", VInt 7)].
Proof.
  intros col val [[= <- <-] | []].
  exists datatype.Integer, (VInt 7). split; reflexivity.
Qed.

Lemma example_rows_writable : writable (enc_rows (self example_world)).
Proof. repeat constructor; eexists; reflexivity. Qed.

(** C10 at a row that has the column [a] and leaves out [b]. *)
Lemma update_row_partial_witness :
  exists n encoded_row,
    index_at (enc_rows (self example_world)) (VInt 0) n
    /\ (savable (self example_world)
          (replace_nth n encoded_row (enc_rows (self example_world))) ->
        fst (update_row (VInt 0) [("a", VInt 7)] example_world) = Ok tt)
    /\ enc_rows (self (snd (update_row (VInt 0) [("a", VInt 7)] example_world)))
       = replace_nth n encoded_row (enc_rows (self example_world))
    /\ nth_error (enc_rows (self (snd (update_row (VInt 0) [("a", VInt 7)] example_world)))) n
       = Some encoded_row
    /\ encodes (annotations (self example_world)) [("a", VInt 7)] encoded_row
    /\ keys encoded_row = keys [("a", VInt 7)]
    /\ (exists col, dict_mem col (annotations (self example_world)) = true
                    /\ dict_get col encoded_row = None).
Proof.
  refine (@update_row_partial plain_types plain_runtime example_world (VInt 0)
            [("a", VInt 7)] _ _ _ _).
  - exists 0. exact example_index_0.
  - repeat constructor. simpl. tauto.
  - exact example_row_encodable.
  - exists "b". split; [reflexivity | simpl; intros [H | []]; discriminate].
Defined.

Example example_partial_update_returns :
  savable (self example_world)
    (replace_nth 0 [("a", VInt 7)] (enc_rows (self example_world)))
  /\ fst (update_row (VInt 0) [("a", VInt 7)] example_world) = Ok tt.
Proof.
  split; [|reflexivity].
  split; [exists example_header; reflexivity|].
  repeat constructor; eexists; reflexivity.
Qed.

Example example_partial_update :
  enc_rows (self (snd (update_row (VInt 0) [("a", VInt 7)] example_world)))
  = [ [("a", VInt 7)]; [("a", VStr "2"); ("b", VStr "y")] ].
Proof. reflexivity. Qed.

(** C8, the claim as stated fails: two traversals start on the same store; the
    one left alone yields both rows, the one whose caller removes row 0 after
    the first [next] yields the first row and then stops: the second row has
    moved in front of the position. *)
Lemma read_all_sees_removal :
  traverse [Next; Next; Next] read_all example_world
  = [ Yield [("a", VInt 1); ("b", VStr "x")];
      Yield [("a", VInt 2); ("b", VStr "y")];
      StopIteration ]
  /\ traverse [Next; Do (remove_row (VInt 0)); Next; Next] read_all example_world
     = [ Yield [("a", VInt 1); ("b", VStr "x")]; StopIteration; StopIteration ].
Proof.
  destruct (@removal_during_traversal plain_types plain_runtime) as (H1 & H2 & _).
  split; assumption.
Qed.

(** C8 at a traversal whose caller appends a row after the second [next]: the
    third [next] looks at position 2 of the store with the row appended. *)
Lemma read_all_follows_store_witness :
  traverse ([Next; Next; Do (insert_row [("a", VInt 3); ("b", VStr "z")])] ++ [Next])
           read_all example_world
  = traverse [Next; Next; Do (insert_row [("a", VInt 3); ("b", VStr "z")])]
             read_all example_world
    ++ [ if forallb yielded
              (traverse [Next; Next; Do (insert_row [("a", VInt 3); ("b", VStr "z")])]
                        read_all example_world)
         then row_step
                (after [Next; Next; Do (insert_row [("a", VInt 3); ("b", VStr "z")])]
                       example_world)
                (nexts [Next; Next; Do (insert_row [("a", VInt 3); ("b", VStr "z")])])
         else StopIteration ].
Proof.
  exact (@read_all_follows_store plain_types plain_runtime
           [Next; Next; Do (insert_row [("a", VInt 3); ("b", VStr "z")])]
           example_world).
Defined.

Example example_row_step :
  row_step (after [Next; Next; Do (insert_row [("a", VInt 3); ("b", VStr "z")])]
                  example_world)
           (nexts [Next; Next; Do (insert_row [("a", VInt 3); ("b", VStr "z")])])
  = Yield [("a", VInt 3); ("b", VStr "z")].
Proof. reflexivity. Qed.

(** Two more traversals: a row appended after the end is not yielded; a row
    changed after it was yielded is not yielded again, a row changed before
    its turn is yielded as changed. *)
Example example_traversals :
  traverse [Next; Next; Next; Do (insert_row [("a", VInt 3); ("b", VStr "z")]); Next]
    read_all example_world
  = [ Yield [("a", VInt 1); ("b", VStr "x")];
      Yield [("a", VInt 2); ("b", VStr "y")];
      StopIteration; StopIteration ]
  /\ traverse [Next; Do (update_field (VInt 0) "b" (VStr "q"));
               Do (update_field (VInt 1) "b" (VStr "r")); Next; Next]
       read_all example_world
     = [ Yield [("a", VInt 1); ("b", VStr "x")];
         Yield [("a", VInt 2); ("b", VStr "r")];
         StopIteration ].
Proof. split; reflexivity. Qed.

Example example_traversal_sees_insert :
  traverse [Next; Next; Do (insert_row [("a", VInt 3); ("b", VStr "z")]); Next; Next]
           read_all example_world
  = [ Yield [("a", VInt 1); ("b", VStr "x")];
      Yield [("a", VInt 2); ("b", VStr "y")];
      Yield [("a", VInt 3); ("b", VStr "z")];
      StopIteration ].
Proof. reflexivity. Qed.

(** *** The further properties, at the examples *)

(** [Integer] at the text [12]. *)
Lemma coercion_is_idempotent_witness :
  datatype.encode datatype.Integer (VStr "12") = Ok (VInt 12)
  /\ (datatype.decode datatype.Integer (VStr "12") = Ok (VInt 12)
      /\ datatype.encode datatype.Integer (VInt 12) = Ok (VInt 12)
      /\ datatype.decode datatype.Integer (VInt 12) = Ok (VInt 12)
      /\ type_of (VInt 12) = _base_type datatype.Integer
      /\ (type_of (VStr "12") = _base_type datatype.Integer -> VInt 12 = VStr "12")).
Proof.
  split; [reflexivity|].
  exact (@coercion_is_idempotent plain_types plain_runtime datatype.Integer
           (VStr "12") (VInt 12) eq_refl eq_refl).
Defined.

Lemma Array_decode_elements_witness :
  exists s seq,
    VStr ("I::1" ++ nul ++ "S::x" ++ nul) = VStr s
    /\ VList [VInt 1; VStr "x"] = VList seq
    /\ Forall decoded_item seq.
Proof.
  exact (@Array_decode_elements plain_types plain_runtime
           (VStr ("I::1" ++ nul ++ "S::x" ++ nul)) (VList [VInt 1; VStr "x"]) eq_refl).
Defined.

Lemma Array_roundtrip_of_plain_items_witness :
  (low <- datatype.Array.encode (VList [VInt 1; VStr "x"]) ;; datatype.Array.decode low)
  = Ok (VList [VInt 1; VStr "x"]).
Proof.
  apply (@Array_roundtrip_of_plain_items plain_types plain_runtime [VInt 1; VStr "x"]).
  repeat constructor.
Defined.

(** The one-element list with the string [a] and the terminator behind it
    comes back as the list with the string [a]. *)
Lemma Array_string_with_terminator_witness :
  contains nul ("a" ++ nul) = true
  /\ (low <- datatype.Array.encode (VList [VStr ("a" ++ nul)]) ;; datatype.Array.decode low)
     = Ok (VList [VStr "a"])
  /\ (low <- datatype.Array.encode (VList [VStr ("a" ++ nul)]) ;; datatype.Array.decode low)
     <> Ok (VList [VStr ("a" ++ nul)]).
Proof.
  split; [reflexivity|]. split; [reflexivity|].
  apply (@Array_string_with_terminator_is_lost plain_types plain_runtime
           [VStr ("a" ++ nul)] ("a" ++ nul)); [left; reflexivity | reflexivity].
Defined.

Lemma Array_of_str_witness :
  (low <- datatype.Array.encode (VStr "ab") ;; datatype.Array.decode low)
  = Ok (VList [VStr "a"; VStr "b"]).
Proof.
  exact (@Array_of_str_is_its_characters plain_types plain_runtime "ab" eq_refl).
Defined.

(** The example document: one separator, the header text in front of it. *)
Lemma parse_one_separator_witness :
  exists header raw_data,
    example_document = (header ++ "@@" ++ raw_data)%string
    /\ contains "@@" header = false
    /\ contains "@@" raw_data = false
    /\ raw_header example_object = Some header
    /\ file_path example_object = Some "t.scsv"
    /\ _parse_header (strip header) = Ok (annotations example_object)
    /\ fieldnames (csv_DictReader (strip raw_data)) = Ok (Some (fields example_object))
    /\ _dictreader_to_rows (csv_DictReader (strip raw_data)) = Ok (enc_rows example_object)
    /\ (forall name, In name (fields example_object)
                     <-> In name (keys (annotations example_object))).
Proof.
  exact (@parse_returns_only_for_one_separator plain_types plain_runtime example_document
           (Some "t.scsv") example_object eq_refl).
Defined.

Lemma parsed_columns_witness :
  NoDup (keys (annotations example_object))
  /\ (forall col t, In (col, t) (annotations example_object) -> t <> datatype.DateTime)
  /\ (forall name, In name (fields example_object) -> strip name = name).
Proof.
  exact (@parsed_columns plain_types plain_runtime example_document (Some "t.scsv")
           example_object eq_refl).
Defined.

(** A document that ends with the separator: there is no field line. *)
Lemma parse_without_field_line_witness :
  _parse ("a: int" ++ newline ++ "@@") None = Raise TypeError.
Proof.
  exact (@parse_without_field_line plain_types plain_runtime
           ("a: int" ++ newline ++ "@@") ("a: int" ++ newline) "" None
           [("a", datatype.Integer)] eq_refl eq_refl eq_refl).
Defined.

Lemma example_row_native :
  native_row (annotations example_object) [("a", VInt 7); ("b", VStr "z")].
Proof.
  intros col val [[= <- <-] | [[= <- <-] | []]].
  - exists datatype.Integer. split; reflexivity.
  - exists datatype.String. split; [reflexivity | exact I].
Qed.

Lemma example_row_distinct : NoDup (keys [("a", VInt 7); ("b", VStr "z")]).
Proof.
  repeat constructor; simpl; [intros [H | []]; discriminate | tauto].
Qed.

Lemma native_row_survives_encoding_witness :
  exists encoded_row,
    _encode_row (annotations example_object) [("a", VInt 7); ("b", VStr "z")]
    = Ok encoded_row
    /\ keys encoded_row = keys [("a", VInt 7); ("b", VStr "z")]
    /\ _decode_row (annotations example_object) encoded_row
       = Ok [("a", VInt 7); ("b", VStr "z")]
    /\ ((forall col f, ~ In (col, VFloat f) [("a", VInt 7); ("b", VStr "z")]) ->
        exists cells,
          as_text encoded_row = Ok cells
          /\ _decode_row (annotations example_object) cells
             = Ok [("a", VInt 7); ("b", VStr "z")]).
Proof.
  exact (@native_row_survives_encoding plain_types plain_runtime
           (annotations example_object) [("a", VInt 7); ("b", VStr "z")]
           example_row_distinct example_row_native).
Defined.

Lemma example_persistable : persistable (self example_world).
Proof. exists example_header. reflexivity. Qed.

Lemma getitem_after_setitem_witness :
  __getitem__ (VInt 0)
    (snd (__setitem__ (VInt 0) [("a", VInt 7); ("b", VStr "z")] example_world))
  = (Ok (Some [("a", VInt 7); ("b", VStr "z")]),
     snd (__setitem__ (VInt 0) [("a", VInt 7); ("b", VStr "z")] example_world))
  /\ (fst (__setitem__ (VInt 0) [("a", VInt 7); ("b", VStr "z")] example_world) = Ok tt
      <-> savable (self example_world)
            (enc_rows
               (self (snd (__setitem__ (VInt 0) [("a", VInt 7); ("b", VStr "z")]
                             example_world)))))
  /\ (persistable (self example_world) -> writable (enc_rows (self example_world)) ->
      fst (__setitem__ (VInt 0) [("a", VInt 7); ("b", VStr "z")] example_world) = Ok tt).
Proof.
  exact (@getitem_after_setitem plain_types plain_runtime example_world (VInt 0)
           [("a", VInt 7); ("b", VStr "z")]
           (ex_intro _ 0 example_index_0) example_row_distinct example_row_native).
Defined.

Lemma read_after_insert_row_witness :
  List.length
    (enc_rows (self (snd (insert_row [("a", VInt 7); ("b", VStr "z")] example_world))))
  = 3
  /\ (forall n, n < 2 ->
      nth_error
        (enc_rows (self (snd (insert_row [("a", VInt 7); ("b", VStr "z")] example_world)))) n
      = nth_error (enc_rows (self example_world)) n)
  /\ read (VInt 2) (snd (insert_row [("a", VInt 7); ("b", VStr "z")] example_world))
     = (Ok (Some [("a", VInt 7); ("b", VStr "z")]),
        snd (insert_row [("a", VInt 7); ("b", VStr "z")] example_world))
  /\ (fst (insert_row [("a", VInt 7); ("b", VStr "z")] example_world) = Ok tt
      <-> savable (self example_world)
            (enc_rows
               (self (snd (insert_row [("a", VInt 7); ("b", VStr "z")] example_world)))))
  /\ (persistable (self example_world) -> writable (enc_rows (self example_world)) ->
      fst (insert_row [("a", VInt 7); ("b", VStr "z")] example_world) = Ok tt).
Proof.
  exact (@read_after_insert_row plain_types plain_runtime example_world
           [("a", VInt 7); ("b", VStr "z")]
           example_row_distinct example_row_native).
Defined.

(** The two calls return on the example store. *)
Example example_calls_return :
  fst (__setitem__ (VInt 0) [("a", VInt 7); ("b", VStr "z")] example_world) = Ok tt
  /\ fst (insert_row [("a", VInt 7); ("b", VStr "z")] example_world) = Ok tt
  /\ fst (update_field (VInt 0) "b" (VStr "q") example_world) = Ok tt
  /\ fst (remove_row (VInt 0) example_world) = Ok tt.
Proof. repeat split; reflexivity. Qed.

(** [update_field(0, "b", "q")] on the example store. *)
Lemma update_field_at_valid_index_witness :
  exists row',
    nth_error (enc_rows (self (snd (update_field (VInt 0) "b" (VStr "q") example_world)))) 0
    = Some row'
    /\ dict_get "b" row' = Some (VStr "q")
    /\ (forall c, c <> "b" -> dict_get c row' = dict_get c [("a", VStr "1"); ("b", VStr "x")])
    /\ (forall m, m <> 0 ->
        nth_error (enc_rows (self (snd (update_field (VInt 0) "b" (VStr "q") example_world)))) m
        = nth_error (enc_rows (self example_world)) m)
    /\ List.length (enc_rows (self (snd (update_field (VInt 0) "b" (VStr "q") example_world))))
       = List.length (enc_rows (self example_world))
    /\ (fst (update_field (VInt 0) "b" (VStr "q") example_world) = Ok tt
        <-> savable (self example_world)
              (enc_rows (self (snd (update_field (VInt 0) "b" (VStr "q") example_world)))))
    /\ (persistable (self example_world) -> writable (enc_rows (self example_world)) ->
        has_text (VStr "q") ->
        fst (update_field (VInt 0) "b" (VStr "q") example_world) = Ok tt).
Proof.
  exact (@update_field_at_valid_index plain_types plain_runtime example_world (VInt 0) 0
           "b" (VStr "q") [("a", VStr "1"); ("b", VStr "x")]
           example_index_0 eq_refl).
Defined.

Lemma remove_row_shifts_witness :
  S (List.length (enc_rows (self (snd (remove_row (VInt 0) example_world))))) = 2
  /\ (forall m, m < 0 ->
      nth_error (enc_rows (self (snd (remove_row (VInt 0) example_world)))) m
      = nth_error (enc_rows (self example_world)) m)
  /\ (forall m, 0 <= m ->
      nth_error (enc_rows (self (snd (remove_row (VInt 0) example_world)))) m
      = nth_error (enc_rows (self example_world)) (S m))
  /\ (fst (remove_row (VInt 0) example_world) = Ok tt
      <-> savable (self example_world)
            (enc_rows (self (snd (remove_row (VInt 0) example_world)))))
  /\ (savable (self example_world) (enc_rows (self example_world)) ->
      fst (remove_row (VInt 0) example_world) = Ok tt).
Proof.
  exact (@remove_row_shifts plain_types plain_runtime example_world (VInt 0) 0
           example_index_0).
Defined.


Example example_failed_save :
  update_field (VInt 0) "a" (VInt (10 ^ 4300)) example_world
  = (Raise ValueError,
     {| self := with_rows example_object
                  [ [("a", VInt (10 ^ 4300)); ("b", VStr "x")];
                    [("a", VStr "2"); ("b", VStr "y")] ];
        files := [("t.scsv", EmptyString)] |})
  /\ update_field (VInt 0) "a" (VStr "x") example_world = (Raise ValueError, example_world).
Proof. split; [vm_compute; reflexivity | reflexivity]. Qed.

Lemma use_file_store_witness :
  exists header grid,
    dict_get "t.scsv" [("t.scsv", example_document)] = Some (header ++ "@@" ++ grid)%string
    /\ saved_to "t.scsv" header (update_row (VInt 0) [("a", VInt 7)]) example_world
    /\ saved_to "t.scsv" header (update_field (VInt 0) "b" (VStr "q")) example_world
    /\ saved_to "t.scsv" header (remove_row (VInt 0)) example_world
    /\ saved_to "t.scsv" header (insert_row [("a", VInt 7)]) example_world.
Proof.
  refine (@use_file_store_rewrites_its_file plain_types plain_runtime "t.scsv"
            [("t.scsv", example_document)] example_world (VInt 0) [("a", VInt 7)]
            "b" (VStr "q") eq_refl _).
  discriminate.
Defined.

Lemma remove_row_without_header_text_witness :
  fst (remove_row (VInt 0) headless_world) = Raise TypeError
  /\ self (snd (remove_row (VInt 0) headless_world))
     = with_rows (self headless_world) [ [("a", VStr "2")] ]
  /\ dict_get "t.scsv" (files (snd (remove_row (VInt 0) headless_world))) = Some "".
Proof.
  refine (@remove_row_without_header_text plain_types plain_runtime headless_world
            "t.scsv" (VInt 0) 0 eq_refl _ eq_refl _).
  - discriminate.
  - split; [reflexivity | simpl; lia].
Defined.

(** [update_field(0, "b", "x@@y")] on the example store, and the file
    loaded again. *)
Lemma separator_in_value_witness :
  fst (update_field (VInt 0) "b" (VStr "x@@y") example_world) = Ok tt
  /\ supercsv.use_file "t.scsv"
       (files (snd (update_field (VInt 0) "b" (VStr "x@@y") example_world)))
     = Raise ValueError.
Proof.
  refine (@separator_in_value_breaks_file plain_types plain_runtime example_world
            "t.scsv" example_header (VInt 0) "b" (VStr "x@@y") datatype.String
            (VStr "x@@y") "x@@y" eq_refl _ eq_refl example_rows_writable
            (ex_intro _ 0 example_index_0) eq_refl eq_refl eq_refl eq_refl).
  discriminate.
Defined.

Lemma read_agrees_with_read_all_witness :
  read (VInt 1) example_world = (Ok (Some [("a", VInt 2); ("b", VStr "y")]), example_world)
  /\ nth_error (traverse (repeat Next 2) read_all example_world) 1
     = Some (Yield [("a", VInt 2); ("b", VStr "y")]).
Proof.
  refine (@read_agrees_with_read_all plain_types plain_runtime example_world
            [ [("a", VInt 1); ("b", VStr "x")]; [("a", VInt 2); ("b", VStr "y")] ]
            1 2 eq_refl eq_refl _).
  lia.
Defined.

(** The second row of three does not decode. *)
Lemma read_all_ends_witness :
  traverse (repeat Next 3) read_all broken_world
  = [Yield [("a", VInt 1)]; Failed ValueError; StopIteration]
  /\ (forall n enc_row dec_row,
      nth_error [ [("a", VStr "3")] ] n = Some enc_row ->
      _decode_row (annotations (self broken_world)) enc_row = Ok dec_row ->
      read (VInt (Z.of_nat (1 + S n))) broken_world = (Ok (Some dec_row), broken_world)).
Proof.
  exact (@read_all_ends_at_undecodable_row plain_types plain_runtime broken_world
           [ [("a", VStr "1")] ] [ [("a", VStr "3")] ] [("a", VStr "two")]
           [ [("a", VInt 1)] ] ValueError 1 eq_refl eq_refl eq_refl).
Defined.

Lemma parse_string_store_witness :
  supercsv.parse_string example_document = Ok unbound_object
  /\ (files (snd (update_row (VInt 0) [("a", VInt 7)]
                    {| self := unbound_object; files := [("t.scsv", "kept")] |}))
      = [("t.scsv", "kept")]
      /\ files (snd (update_field (VInt 0) "b" (VStr "q")
                       {| self := unbound_object; files := [("t.scsv", "kept")] |}))
         = [("t.scsv", "kept")]
      /\ files (snd (remove_row (VInt 0)
                       {| self := unbound_object; files := [("t.scsv", "kept")] |}))
         = [("t.scsv", "kept")]
      /\ files (snd (insert_row [("a", VInt 7)]
                       {| self := unbound_object; files := [("t.scsv", "kept")] |}))
         = [("t.scsv", "kept")]).
Proof.
  split; [reflexivity|].
  exact (@parse_string_store_never_writes plain_types plain_runtime example_document
           {| self := unbound_object; files := [("t.scsv", "kept")] |}
           (VInt 0) [("a", VInt 7)] "b" (VStr "q") eq_refl).
Defined.

Lemma example_row_7_encodable :
  encodable (annotations (self example_world)) [("a", VInt 7); ("b", VStr "z")].
Proof. exact (native_row_encodable example_row_native). Qed.

Lemma remove_row_undoes_insert_row_witness :
  self (snd (remove_row (VInt 2)
               (snd (insert_row [("a", VInt 7); ("b", VStr "z")] example_world))))
  = self example_world
  /\ (fst (remove_row (VInt 2)
             (snd (insert_row [("a", VInt 7); ("b", VStr "z")] example_world))) = Ok tt
      <-> savable (self example_world) (enc_rows (self example_world)))
  /\ (fst (insert_row [("a", VInt 7); ("b", VStr "z")] example_world) = Ok tt ->
      fst (remove_row (VInt 2)
             (snd (insert_row [("a", VInt 7); ("b", VStr "z")] example_world))) = Ok tt).
Proof.
  exact (@remove_row_undoes_insert_row plain_types plain_runtime example_world
           [("a", VInt 7); ("b", VStr "z")] example_row_7_encodable).
Defined.

Lemma parse_header_of_declarations_witness :
  _parse_header (" a : Int" ++ newline ++ "b:str")
  = Ok [("a", datatype.Integer); ("b", datatype.String)].
Proof.
  apply (@parse_header_of_declarations [(" a ", " Int"); ("b", "str")]).
  repeat constructor.
Defined.

(** The example store after [update_row(0, {"a": 7, "b": "z"})], written and
    parsed again. *)
Lemma saved_document_loads_back_witness :
  (text <- document example_header ["a"; "b"]
             [ [("a", VInt 7); ("b", VStr "z")]; [("a", VStr "2"); ("b", VStr "y")] ] ;;
   _parse text (Some "t.scsv"))
  = Ok {| annotations := [("a", datatype.Integer); ("b", datatype.String)];
          fields := ["a"; "b"];
          enc_rows := [ [("a", VStr "7"); ("b", VStr "z")];
                        [("a", VStr "2"); ("b", VStr "y")] ];
          file_path := Some "t.scsv";
          raw_header := Some example_header |}.
Proof.
  exact (@saved_document_loads_back plain_types plain_runtime example_document
           (Some "t.scsv") example_object example_header
           [ [("a", VInt 7); ("b", VStr "z")]; [("a", VStr "2"); ("b", VStr "y")] ]
           (Some "t.scsv")
           (newline ++ "a,b" ++ newline ++ "7,z" ++ newline ++ "2,y" ++ newline)
           [ [("a", VStr "7"); ("b", VStr "z")]; [("a", VStr "2"); ("b", VStr "y")] ]
           eq_refl eq_refl eq_refl eq_refl eq_refl eq_refl).
Defined.

Lemma example_rows_annotated : annotated_rows (self example_world).
Proof.
  intros row col [<- | [<- | []]] [<- | [<- | []]]; reflexivity.
Qed.

Lemma mutations_keep_rows_annotated_witness :
  annotated_rows (self (snd (update_row (VInt 0) [("a", VInt 7)] example_world)))
  /\ annotated_rows (self (snd (update_field (VInt 0) "b" (VStr "q") example_world)))
  /\ annotated_rows (self (snd (remove_row (VInt 0) example_world)))
  /\ annotated_rows (self (snd (insert_row [("a", VInt 7)] example_world))).
Proof.
  exact (@mutations_keep_rows_annotated plain_types plain_runtime example_world
           (VInt 0) [("a", VInt 7)] "b" (VStr "q") example_rows_annotated).
Defined.
